(** * The record normalization pipeline of [etl/etl.py]

    A shallow embedding of [DataTransformer] (etl/etl.py, lines 146-408):
    duplicate removal, column renaming and trimming, the seven field
    validators, the schema projection and the run report.

    Conventions of the embedding.
    - A Python [str] is a Rocq [string]; its characters are read as the code
      points U+0000..U+00FF.  The character classes below ([str.strip],
      [str.lower], [\d], [\w], the blanks accepted by [float]) are the ones
      CPython uses on those code points.
    - A Python [float] is a binary64 number, written as a [spec_float] with
      53 bits of precision; [float(s)] is correctly rounded (to nearest,
      ties to even), as CPython's [strtod] is.
    - [self.validation_errors] and [self.transformation_log] are the state of
      a [DataTransformer]; every method is a computation in a state and
      exception monad over that state.
    - A [pandas.DataFrame] is a list of labels and a list of rows.  The
      frames the extractor builds have pairwise distinct labels and rows as
      long as the label list ([wf_frame]); what pandas does on repeated
      labels in the raw frame is not modelled. *)

From Stdlib Require Import String Ascii List ZArith NArith Bool Lia.
From Stdlib Require Import Floats.SpecFloat.
Import ListNotations.
Local Open Scope string_scope.
Local Open Scope list_scope.

(* ================================================================= *)
(** ** Python strings *)

Module PyStr.

Definition code (c : ascii) : N := N_of_ascii c.

Definition between (lo hi : N) (c : ascii) : bool :=
  (lo <=? code c)%N && (code c <=? hi)%N.

(** [\d] of the [re] module, and the digits [float] and [int] read. *)
Definition is_digit (c : ascii) : bool := between 48 57 c.

(** [str.isspace]: the characters [str.strip()] removes. *)
Definition is_space (c : ascii) : bool :=
  between 9 13 c || between 28 32 c || (code c =? 133)%N || (code c =? 160)%N.

(** [str.isalnum] or underscore: [\w] of the [re] module on a [str]. *)
Definition is_word (c : ascii) : bool :=
  is_digit c || between 65 90 c || between 97 122 c || (code c =? 95)%N
  || (code c =? 170)%N || (code c =? 178)%N || (code c =? 179)%N
  || (code c =? 181)%N || (code c =? 185)%N || (code c =? 186)%N
  || between 188 190 c || between 192 214 c || between 216 246 c
  || between 248 255 c.

(** [str.lower] on one character. *)
Definition lower_char (c : ascii) : ascii :=
  if between 65 90 c || between 192 214 c || between 216 222 c
  then ascii_of_N (code c + 32) else c.

Definition chars (s : string) : list ascii := list_ascii_of_string s.
Definition of_chars (l : list ascii) : string := string_of_list_ascii l.

Fixpoint lstrip (l : list ascii) : list ascii :=
  match l with
  | c :: r => if is_space c then lstrip r else l
  | [] => []
  end.

Fixpoint rstrip (l : list ascii) : list ascii :=
  match l with
  | [] => []
  | c :: r =>
      match rstrip r with
      | [] => if is_space c then [] else [c]
      | r' => c :: r'
      end
  end.

(** [s.strip()] *)
Definition strip (s : string) : string := of_chars (rstrip (lstrip (chars s))).

(** [s.lower()] *)
Definition lower (s : string) : string := of_chars (map lower_char (chars s)).

(** [len(s)] *)
Definition len (l : list ascii) : Z := Z.of_nat (List.length l).

(** [s[i:j]] and [s[i:]] for [0 <= i <= j]. *)
Definition slice (i j : nat) (l : list ascii) : list ascii :=
  firstn (j - i) (skipn i l).
Definition slice_from (i : nat) (l : list ascii) : list ascii := skipn i l.

(** The guard [not s or s == '' or s == 'nan'] every validator starts with. *)
Definition is_missing (s : string) : bool := (s =? "") || (s =? "nan").

(** A dict literal with string keys, and [k in d] / [d[k]]. *)
Fixpoint dict_get {V} (d : list (string * V)) (k : string) : option V :=
  match d with
  | [] => None
  | (k', v) :: r => if k' =? k then Some v else dict_get r k
  end.

(** Patterns made of single characters and one-or-more repetitions of a
    character class: enough for the e-mail pattern.  [re_fullmatch] decides
    whether the backtracking matcher finds a match covering the string. *)
Inductive re_item :=
| One (p : ascii -> bool)
| Many1 (p : ascii -> bool).

Fixpoint plus_then (p : ascii -> bool) (k : list ascii -> bool)
  (l : list ascii) : bool :=
  match l with
  | [] => false
  | c :: r => p c && (plus_then p k r || k r)
  end.

Fixpoint re_fullmatch (items : list re_item) : list ascii -> bool :=
  match items with
  | [] => fun l => match l with [] => true | _ => false end
  | One p :: rest =>
      fun l => match l with c :: r => p c && re_fullmatch rest r | [] => false end
  | Many1 p :: rest => plus_then p (re_fullmatch rest)
  end.

End PyStr.

(* ================================================================= *)
(** ** Python floats *)

Module PyFloat.
Import PyStr.
Local Open Scope Z_scope.

Definition prec : Z := 53.
Definition emax : Z := 1024.

Inductive exn := ValueError | TypeError | OverflowError | AttributeError.

Definition digit_val (c : ascii) : Z := Z.of_N (code c) - 48.

(** Value of a digit string, most significant digit first. *)
Definition digits_val (ds : list ascii) : Z :=
  fold_left (fun acc c => 10 * acc + digit_val c) ds 0.

Fixpoint span_digits (l : list ascii) : list ascii * list ascii :=
  match l with
  | c :: r =>
      if is_digit c then let (ds, t) := span_digits r in (c :: ds, t)
      else ([], l)
  | [] => ([], [])
  end.

Definition read_sign (l : list ascii) : bool * list ascii :=
  match l with
  | "-"%char :: r => (true, r)
  | "+"%char :: r => (false, r)
  | _ => (false, l)
  end.

(** The binary64 number nearest to [m * 10^e10] ([m >= 0]), ties to even;
    it overflows to an infinity and underflows to a zero. *)
Definition of_decimal (sign : bool) (m : Z) (e10 : Z) : spec_float :=
  match m with
  | Zpos p =>
      if (0 <=? e10)%Z
      then binary_round prec emax sign (Z.to_pos (Zpos p * 10 ^ e10)) 0
      else
        let '(q, e, loc) :=
          SFdiv_core_binary prec emax (Zpos p) 0 (10 ^ (- e10)) 0 in
        binary_round_aux prec emax sign q e loc
  | _ => S754_zero sign
  end.

(** The optional exponent part: [e] or [E], an optional sign and at least
    one digit; when no digit follows, the [e] is not part of the number. *)
Definition read_exponent (l : list ascii) : Z * list ascii :=
  match l with
  | c :: r =>
      if (code c =? 101)%N || (code c =? 69)%N then
        let (neg, r1) := read_sign r in
        let (ds, r2) := span_digits r1 in
        match ds with
        | [] => (0, l)
        | _ => ((if neg then - digits_val ds else digits_val ds), r2)
        end
      else (0, l)
  | [] => (0, l)
  end.

(** A decimal literal: digits with an optional point, at least one digit,
    and an optional exponent.  Returns the number and what follows it. *)
Definition read_decimal (sign : bool) (l : list ascii)
  : option (spec_float * list ascii) :=
  let (ip, r1) := span_digits l in
  let '(fp, r2) :=
    match r1 with
    | "."%char :: r => span_digits r
    | _ => ([], r1)
    end in
  match ip ++ fp with
  | [] => None
  | ds =>
      let (e, r3) := read_exponent r2 in
      Some (of_decimal sign (digits_val ds) (e - Z.of_nat (List.length fp)), r3)
  end.

Fixpoint starts_with_ci (w l : list ascii) : option (list ascii) :=
  match w, l with
  | [], _ => Some l
  | a :: w', c :: r =>
      if (code (lower_char c) =? code a)%N then starts_with_ci w' r else None
  | _ :: _, [] => None
  end.

(** [inf], [infinity] and [nan], in any case. *)
Definition read_inf_nan (sign : bool) (l : list ascii)
  : option (spec_float * list ascii) :=
  match starts_with_ci (chars "inf") l with
  | Some r =>
      match starts_with_ci (chars "inity") r with
      | Some r' => Some (S754_infinity sign, r')
      | None => Some (S754_infinity sign, r)
      end
  | None =>
      match starts_with_ci (chars "nan") l with
      | Some r => Some (S754_nan, r)
      | None => None
      end
  end.

(** Underscores may only stand between two digits; they are removed. *)
Fixpoint drop_underscores (prev : ascii) (l : list ascii)
  : option (list ascii) :=
  match l with
  | [] => if (code prev =? 95)%N then None else Some []
  | c :: r =>
      if (code c =? 95)%N then
        if is_digit prev then drop_underscores c r else None
      else if (code prev =? 95)%N && negb (is_digit c) then None
      else option_map (cons c) (drop_underscores c r)
  end.

(** The blanks [float] skips at both ends: the ASCII ones, and U+0085 and
    U+00A0, which CPython first rewrites to a space. *)
Definition is_blank (c : ascii) : bool :=
  between 9 13 c || (code c =? 32)%N || (code c =? 133)%N || (code c =? 160)%N.

Fixpoint lstrip_blank (l : list ascii) : list ascii :=
  match l with
  | c :: r => if is_blank c then lstrip_blank r else l
  | [] => []
  end.

Fixpoint rstrip_blank (l : list ascii) : list ascii :=
  match l with
  | [] => []
  | c :: r =>
      match rstrip_blank r with
      | [] => if is_blank c then [] else [c]
      | r' => c :: r'
      end
  end.

(** [float(s)] for a [str]: [inl ValueError] when [s] is not a number.
    (CPython also refuses literals of more than 10^9 digits; strings of
    that length are not considered.) *)
Definition float (s : string) : exn + spec_float :=
  match drop_underscores zero (chars s) with
  | None => inl ValueError
  | Some l =>
      let body := rstrip_blank (lstrip_blank l) in
      let (sign, r) := read_sign body in
      let parsed :=
        match read_decimal sign r with
        | Some res => Some res
        | None => read_inf_nan sign r
        end in
      match parsed with
      | Some (x, []) => inr x
      | _ => inl ValueError
      end
  end.

(** [int(x)] for a float [x]: truncation towards zero. *)
Definition int (x : spec_float) : exn + Z :=
  match x with
  | S754_nan => inl ValueError
  | S754_infinity _ => inl OverflowError
  | S754_zero _ => inr 0%Z
  | S754_finite s m e => inr (cond_Zopp s (Z.shiftl (Zpos m) e))
  end.

(** [float(n)] for an [int] [n]: the nearest binary64 number. *)
Definition of_int (n : Z) : spec_float := of_decimal (n <? 0) (Z.abs n) 0.

(** The integer nearest to [n / d], ties to even ([0 <= n], [0 < d]). *)
Definition div_nearest_even (n d : Z) : Z :=
  let q := (n / d)%Z in
  match (2 * (n mod d) ?= d)%Z with
  | Lt => q
  | Eq => if Z.even q then q else (q + 1)%Z
  | Gt => (q + 1)%Z
  end.

(** [round(x, ndigits)] for [0 <= ndigits]: the exact value of [x] is
    rounded to [ndigits] decimals, ties to even, and the decimal result is
    converted back to the nearest float. *)
Definition round (x : spec_float) (ndigits : Z) : spec_float :=
  match x with
  | S754_finite s m e =>
      let n := (Zpos m * 10 ^ ndigits)%Z in
      let q := if (0 <=? e)%Z then (n * 2 ^ e)%Z
               else div_nearest_even n (2 ^ (- e)) in
      of_decimal s q (- ndigits)
  | _ => x
  end.

(** [x <= y] on floats: false as soon as one side is a NaN. *)
Definition leb (x y : spec_float) : bool := SFleb x y.

(** The literals [0.0] and [4.0]. *)
Definition f0 : spec_float := S754_zero false.
Definition f4 : spec_float := Eval vm_compute in of_decimal false 4 0.

End PyFloat.

(* ================================================================= *)
(** ** [datetime.strptime] and [strftime] for the five formats *)

Module PyDate.
Import PyStr PyFloat.
Local Open Scope Z_scope.

(** The directives the formats use, and a literal character. *)
Inductive directive := dY | dm | dd | lit (c : ascii).

Record date := { year : Z; month : Z; day : Z }.

(** The alternatives of one directive that match at the head of the input,
    in the order the regular expression of [_strptime] tries them:
    [%d] is [3[0-1]|[1-2]\d|0[1-9]|[1-9]| [1-9]], [%m] is
    [1[0-2]|0[1-9]|[1-9]].  Each gives the number read and the rest. *)
Definition two (p1 p2 : ascii -> bool) (l : list ascii)
  : list (Z * list ascii) :=
  match l with
  | a :: b :: r =>
      if p1 a && p2 b
      then [(if is_digit a then 10 * digit_val a + digit_val b else digit_val b, r)]
      else []
  | _ => []
  end.

Definition one (p : ascii -> bool) (l : list ascii) : list (Z * list ascii) :=
  match l with
  | a :: r => if p a then [(digit_val a, r)] else []
  | _ => []
  end.

Definition is_code (n : N) (c : ascii) : bool := (code c =? n)%N.

Definition alts_d (l : list ascii) : list (Z * list ascii) :=
  two (is_code 51) (between 48 49) l ++ two (between 49 50) is_digit l
  ++ two (is_code 48) (between 49 57) l ++ one (between 49 57) l
  ++ two (is_code 32) (between 49 57) l.

Definition alts_m (l : list ascii) : list (Z * list ascii) :=
  two (is_code 49) (between 48 50) l ++ two (is_code 48) (between 49 57) l
  ++ one (between 49 57) l.

(** [%Y] is [\d\d\d\d]. *)
Definition alts_Y (l : list ascii) : list (Z * list ascii) :=
  match l with
  | a :: b :: c :: d :: r =>
      if is_digit a && is_digit b && is_digit c && is_digit d
      then [(digits_val [a; b; c; d], r)] else []
  | _ => []
  end.

Fixpoint first_some {A B} (f : A -> option B) (l : list A) : option B :=
  match l with
  | [] => None
  | x :: r => match f x with Some y => Some y | None => first_some f r end
  end.

(** [format_regex.match(data_string)]: the first match in the order of the
    backtracking search, as the fields read and the unconsumed rest. *)
Fixpoint re_match (fmt : list directive) (l : list ascii) (acc : date)
  : option (date * list ascii) :=
  match fmt with
  | [] => Some (acc, l)
  | lit c :: f =>
      match l with
      | c' :: r => if (code c =? code c')%N then re_match f r acc else None
      | [] => None
      end
  | dY :: f =>
      first_some (fun '(v, r) =>
        re_match f r {| year := v; month := month acc; day := day acc |})
        (alts_Y l)
  | dm :: f =>
      first_some (fun '(v, r) =>
        re_match f r {| year := year acc; month := v; day := day acc |})
        (alts_m l)
  | dd :: f =>
      first_some (fun '(v, r) =>
        re_match f r {| year := year acc; month := month acc; day := v |})
        (alts_d l)
  end.

Definition is_leap (y : Z) : bool :=
  (y mod 4 =? 0) && (negb (y mod 100 =? 0) || (y mod 400 =? 0)).

Definition days_in_month (y m : Z) : Z :=
  if m =? 2 then (if is_leap y then 29 else 28)
  else if (m =? 4) || (m =? 6) || (m =? 9) || (m =? 11) then 30
  else 31.

(** [datetime.date(y, m, d)] raises [ValueError] outside these bounds. *)
Definition valid_date (t : date) : bool :=
  (1 <=? year t) && (year t <=? 9999) && (1 <=? month t) && (month t <=? 12)
  && (1 <=? day t) && (day t <=? days_in_month (year t) (month t)).

(** [datetime.strptime(s, fmt)]; [None] stands for its [ValueError]: no
    match, unconverted data after the match, or an impossible date. *)
Definition strptime (s : string) (fmt : list directive) : option date :=
  match re_match fmt (chars s) {| year := 1900; month := 1; day := 1 |} with
  | Some (t, []) => if valid_date t then Some t else None
  | _ => None
  end.

Definition digit_char (n : Z) : ascii := ascii_of_N (Z.to_N (48 + n mod 10)).

Definition two_digits (n : Z) : list ascii :=
  [digit_char (n / 10); digit_char n].

Definition four_digits (n : Z) : list ascii :=
  [digit_char (n / 1000); digit_char (n / 100); digit_char (n / 10);
   digit_char n].

Fixpoint drop_zeros (l : list ascii) : list ascii :=
  match l with
  | c :: (_ :: _) as r => if is_code 48 c then drop_zeros r else l
  | _ => l
  end.

(** [%Y] of [strftime] is left to the C library: some pad a year below
    1000 with zeros to four digits, glibc prints it as it is.
    [pad_year] tells which. *)
Definition strftime_Y (pad_year : bool) (y : Z) : list ascii :=
  if pad_year then four_digits y else drop_zeros (four_digits y).

(** [t.strftime('%Y-%m-%d')] *)
Definition strftime_Y_m_d (pad_year : bool) (t : date) : string :=
  of_chars (strftime_Y pad_year (year t) ++ "-"%char :: two_digits (month t)
            ++ "-"%char :: two_digits (day t)).

End PyDate.

(* ================================================================= *)
(** ** Data frames *)

Module Frame.

Record DataFrame (V : Type) := mkFrame {
  columns : list string;       (* df.columns *)
  rows : list (list V)         (* one list of cells per row, in index order *)
}.
Arguments mkFrame {V} _ _.
Arguments columns {V} _.
Arguments rows {V} _.

Fixpoint nodupb (l : list string) : bool :=
  match l with
  | [] => true
  | x :: r => negb (existsb (String.eqb x) r) && nodupb r
  end.

(** Frames as pandas builds them from a header and padded rows: distinct
    labels, and every row as long as the header. *)
Definition wf_frame {V} (df : DataFrame V) : Prop :=
  nodupb (columns df)
  && forallb (fun r => Nat.eqb (List.length r) (List.length (columns df)))
       (rows df) = true.

(** [len(df)] *)
Definition len {V} (df : DataFrame V) : Z := Z.of_nat (List.length (rows df)).

(** [c in df.columns] *)
Definition has_column {V} (c : string) (df : DataFrame V) : bool :=
  existsb (String.eqb c) (columns df).

(** Position of the first label equal to [c]. *)
Fixpoint index_of (c : string) (cols : list string) : nat :=
  match cols with
  | [] => 0
  | c' :: r => if c' =? c then 0 else S (index_of c r)
  end.

(** [row[c]] *)
Definition cell {V} (d : V) (cols : list string) (c : string) (r : list V) : V :=
  nth (index_of c cols) r d.

(** [df[c]] as the list of its cells. *)
Definition column {V} (d : V) (df : DataFrame V) (c : string) : list V :=
  map (cell d (columns df) c) (rows df).

Fixpoint set_nth {V} (i : nat) (v : V) (r : list V) : list V :=
  match r, i with
  | [], _ => []
  | _ :: t, O => v :: t
  | x :: t, S i' => x :: set_nth i' v t
  end.

(** [df[c] = vs] for a label [c] the frame has. *)
Definition set_column {V} (df : DataFrame V) (c : string) (vs : list V)
  : DataFrame V :=
  mkFrame (columns df)
    (map (fun '(r, v) => set_nth (index_of c (columns df)) v r)
         (combine (rows df) vs)).

(** [df[mask]]: the rows where the mask holds. *)
Fixpoint select {A} (mask : list bool) (l : list A) : list A :=
  match mask, l with
  | b :: m, x :: r => if b then x :: select m r else select m r
  | _, _ => []
  end.

(** [Series.duplicated(keep='first')]: a value is marked when an earlier
    row already holds it. *)
Fixpoint duplicated (seen : list string) (ids : list string) : list bool :=
  match ids with
  | [] => []
  | x :: r => existsb (String.eqb x) seen :: duplicated (x :: seen) r
  end.

(** [df[cs]] for a list of labels the frame has. *)
Definition project {V} (d : V) (df : DataFrame V) (cs : list string)
  : DataFrame V :=
  mkFrame cs (map (fun r => map (fun c => cell d (columns df) c r) cs) (rows df)).

End Frame.

(* ================================================================= *)
(** ** [DataTransformer] *)

Module Etl.
Import PyStr PyFloat PyDate Frame.
Local Open Scope Z_scope.

(** Values a cleaned cell can hold. *)
Inductive pyval :=
| PNone
| PStr (s : string)
| PInt (z : Z)
| PFloat (x : spec_float).

(** The ['error'] text of an entry of [validation_errors], with the values
    the source formats into it. *)
Inductive error_text :=
| Invalid_email_format
| Year_out_of_range (year_int : Z)
| Unable_to_parse_date
| GPA_out_of_range (gpa_float : spec_float).

Record ValidationError := mkError {
  field : string;
  value : string;
  error : error_text
}.

(** An entry of [transformation_log], by its ['action']. *)
Inductive TransformationEvent :=
| DUPLICATE_REMOVED (student_id : string)
| DEPARTMENT_NORMALIZED (original normalized : string).

(** The instance attributes set by [__init__]. *)
Record DataTransformer := mkTransformer {
  validation_errors : list ValidationError;
  transformation_log : list TransformationEvent
}.

(** [DataTransformer()] *)
Definition __init__ : DataTransformer := mkTransformer [] [].

Inductive outcome (A : Type) :=
| Return (a : A)
| Raise (e : exn).
Arguments Return {A} _.
Arguments Raise {A} _.

(** A method body: it reads and updates [self] and returns or raises. *)
Definition M (A : Type) : Type := DataTransformer -> outcome A * DataTransformer.

Definition ret {A} (a : A) : M A := fun self => (Return a, self).

Definition bind {A B} (c : M A) (k : A -> M B) : M B :=
  fun self =>
    match c self with
    | (Return a, self') => k a self'
    | (Raise e, self') => (Raise e, self')
    end.

Definition raise {A} (e : exn) : M A := fun self => (Raise e, self).

Notation "x <- c1 ;; c2" := (bind c1 (fun x => c2))
  (at level 61, c1 at next level, right associativity).
Notation "c1 ;;; c2" := (bind c1 (fun _ => c2))
  (at level 61, right associativity).

Definition lift {A} (r : exn + A) : M A :=
  match r with
  | inl e => raise e
  | inr a => ret a
  end.

(** [try: c  except (e1, ..., en): h] *)
Definition try_except {A} (c : M A) (caught : exn -> bool) (h : M A) : M A :=
  fun self =>
    match c self with
    | (Raise e, self') => if caught e then h self' else (Raise e, self')
    | r => r
    end.

(** [self.validation_errors.append(e)] *)
Definition append_error (e : ValidationError) : M unit :=
  fun self =>
    (Return tt,
     mkTransformer (validation_errors self ++ [e]) (transformation_log self)).

(** [self.transformation_log.append(e)] *)
Definition append_log (e : TransformationEvent) : M unit :=
  fun self =>
    (Return tt,
     mkTransformer (validation_errors self) (transformation_log self ++ [e])).

(** The calls of [Series.apply(f)], and a [for] loop with a body [f]: the
    elements in order, the state threaded through. *)
Fixpoint mapM {A B} (f : A -> M B) (l : list A) : M (list B) :=
  match l with
  | [] => ret []
  | x :: r => y <- f x ;; ys <- mapM f r ;; ret (y :: ys)
  end.

Fixpoint for_each {A} (l : list A) (f : A -> M unit) : M unit :=
  match l with
  | [] => ret tt
  | x :: r => f x ;;; for_each r f
  end.

Definition DEPARTMENT_MAPPING : list (string * string) :=
  [("cs", "Computer Science"); ("compsci", "Computer Science");
   ("computer science", "Computer Science"); ("math", "Mathematics");
   ("mathematics", "Mathematics"); ("physics", "Physics");
   ("business", "Business Administration");
   ("business administration", "Business Administration");
   ("ee", "Electrical Engineering");
   ("electrical engineering", "Electrical Engineering")].

Definition STATUS_MAPPING : list (string * string) :=
  [("active", "active"); ("inactive", "inactive");
   ("graduated", "graduated"); ("suspended", "suspended")].

Definition is_char (a : ascii) (c : ascii) : bool := (code a =? code c)%N.

(** [^[\w\.-]+@[\w\.-]+\.\w+$]; the subject is stripped, so [$] only
    matches at its end. *)
Definition email_pattern : list re_item :=
  let local := fun c => is_word c || is_char "." c || is_char "-" c in
  [Many1 local; One (is_char "@"); Many1 local; One (is_char "."); Many1 is_word].

Definition _clean_email (email : string) : M pyval :=
  if is_missing email then ret PNone
  else
    let email := strip (lower email) in
    if negb (re_fullmatch email_pattern (chars email)) then
      append_error (mkError "email" email Invalid_email_format) ;;;
      ret PNone
    else ret (PStr email).

Definition _map_department (dept : string) : M pyval :=
  if is_missing dept then ret PNone
  else
    let dept_lower := strip (lower dept) in
    match dict_get DEPARTMENT_MAPPING dept_lower with
    | Some mapped =>
        (if negb (mapped =? dept)%string
         then append_log (DEPARTMENT_NORMALIZED dept mapped)
         else ret tt) ;;;
        ret (PStr mapped)
    | None => ret (PStr dept)
    end.

Definition _map_status (status : string) : M pyval :=
  if is_missing status then ret (PStr "active")
  else
    let status_lower := strip (lower status) in
    match dict_get STATUS_MAPPING status_lower with
    | Some v => ret (PStr v)
    | None => ret (PStr "active")
    end.

Definition is_ValueError_or_TypeError (e : exn) : bool :=
  match e with
  | ValueError | TypeError => true
  | _ => false
  end.

Definition _clean_year (year : string) : M pyval :=
  if is_missing year then ret PNone
  else
    try_except
      (x <- lift (float year) ;;
       year_int <- lift (int x) ;;
       if (1 <=? year_int) && (year_int <=? 4) then ret (PInt year_int)
       else
         append_error (mkError "year_level" year (Year_out_of_range year_int)) ;;;
         ret (PInt (Z.max 1 (Z.min 4 year_int))))
      is_ValueError_or_TypeError
      (ret PNone).

Definition _clean_phone (phone : string) : M pyval :=
  if is_missing phone then ret PNone
  else
    let digits := filter is_digit (chars phone) in
    if PyStr.len digits =? 10 then
      ret (PStr (of_chars (slice 0 3 digits ++ "-"%char :: slice 3 6 digits
                           ++ "-"%char :: slice_from 6 digits)))
    else if PyStr.len digits =? 7 then
      ret (PStr (of_chars (slice 0 3 digits ++ "-"%char :: slice_from 3 digits)))
    else ret (PStr phone).

Definition date_formats : list (list directive) :=
  [ [dY; lit "-"; dm; lit "-"; dd];      (* %Y-%m-%d *)
    [dm; lit "/"; dd; lit "/"; dY];      (* %m/%d/%Y *)
    [dm; lit "-"; dd; lit "-"; dY];      (* %m-%d-%Y *)
    [dd; lit "/"; dm; lit "/"; dY];      (* %d/%m/%Y *)
    [dd; lit "-"; dm; lit "-"; dY] ].    (* %d-%m-%Y *)

Section Platform.

(** Whether the C library pads [%Y] to four digits (see [strftime_Y]). *)
Variable pad_year : bool.

(** The [for fmt in date_formats] loop: the first format that parses
    returns; [None] when the loop runs to its end. *)
Fixpoint try_formats (date_str : string) (fmts : list (list directive))
  : option string :=
  match fmts with
  | [] => None
  | fmt :: r =>
      match strptime (strip date_str) fmt with
      | Some parsed => Some (strftime_Y_m_d pad_year parsed)
      | None => try_formats date_str r
      end
  end.

Definition _clean_date (date_str : string) : M pyval :=
  if is_missing date_str then ret PNone
  else
    match try_formats date_str date_formats with
    | Some out => ret (PStr out)
    | None =>
        append_error (mkError "date_of_birth" date_str Unable_to_parse_date) ;;;
        ret PNone
    end.

Definition _clean_gpa (gpa : string) : M pyval :=
  if is_missing gpa || (gpa =? "##")%string then ret PNone
  else
    try_except
      (gpa_float <- lift (float gpa) ;;
       if leb f0 gpa_float && leb gpa_float f4
       then ret (PFloat (round gpa_float 2))
       else
         append_error (mkError "gpa" gpa (GPA_out_of_range gpa_float)) ;;;
         ret PNone)
      is_ValueError_or_TypeError
      (ret PNone).

(** [_remove_duplicates]: rows whose ['Student ID'] an earlier row already
    holds are logged and dropped. *)
Definition _remove_duplicates (df : DataFrame string) : M (DataFrame string) :=
  if has_column "Student ID" df then
    let mask := duplicated [] (column "" df "Student ID") in
    let duplicates := select mask (rows df) in
    for_each duplicates (fun row =>
      append_log (DUPLICATE_REMOVED (cell "N/A" (columns df) "Student ID" row))) ;;;
    ret (mkFrame (columns df) (select (map negb mask) (rows df)))
  else ret df.

Definition column_mapping : list (string * string) :=
  [("Student ID", "student_id"); ("Email", "email");
   ("First Name", "first_name"); ("Last Name", "last_name");
   ("Year", "year_level"); ("Department", "department");
   ("Status", "status"); ("Phone", "phone"); ("DOB", "date_of_birth");
   ("GPA", "gpa")].

(** What [df.rename(columns=column_mapping)] does to one label. *)
Definition rename (c : string) : string :=
  match dict_get column_mapping c with
  | Some c' => c'
  | None => c
  end.

(** [_normalize_columns]: every column of a frame of strings has dtype
    [object] and is stripped.  When the renaming makes two labels equal,
    [df[col]] is a frame, not a series, and [df[col].dtype] raises. *)
Definition _normalize_columns (df : DataFrame string) : M (DataFrame string) :=
  let cols := map rename (columns df) in
  if nodupb cols then ret (mkFrame cols (map (map strip) (rows df)))
  else raise AttributeError.

Definition is_str (v : pyval) : bool :=
  match v with PStr _ => true | _ => false end.
Definition is_none (v : pyval) : bool :=
  match v with PNone => true | _ => false end.
Definition is_int (v : pyval) : bool :=
  match v with PInt _ => true | _ => false end.
Definition is_float (v : pyval) : bool :=
  match v with PFloat _ => true | _ => false end.

(** A cell of a [float64] column: [None] is stored as NaN and an [int] as
    the float of the same value. *)
Definition to_float64 (v : pyval) : pyval :=
  match v with
  | PNone => PFloat S754_nan
  | PInt z => PFloat (of_int z)
  | _ => v
  end.

(** The dtype [Series.apply] gives the values its function returned
    ([lib.map_infer] with [convert=True]).  A column that holds a string
    stays [object] and keeps the values as they are; so does one of
    [None] only.  Without a string, a float makes the column [float64],
    and so does a [None] beside an [int]; integers alone make it [int64],
    which holds them unchanged.  (The integers [_clean_year] returns lie
    between 1 and 4, so the bounds of [int64] play no part.) *)
Definition maybe_convert_objects (vs : list pyval) : list pyval :=
  if existsb is_str vs then vs
  else if existsb is_float vs then map to_float64 vs
  else if existsb is_none vs && existsb is_int vs then map to_float64 vs
  else vs.

(** [if c in df.columns: df[c] = df[c].apply(f)]: the column becomes the
    values of [f], in the dtype [Series.apply] gives them.  The cells are
    read from [src], the frame as it entered [_validate_and_clean]: the
    seven labels differ, so no column is read after it was written. *)
Definition apply_column (src : DataFrame string) (c : string)
  (f : string -> M pyval) (df : DataFrame pyval) : M (DataFrame pyval) :=
  if has_column c src then
    vs <- mapM f (column "" src c) ;;
    ret (set_column df c (maybe_convert_objects vs))
  else ret df.

Definition _validate_and_clean (df : DataFrame string) : M (DataFrame pyval) :=
  let df0 := mkFrame (columns df) (map (map PStr) (rows df)) in
  df1 <- apply_column df "email" _clean_email df0 ;;
  df2 <- apply_column df "department" _map_department df1 ;;
  df3 <- apply_column df "status" _map_status df2 ;;
  df4 <- apply_column df "year_level" _clean_year df3 ;;
  df5 <- apply_column df "phone" _clean_phone df4 ;;
  df6 <- apply_column df "date_of_birth" _clean_date df5 ;;
  apply_column df "gpa" _clean_gpa df6.

Definition schema_columns : list string :=
  ["student_id"; "email"; "first_name"; "last_name"; "year_level";
   "department"; "status"; "phone"; "date_of_birth"].

Definition _map_to_schema (df : DataFrame pyval) : DataFrame pyval :=
  let available_columns :=
    filter (fun col => has_column col df) schema_columns in
  project PNone df available_columns.

(** The dict [transform] returns.  Its two lists are the lists of the
    instance themselves, not copies. *)
Record TransformReport := mkReport {
  original_count : Z;
  final_count : Z;
  duplicates_removed : Z;
  report_validation_errors : list ValidationError;
  report_transformations : list TransformationEvent
}.

Definition transform (df : DataFrame string)
  : M (DataFrame pyval * TransformReport) :=
  let original_count := len df in
  df <- _remove_duplicates df ;;
  df <- _normalize_columns df ;;
  df <- _validate_and_clean df ;;
  let df := _map_to_schema df in
  fun self =>
    (Return (df, mkReport original_count (len df) (original_count - len df)
                   (validation_errors self) (transformation_log self)),
     self).

End Platform.

End Etl.

(* ================================================================= *)
(** * Properties *)

Import PyStr PyFloat PyDate Frame Etl.
Local Open Scope Z_scope.

(** ** Computations that only append to the two lists

    Every method below [transform] returns a result that does not depend
    on the lists of the instance, and leaves them extended by entries that
    do not depend on them either. *)

Definition extend (self : DataTransformer) (es : list ValidationError)
  (ls : list TransformationEvent) : DataTransformer :=
  mkTransformer (validation_errors self ++ es) (transformation_log self ++ ls).

Definition appends {A} (c : M A) (r : outcome A) (es : list ValidationError)
  (ls : list TransformationEvent) : Prop :=
  forall self, c self = (r, extend self es ls).

Definition uniform {A} (c : M A) : Prop :=
  exists r es ls, appends c r es ls.

Lemma extend_nil self : extend self [] [] = self.
Proof. destruct self; unfold extend; simpl; now rewrite !app_nil_r. Qed.

Lemma extend_extend self es ls es' ls' :
  extend (extend self es ls) es' ls' = extend self (es ++ es') (ls ++ ls').
Proof. unfold extend; simpl; now rewrite !app_assoc. Qed.

Lemma appends_ret {A} (a : A) : appends (ret a) (Return a) [] [].
Proof. intro self; unfold ret; now rewrite extend_nil. Qed.

Lemma appends_bind_return {A B} (c : M A) (k : A -> M B) a es ls r es' ls' :
  appends c (Return a) es ls -> appends (k a) r es' ls' ->
  appends (bind c k) r (es ++ es') (ls ++ ls').
Proof.
  intros Hc Hk self; unfold bind; rewrite Hc, Hk; now rewrite extend_extend.
Qed.

Lemma appends_bind_raise {A B} (c : M A) (k : A -> M B) e es ls :
  appends c (Raise e) es ls -> appends (bind c k) (Raise e) es ls.
Proof. intros Hc self; unfold bind; now rewrite Hc. Qed.

Lemma uniform_ret {A} (a : A) : uniform (ret a).
Proof. exists (Return a), [], []; apply appends_ret. Qed.

Lemma uniform_raise {A} (e : exn) : uniform (@raise A e).
Proof.
  exists (Raise e), [], []; intro self; unfold raise; now rewrite extend_nil.
Qed.

Lemma uniform_lift {A} (r : exn + A) : uniform (lift r).
Proof. destruct r; [apply uniform_raise | apply uniform_ret]. Qed.

Lemma uniform_append_error e : uniform (append_error e).
Proof.
  exists (Return tt), [e], []; intro self; unfold append_error, extend.
  now rewrite app_nil_r.
Qed.

Lemma uniform_append_log e : uniform (append_log e).
Proof.
  exists (Return tt), [], [e]; intro self; unfold append_log, extend.
  now rewrite app_nil_r.
Qed.

Lemma uniform_bind {A B} (c : M A) (k : A -> M B) :
  uniform c -> (forall a, uniform (k a)) -> uniform (bind c k).
Proof.
  intros (r & es & ls & Hc) Hk; destruct r as [a | e].
  - destruct (Hk a) as (r' & es' & ls' & Hk').
    exists r', (es ++ es'), (ls ++ ls'); eapply appends_bind_return; eauto.
  - exists (Raise e), es, ls; now apply appends_bind_raise.
Qed.

Lemma uniform_try_except {A} (c : M A) caught (h : M A) :
  uniform c -> uniform h -> uniform (try_except c caught h).
Proof.
  intros (r & es & ls & Hc) (r' & es' & ls' & Hh); destruct r as [a | e].
  - exists (Return a), es, ls; intro self; unfold try_except; now rewrite Hc.
  - destruct (caught e) eqn:E.
    + exists r', (es ++ es'), (ls ++ ls'); intro self; unfold try_except.
      now rewrite Hc, E, Hh, extend_extend.
    + exists (Raise e), es, ls; intro self; unfold try_except.
      now rewrite Hc, E.
Qed.

Lemma uniform_mapM {A B} (f : A -> M B) (l : list A) :
  (forall a, uniform (f a)) -> uniform (mapM f l).
Proof.
  intro Hf; induction l as [| x l IH]; simpl.
  - apply uniform_ret.
  - apply uniform_bind; [apply Hf | intro y].
    apply uniform_bind; [apply IH | intro ys; apply uniform_ret].
Qed.

Lemma uniform_for_each {A} (l : list A) (f : A -> M unit) :
  (forall a, uniform (f a)) -> uniform (for_each l f).
Proof.
  intro Hf; induction l as [| x l IH]; simpl.
  - apply uniform_ret.
  - apply uniform_bind; [apply Hf | intros _; apply IH].
Qed.

Ltac uniform_step :=
  first
    [ apply uniform_ret | apply uniform_raise | apply uniform_lift
    | apply uniform_append_error | apply uniform_append_log
    | apply uniform_bind; [| intro]
    | apply uniform_try_except
    | apply uniform_mapM; intro
    | apply uniform_for_each; intro
    | match goal with
      | |- uniform (if ?b then _ else _) => destruct b
      | |- uniform (match ?x with _ => _ end) => destruct x
      end ].

Ltac uniform_tac := repeat uniform_step.

Lemma uniform_clean_email s : uniform (_clean_email s).
Proof. unfold _clean_email; uniform_tac. Qed.

Lemma uniform_map_department s : uniform (_map_department s).
Proof. unfold _map_department; uniform_tac. Qed.

Lemma uniform_map_status s : uniform (_map_status s).
Proof. unfold _map_status; uniform_tac. Qed.

Lemma uniform_clean_year s : uniform (_clean_year s).
Proof. unfold _clean_year; uniform_tac. Qed.

Lemma uniform_clean_phone s : uniform (_clean_phone s).
Proof. unfold _clean_phone; uniform_tac. Qed.

Lemma uniform_clean_date pad s : uniform (_clean_date pad s).
Proof. unfold _clean_date; uniform_tac. Qed.

Lemma uniform_clean_gpa s : uniform (_clean_gpa s).
Proof. unfold _clean_gpa; uniform_tac. Qed.

Lemma uniform_apply_column src c f df :
  (forall s, uniform (f s)) -> uniform (apply_column src c f df).
Proof. intro Hf; unfold apply_column; uniform_tac; apply Hf. Qed.

Lemma uniform_validate_and_clean pad df : uniform (_validate_and_clean pad df).
Proof.
  unfold _validate_and_clean.
  repeat (apply uniform_bind; [| intro]);
    apply uniform_apply_column; intro;
    auto using uniform_clean_email, uniform_map_department, uniform_map_status,
      uniform_clean_year, uniform_clean_phone, uniform_clean_date,
      uniform_clean_gpa.
Qed.

Lemma uniform_remove_duplicates df : uniform (_remove_duplicates df).
Proof. unfold _remove_duplicates; uniform_tac. Qed.

Lemma uniform_normalize_columns df : uniform (_normalize_columns df).
Proof. unfold _normalize_columns; uniform_tac. Qed.

(** ** The stages of [transform] *)

Lemma bind_Return_inv {A B} (c : M A) (k : A -> M B) self b self' :
  bind c k self = (Return b, self') ->
  exists a s1, c self = (Return a, s1) /\ k a s1 = (Return b, self').
Proof.
  unfold bind; destruct (c self) as [[a | e] s1]; intro H.
  - now exists a, s1.
  - discriminate.
Qed.

Lemma mapM_length {A B} (f : A -> M B) l :
  forall self ys self',
    mapM f l self = (Return ys, self') -> List.length ys = List.length l.
Proof.
  induction l as [| x l IH]; simpl; intros self ys self' H.
  - inversion H; reflexivity.
  - apply bind_Return_inv in H as (y & s1 & _ & H).
    apply bind_Return_inv in H as (ys' & s2 & H1 & H).
    inversion H; subst; simpl; f_equal; eauto.
Qed.

Lemma for_each_append_log {A} (g : A -> TransformationEvent) l self :
  for_each l (fun x => append_log (g x)) self
  = (Return tt, extend self [] (map g l)).
Proof.
  revert self; induction l as [| x l IH]; intro self; simpl.
  - unfold ret; now rewrite extend_nil.
  - unfold bind, append_log; rewrite IH; unfold extend; simpl.
    now rewrite !app_nil_r, <- app_assoc.
Qed.

(** The rows [_remove_duplicates] drops and keeps. *)
Definition id_of (df : DataFrame string) (row : list string) : string :=
  cell "" (columns df) "Student ID" row.

Definition dup_mask (df : DataFrame string) : list bool :=
  duplicated [] (map (id_of df) (rows df)).

Definition dropped_rows (df : DataFrame string) : list (list string) :=
  select (dup_mask df) (rows df).

Definition kept_rows (df : DataFrame string) : list (list string) :=
  select (map negb (dup_mask df)) (rows df).

Lemma remove_duplicates_eq df self :
  has_column "Student ID" df = true ->
  _remove_duplicates df self
  = (Return (mkFrame (columns df) (kept_rows df)),
     extend self []
       (map (fun row =>
               DUPLICATE_REMOVED (cell "N/A" (columns df) "Student ID" row))
            (dropped_rows df))).
Proof.
  intro H; unfold _remove_duplicates; rewrite H.
  unfold bind; rewrite for_each_append_log; reflexivity.
Qed.

Lemma remove_duplicates_absent df self :
  has_column "Student ID" df = false -> _remove_duplicates df self = (Return df, self).
Proof. intro H; unfold _remove_duplicates; now rewrite H. Qed.

Lemma select_length_le {A} (mask : list bool) (l : list A) :
  (List.length (select mask l) <= List.length l)%nat.
Proof.
  revert l; induction mask as [| b m IH]; intros [| x l]; simpl; try lia.
  destruct b; simpl; specialize (IH l); lia.
Qed.

Lemma select_partition {A} (mask : list bool) (l : list A) :
  List.length mask = List.length l ->
  (List.length (select mask l) + List.length (select (map negb mask) l)
   = List.length l)%nat.
Proof.
  revert l; induction mask as [| b m IH]; intros [| x l]; simpl; try lia.
  intro H; destruct b; simpl; specialize (IH l); lia.
Qed.

Lemma duplicated_length seen ids :
  List.length (duplicated seen ids) = List.length ids.
Proof. revert seen; induction ids; intro; simpl; auto. Qed.

Lemma dup_mask_length df : List.length (dup_mask df) = List.length (rows df).
Proof. unfold dup_mask; now rewrite duplicated_length, length_map. Qed.

Lemma kept_dropped_count df :
  (List.length (kept_rows df) + List.length (dropped_rows df)
   = List.length (rows df))%nat.
Proof.
  unfold kept_rows, dropped_rows.
  rewrite Nat.add_comm; apply select_partition, dup_mask_length.
Qed.

Lemma normalize_columns_cases df self :
  (_normalize_columns df self
   = (Return (mkFrame (map rename (columns df)) (map (map strip) (rows df))),
      self)
   /\ nodupb (map rename (columns df)) = true)
  \/ (_normalize_columns df self = (Raise AttributeError, self)
      /\ nodupb (map rename (columns df)) = false).
Proof.
  unfold _normalize_columns; destruct (nodupb _); [left | right]; auto.
Qed.

Lemma set_nth_length {V} i (v : V) r :
  List.length (set_nth i v r) = List.length r.
Proof.
  revert i; induction r as [| x r IH]; intros [| i]; simpl; auto.
Qed.

Lemma maybe_convert_objects_length vs :
  List.length (maybe_convert_objects vs) = List.length vs.
Proof.
  unfold maybe_convert_objects.
  destruct (existsb is_str vs); [reflexivity |].
  destruct (existsb is_float vs); [apply length_map |].
  destruct (existsb is_none vs && existsb is_int vs);
    [apply length_map | reflexivity].
Qed.

Definition same_shape (src : DataFrame string) (d : DataFrame pyval) : Prop :=
  columns d = columns src /\ List.length (rows d) = List.length (rows src).

Lemma apply_column_shape src c f (df : DataFrame pyval) self d self' :
  same_shape src df ->
  apply_column src c f df self = (Return d, self') ->
  same_shape src d.
Proof.
  unfold apply_column, same_shape; intros [C L] H; destruct (has_column c src).
  - apply bind_Return_inv in H as (vs & s1 & Hm & H).
    inversion H; subst; simpl; split; auto.
    apply mapM_length in Hm; unfold column in Hm; rewrite length_map in Hm.
    rewrite length_map, length_combine, maybe_convert_objects_length; lia.
  - inversion H; subst; auto.
Qed.

Lemma validate_and_clean_shape pad df self d self' :
  _validate_and_clean pad df self = (Return d, self') -> same_shape df d.
Proof.
  unfold _validate_and_clean; intro H.
  assert (S0 : same_shape df (mkFrame (columns df) (map (map PStr) (rows df))))
    by (split; simpl; [reflexivity | now rewrite length_map]).
  revert S0 H; generalize (mkFrame (columns df) (map (map PStr) (rows df))).
  intros d0 S0 H.
  repeat
    match type of H with
    | bind _ _ _ = _ =>
        let a := fresh "d" in let s := fresh "s" in let Ha := fresh "Ha" in
        apply bind_Return_inv in H as (a & s & Ha & H);
        eapply apply_column_shape in Ha; [| eassumption ]
    end.
  eapply apply_column_shape in H; eauto.
Qed.

(** The three stages that touch the instance, as one computation; what
    [transform] adds is the projection and the report. *)
Definition stages (pad_year : bool) (df : DataFrame string)
  : M (DataFrame pyval) :=
  d1 <- _remove_duplicates df ;;
  d2 <- _normalize_columns d1 ;;
  _validate_and_clean pad_year d2.

Definition finish (original_count : Z) (d : DataFrame pyval)
  : M (DataFrame pyval * TransformReport) :=
  fun self =>
    let out := _map_to_schema d in
    (Return (out, mkReport original_count (len out) (original_count - len out)
                    (validation_errors self) (transformation_log self)),
     self).

Lemma transform_stages pad df self :
  transform pad df self = bind (stages pad df) (finish (len df)) self.
Proof.
  unfold transform, stages, bind.
  destruct (_remove_duplicates df self) as [[d1 | e] s1]; auto.
  destruct (_normalize_columns d1 s1) as [[d2 | e] s2]; auto.
Qed.

Lemma uniform_stages pad df : uniform (stages pad df).
Proof.
  unfold stages; apply uniform_bind; [apply uniform_remove_duplicates | intro].
  apply uniform_bind; [apply uniform_normalize_columns | intro].
  apply uniform_validate_and_clean.
Qed.

(** What a caller can compare between two runs: the frame and the three
    counts, or the exception. *)
Definition observable (r : outcome (DataFrame pyval * TransformReport))
  : outcome (DataFrame pyval * (Z * Z * Z)) :=
  match r with
  | Return (out, rep) =>
      Return (out, (original_count rep, final_count rep, duplicates_removed rep))
  | Raise e => Raise e
  end.

(** The entries a run on a fresh instance records. *)
Definition fresh_errors (pad_year : bool) (df : DataFrame string)
  : list ValidationError :=
  validation_errors (snd (transform pad_year df __init__)).

Definition fresh_log (pad_year : bool) (df : DataFrame string)
  : list TransformationEvent :=
  transformation_log (snd (transform pad_year df __init__)).

Lemma transform_appends pad df :
  exists r es ls,
    appends (stages pad df) r es ls
    /\ forall self,
         transform pad df self
         = match r with
           | Return d => finish (len df) d (extend self es ls)
           | Raise e => (Raise e, extend self es ls)
           end.
Proof.
  destruct (uniform_stages pad df) as (r & es & ls & H).
  exists r, es, ls; split; auto; intro self.
  rewrite transform_stages; unfold bind; rewrite H; now destruct r.
Qed.

Definition deduped (df : DataFrame string) : DataFrame string :=
  if has_column "Student ID" df then mkFrame (columns df) (kept_rows df) else df.

Lemma remove_duplicates_result df self :
  exists self', _remove_duplicates df self = (Return (deduped df), self').
Proof.
  unfold deduped; destruct (has_column "Student ID" df) eqn:H.
  - rewrite remove_duplicates_eq by assumption; eauto.
  - rewrite remove_duplicates_absent by assumption; eauto.
Qed.

Lemma stages_shape pad df self d self' :
  stages pad df self = (Return d, self') ->
  columns d = map rename (columns df)
  /\ List.length (rows d) = List.length (rows (deduped df))
  /\ nodupb (map rename (columns df)) = true.
Proof.
  unfold stages; intro H.
  apply bind_Return_inv in H as (d1 & s1 & H1 & H).
  apply bind_Return_inv in H as (d2 & s2 & H2 & H).
  destruct (remove_duplicates_result df self) as (s & E).
  rewrite E in H1; inversion H1; subst d1 s1; clear H1.
  destruct (normalize_columns_cases (deduped df) s) as [[E2 N] | [E2 _]];
    rewrite E2 in H2; [| discriminate].
  inversion H2; subst d2 s2; clear H2.
  apply validate_and_clean_shape in H as [C L]; simpl in C, L.
  rewrite length_map in L.
  assert (CD : columns (deduped df) = columns df)
    by (unfold deduped; now destruct (has_column _ df)).
  rewrite CD in *; auto.
Qed.

Lemma transform_Return pad df self out rep self' :
  transform pad df self = (Return (out, rep), self') ->
  exists d es ls,
    appends (stages pad df) (Return d) es ls
    /\ self' = extend self es ls
    /\ out = _map_to_schema d
    /\ rep = mkReport (len df) (len out) (len df - len out)
               (validation_errors self') (transformation_log self').
Proof.
  destruct (transform_appends pad df) as (r & es & ls & Hs & Ht).
  rewrite Ht; destruct r as [d | e]; [| discriminate].
  unfold finish; intro H; inversion H; subst.
  exists d, es, ls; auto.
Qed.

Lemma fresh_run pad df d es ls :
  appends (stages pad df) (Return d) es ls ->
  fresh_errors pad df = es /\ fresh_log pad df = ls.
Proof.
  intro H; unfold fresh_errors, fresh_log.
  rewrite transform_stages; unfold bind; rewrite H; simpl; auto.
Qed.

Lemma map_to_schema_len d : len (_map_to_schema d) = len d.
Proof. unfold _map_to_schema, project, len; simpl; now rewrite length_map. Qed.

(** The frame of the integration tests (tests/test_etl.py). *)
Definition sample_dataframe : DataFrame string :=
  mkFrame
    ["Student ID"; "Email"; "First Name"; "Last Name"; "Year"; "Department";
     "Status"; "Phone"; "DOB"]
    [ ["1"; "test1@example.com"; "John"; "Doe"; "1"; "CS"; "Active";
       "5550101"; "2003-05-15"];
      ["2"; "test2@example.com"; "Jane"; "Smith"; "2"; "Math"; "INACTIVE";
       "(555) 010-2222"; "05/20/2004"];
      ["2"; "test2@example.com"; "Jane"; "Smith"; "2"; "Math"; "INACTIVE";
       "(555) 010-2222"; "05/20/2004"];
      ["3"; "INVALID"; "Bob"; "Williams"; "5"; "Physics"; "active"; ""; ""] ].

(** A frame with a GPA column: one valid value, one out of range. *)
Definition gpa_dataframe : DataFrame string :=
  mkFrame ["Student ID"; "Email"; "GPA"]
    [ ["1"; "a@example.com"; "3.849"];
      ["2"; "b@example.com"; "4.5"] ].

(** ** C8: two runs on the same batch *)

(** C8.  The frame [transform] returns and the three counts of its report
    (or the exception it raises) are the same whatever the two lists of the
    instance hold when it starts; in particular two runs on the same batch,
    each on a fresh instance, give the same rows and the same counts. *)
Theorem C8_transform_deterministic :
  forall (pad_year : bool) (df : DataFrame string) (self1 self2 : DataTransformer),
    observable (fst (transform pad_year df self1))
    = observable (fst (transform pad_year df self2))
    /\ observable (fst (transform pad_year df __init__))
       = observable (fst (transform pad_year df self1)).
Proof.
  intros pad df self1 self2.
  destruct (transform_appends pad df) as (r & es & ls & _ & Ht).
  rewrite !Ht; destruct r; simpl; auto.
Qed.

(** The labels of the frame [transform] returns. *)
Lemma transform_columns pad df self out rep self' :
  transform pad df self = (Return (out, rep), self') ->
  columns out
  = filter (fun c => existsb (String.eqb c) (map rename (columns df)))
      schema_columns.
Proof.
  intro H; apply transform_Return in H as (d & es & ls & Hs & -> & -> & _).
  pose proof (Hs self) as Hd; apply stages_shape in Hd as (C & _ & _).
  unfold _map_to_schema, project, has_column; simpl; now rewrite C.
Qed.

(** ** C9: the columns of the output *)

(** C9.  When [transform] returns, the labels of its frame are the labels
    of [schema_columns] that the renamed input has, in the order of
    [schema_columns]; ["gpa"] is never among them, and every row has exactly
    one cell per label. *)
Theorem C9_output_fields :
  forall pad_year df self out rep self',
    transform pad_year df self = (Return (out, rep), self') ->
    columns out
    = filter (fun c => existsb (String.eqb c) (map rename (columns df)))
        schema_columns
    /\ (forall c, In c (columns out) -> In c schema_columns)
    /\ ~ In "gpa" (columns out)
    /\ Forall (fun row => List.length row = List.length (columns out)) (rows out).
Proof.
  intros pad df self out rep self' H.
  apply transform_Return in H as (d & es & ls & Hs & -> & -> & _).
  pose proof (Hs self) as Hd; apply stages_shape in Hd as (C & _ & _).
  assert (E : columns (_map_to_schema d)
              = filter (fun c => existsb (String.eqb c) (map rename (columns df)))
                  schema_columns).
  { unfold _map_to_schema, project, has_column; simpl; now rewrite C. }
  split; [exact E |].
  split; [intros c Hc; rewrite E in Hc; now apply filter_In in Hc |].
  split.
  - rewrite E; intro Hc; apply filter_In in Hc as [Hc _].
    simpl in Hc; repeat (destruct Hc as [Hc | Hc]; [discriminate |]); exact Hc.
  - unfold _map_to_schema, project; simpl.
    apply Forall_forall; intros row Hr; apply in_map_iff in Hr as (r0 & <- & _).
    now rewrite length_map.
Qed.

Definition gpa_error : ValidationError :=
  mkError "gpa" "4.5"
    (GPA_out_of_range (S754_finite false 5066549580791808 (-50))).

Definition gpa_out : DataFrame pyval :=
  mkFrame ["student_id"; "email"]
    [ [PStr "1"; PStr "a@example.com"]; [PStr "2"; PStr "b@example.com"] ].

Lemma C9_output_fields_witness :
  transform false gpa_dataframe __init__
  = (Return (gpa_out, mkReport 2 2 0 [gpa_error] []),
     mkTransformer [gpa_error] [])
  /\ columns gpa_out
     = filter (fun c => existsb (String.eqb c)
                          (map rename (columns gpa_dataframe)))
         schema_columns
  /\ (forall c, In c (columns gpa_out) -> In c schema_columns)
  /\ ~ In "gpa" (columns gpa_out)
  /\ Forall (fun row => List.length row = List.length (columns gpa_out))
       (rows gpa_out).
Proof.
  split; [reflexivity |].
  apply (C9_output_fields false gpa_dataframe __init__ gpa_out
           (mkReport 2 2 0 [gpa_error] []) (mkTransformer [gpa_error] [])).
  reflexivity.
Defined.

(** ** C10: a second run on the same instance *)

(** C10.  When [transform] returns twice on one instance, the lists of the
    second report are the lists of the first report followed by the entries
    a fresh instance would have recorded for the second batch: nothing
    resets the two lists between the runs. *)
Theorem C10_accumulators_not_reset :
  forall pad_year df1 df2 self0 out1 rep1 self1 out2 rep2 self2,
    transform pad_year df1 self0 = (Return (out1, rep1), self1) ->
    transform pad_year df2 self1 = (Return (out2, rep2), self2) ->
    report_validation_errors rep1
    = validation_errors self0 ++ fresh_errors pad_year df1
    /\ report_transformations rep1
       = transformation_log self0 ++ fresh_log pad_year df1
    /\ report_validation_errors rep2
       = report_validation_errors rep1 ++ fresh_errors pad_year df2
    /\ report_transformations rep2
       = report_transformations rep1 ++ fresh_log pad_year df2.
Proof.
  intros pad df1 df2 self0 out1 rep1 self1 out2 rep2 self2 H1 H2.
  apply transform_Return in H1 as (d1 & es1 & ls1 & Hs1 & -> & _ & ->).
  apply transform_Return in H2 as (d2 & es2 & ls2 & Hs2 & -> & _ & ->).
  apply fresh_run in Hs1 as [-> ->]; apply fresh_run in Hs2 as [-> ->].
  simpl; auto.
Qed.

Definition sample_out : DataFrame pyval :=
  mkFrame
    ["student_id"; "email"; "first_name"; "last_name"; "year_level";
     "department"; "status"; "phone"; "date_of_birth"]
    [ [PStr "1"; PStr "test1@example.com"; PStr "John"; PStr "Doe"; PInt 1;
       PStr "Computer Science"; PStr "active"; PStr "555-0101";
       PStr "2003-05-15"];
      [PStr "2"; PStr "test2@example.com"; PStr "Jane"; PStr "Smith"; PInt 2;
       PStr "Mathematics"; PStr "inactive"; PStr "555-010-2222";
       PStr "2004-05-20"];
      [PStr "3"; PNone; PStr "Bob"; PStr "Williams"; PInt 4; PStr "Physics";
       PStr "active"; PNone; PNone] ].

Definition sample_errors : list ValidationError :=
  [ mkError "email" "invalid" Invalid_email_format;
    mkError "year_level" "5" (Year_out_of_range 5) ].

Definition sample_log : list TransformationEvent :=
  [ DUPLICATE_REMOVED "2";
    DEPARTMENT_NORMALIZED "CS" "Computer Science";
    DEPARTMENT_NORMALIZED "Math" "Mathematics" ].

Definition sample_report1 : TransformReport :=
  mkReport 4 3 1 sample_errors sample_log.

Definition sample_report2 : TransformReport :=
  mkReport 4 3 1 (sample_errors ++ sample_errors) (sample_log ++ sample_log).

Lemma C10_accumulators_not_reset_witness :
  transform false sample_dataframe __init__
  = (Return (sample_out, sample_report1), mkTransformer sample_errors sample_log)
  /\ transform false sample_dataframe (mkTransformer sample_errors sample_log)
     = (Return (sample_out, sample_report2),
        mkTransformer (sample_errors ++ sample_errors) (sample_log ++ sample_log))
  /\ report_validation_errors sample_report1
     = validation_errors __init__ ++ fresh_errors false sample_dataframe
  /\ report_transformations sample_report1
     = transformation_log __init__ ++ fresh_log false sample_dataframe
  /\ report_validation_errors sample_report2
     = report_validation_errors sample_report1
       ++ fresh_errors false sample_dataframe
  /\ report_transformations sample_report2
     = report_transformations sample_report1 ++ fresh_log false sample_dataframe.
Proof.
  split; [reflexivity |]. split; [reflexivity |].
  apply (C10_accumulators_not_reset false sample_dataframe sample_dataframe
           __init__ sample_out sample_report1
           (mkTransformer sample_errors sample_log)
           sample_out sample_report2
           (mkTransformer (sample_errors ++ sample_errors)
              (sample_log ++ sample_log)));
    reflexivity.
Defined.

(** ** C1 and C2: the duplicate resolver *)

Lemma existsb_eqb_In x (l : list string) :
  existsb (String.eqb x) l = true <-> In x l.
Proof.
  rewrite existsb_exists; split.
  - intros (y & Hy & E); apply String.eqb_eq in E; now subst.
  - intro H; exists x; split; auto; apply String.eqb_refl.
Qed.

(** A position is marked exactly when its value was seen before it. *)
Lemma duplicated_nth ids :
  forall seen i, (i < List.length ids)%nat ->
    nth i (duplicated seen ids) false = true
    <-> In (nth i ids "") seen
        \/ exists j, (j < i)%nat /\ nth j ids "" = nth i ids "".
Proof.
  induction ids as [| x r IH]; intros seen i Hi; simpl in Hi; [lia |].
  destruct i as [| i]; simpl.
  - rewrite existsb_eqb_In; split; [auto |].
    intros [H | (j & Hj & _)]; [auto | lia].
  - rewrite IH by lia; simpl; split.
    + intros [[E | H] | (j & Hj & E)]; auto.
      * right; exists 0%nat; split; [lia | exact E].
      * right; exists (S j); split; [lia | exact E].
    + intros [H | (j & Hj & E)]; auto.
      destruct j as [| j]; simpl in E; auto.
      right; exists j; split; [lia | exact E].
Qed.

Lemma select_map {A B} (f : A -> B) mask l :
  select mask (map f l) = map f (select mask l).
Proof.
  revert l; induction mask as [| b m IH]; intros [| x l]; simpl; auto.
  destruct b; simpl; now rewrite IH.
Qed.

Lemma select_In {A} mask (l : list A) x : In x (select mask l) -> In x l.
Proof.
  revert l; induction mask as [| b m IH]; intros [| y l]; simpl; try tauto.
  destruct b; simpl; intuition.
Qed.

(** The values that survive: pairwise distinct, none seen before, and
    every value of the input either seen before or surviving. *)
Lemma kept_ids ids :
  forall seen,
    let k := select (map negb (duplicated seen ids)) ids in
    NoDup k
    /\ (forall x, In x k -> ~ In x seen)
    /\ (forall x, In x ids -> In x seen \/ In x k).
Proof.
  induction ids as [| x r IH]; intro seen; simpl.
  - split; [constructor | split; [intros x [] | tauto]].
  - destruct (IH (x :: seen)) as (N & D & C).
    destruct (existsb (String.eqb x) seen) eqn:E; simpl.
    + apply existsb_eqb_In in E; split; [exact N | split].
      * intros y Hy Hs; apply (D y Hy); now right.
      * intros y [<- | Hy]; [now left |].
        destruct (C y Hy) as [[<- | H] | H]; auto.
    + assert (Hx : ~ In x seen)
        by (intro H; apply existsb_eqb_In in H; congruence).
      split; [| split].
      * constructor; auto; intro H; apply (D x H); now left.
      * intros y [<- | Hy]; auto; intro Hs; apply (D y Hy); now right.
      * intros y [<- | Hy]; [right; now left |].
        destruct (C y Hy) as [[<- | H] | H];
          [right; now left | now left | right; now right].
Qed.

Lemma has_column_index {V} c (df : DataFrame V) :
  has_column c df = true -> (index_of c (columns df) < List.length (columns df))%nat.
Proof.
  unfold has_column; induction (columns df) as [| c' r IH]; simpl;
    [discriminate |].
  rewrite String.eqb_sym; destruct (c' =? c)%string; simpl; [lia |].
  intro H; specialize (IH H); lia.
Qed.

Lemma wf_frame_rows {V} (df : DataFrame V) row :
  wf_frame df -> In row (rows df) ->
  List.length row = List.length (columns df).
Proof.
  unfold wf_frame; intros H Hr; apply andb_true_iff in H as [_ H].
  rewrite forallb_forall in H; now apply Nat.eqb_eq, H.
Qed.

(** On a well-formed frame the default of [row.get] is never used. *)
Lemma cell_default {V} (d1 d2 : V) (df : DataFrame V) c row :
  wf_frame df -> has_column c df = true -> In row (rows df) ->
  cell d1 (columns df) c row = cell d2 (columns df) c row.
Proof.
  intros W H Hr; unfold cell; apply nth_indep.
  rewrite (wf_frame_rows df row W Hr); now apply has_column_index.
Qed.

Lemma stages_row_count pad df self d self' :
  stages pad df self = (Return d, self') ->
  has_column "Student ID" df = true ->
  List.length (rows d) = List.length (kept_rows df).
Proof.
  intros H Hc; apply stages_shape in H as (_ & L & _).
  unfold deduped in L; now rewrite Hc in L.
Qed.

(** The mask, the frame and the log of [_remove_duplicates], shared by the
    two theorems on the resolver. *)
Lemma remove_duplicates_mask (df : DataFrame string) (self : DataTransformer) :
  wf_frame df -> has_column "Student ID" df = true ->
  exists mask : list bool,
    List.length mask = List.length (rows df)
    /\ (forall i, (i < List.length (rows df))%nat ->
          nth i mask false = true
          <-> exists j, (j < i)%nat
                /\ id_of df (nth j (rows df) []) = id_of df (nth i (rows df) []))
    /\ _remove_duplicates df self
       = (Return (mkFrame (columns df) (select (map negb mask) (rows df))),
          mkTransformer (validation_errors self)
            (transformation_log self
             ++ map (fun row => DUPLICATE_REMOVED (id_of df row))
                  (select mask (rows df))))
    /\ NoDup (map (id_of df) (select (map negb mask) (rows df)))
    /\ (forall row, In row (rows df) ->
          In (id_of df row) (map (id_of df) (select (map negb mask) (rows df))))
    /\ mask = dup_mask df.
Proof.
  intros W Hc.
  exists (dup_mask df); split; [apply dup_mask_length |].
  split.
  { intros i Hi; unfold dup_mask.
    rewrite duplicated_nth by (now rewrite length_map).
    rewrite (nth_indep _ "" (id_of df [])) by (now rewrite length_map).
    rewrite map_nth; split.
    - intros [[] | (j & Hj & E)]; exists j; split; auto.
      rewrite (nth_indep _ "" (id_of df [])) in E
        by (rewrite length_map; lia).
      now rewrite map_nth in E.
    - intros (j & Hj & E); right; exists j; split; auto.
      rewrite (nth_indep _ "" (id_of df [])) by (rewrite length_map; lia).
      now rewrite map_nth. }
  split.
  { rewrite remove_duplicates_eq by assumption.
    unfold extend; rewrite app_nil_r; do 3 f_equal.
    apply map_ext_in; intros row Hr; f_equal; unfold id_of.
    apply cell_default; auto; eapply select_In; exact Hr. }
  destruct (kept_ids (map (id_of df) (rows df)) []) as (N & _ & C).
  fold (dup_mask df) in N, C; rewrite select_map in N, C.
  split; [exact N |].
  split; [| reflexivity].
  intros row Hr; destruct (C (id_of df row)) as [[] | H]; auto.
  now apply in_map.
Qed.

(** What C1 says of one frame and one instance. *)
Definition dedup_keeps_first (df : DataFrame string) (self : DataTransformer)
  : Prop :=
  let n := List.length (rows df) in
  let id i := id_of df (nth i (rows df) []) in
  exists mask : list bool,
    List.length mask = n
    (* a row is dropped exactly when an earlier row holds its identifier *)
    /\ (forall i, (i < n)%nat ->
          nth i mask false = true <-> exists j, (j < i)%nat /\ id j = id i)
    (* the survivors, in their original order; the dropped rows, logged *)
    /\ _remove_duplicates df self
       = (Return (mkFrame (columns df) (select (map negb mask) (rows df))),
          mkTransformer (validation_errors self)
            (transformation_log self
             ++ map (fun row => DUPLICATE_REMOVED (id_of df row))
                  (select mask (rows df))))
    (* one survivor per identifier value of the input *)
    /\ NoDup (map (id_of df) (select (map negb mask) (rows df)))
    /\ (forall row, In row (rows df) ->
          In (id_of df row) (map (id_of df) (select (map negb mask) (rows df))))
    (* the counts of the report *)
    /\ forall pad_year out rep self',
         transform pad_year df self = (Return (out, rep), self') ->
         original_count rep = Z.of_nat n
         /\ final_count rep
            = Z.of_nat (List.length (select (map negb mask) (rows df)))
         /\ duplicates_removed rep
            = Z.of_nat (List.length (select mask (rows df)))
         /\ original_count rep = final_count rep + duplicates_removed rep.

(** C1.  On a frame that has the column ['Student ID'], [_remove_duplicates]
    drops a row exactly when an earlier row holds the same identifier, keeps
    the other rows in their order, appends one [DUPLICATE_REMOVED] event per
    dropped row to [transformation_log] and nothing to [validation_errors];
    the report of [transform] then has
    [original_count = final_count + duplicates_removed], with
    [duplicates_removed] the number of rows dropped. *)
Theorem C1_remove_duplicates_keeps_first :
  forall (df : DataFrame string) (self : DataTransformer),
    wf_frame df -> has_column "Student ID" df = true ->
    dedup_keeps_first df self.
Proof.
  intros df self W Hc; unfold dedup_keeps_first.
  destruct (remove_duplicates_mask df self W Hc) as (mask & L & Hm & E & N & C & ->).
  exists (dup_mask df).
  repeat (split; [assumption |]).
  intros pad out rep self' H.
  apply transform_Return in H as (d & es & ls & Hs & -> & -> & ->); simpl.
  rewrite map_to_schema_len; unfold len.
  rewrite (stages_row_count pad df self d _ (Hs self) Hc).
  pose proof (kept_dropped_count df) as K; unfold kept_rows, dropped_rows in *.
  repeat split; lia.
Qed.

Lemma C1_remove_duplicates_keeps_first_witness :
  wf_frame sample_dataframe
  /\ has_column "Student ID" sample_dataframe = true
  /\ dedup_keeps_first sample_dataframe __init__.
Proof.
  split; [reflexivity |]. split; [reflexivity |].
  apply (C1_remove_duplicates_keeps_first sample_dataframe __init__);
    reflexivity.
Defined.

(** Two rows of a raw frame that differ, both with an empty identifier. *)
Definition empty_id_dataframe : DataFrame string :=
  mkFrame ["Student ID"; "Email"]
    [ [""; "a@example.com"]; [""; "b@example.com"] ].

(** C2, as stated, fails: of two different rows whose ['Student ID'] is the
    empty string, [_remove_duplicates] keeps the first only and logs the
    second as a duplicate. *)
Lemma C2_empty_identifier_counterexample :
  wf_frame empty_id_dataframe
  /\ has_column "Student ID" empty_id_dataframe = true
  /\ In [""; "b@example.com"] (rows empty_id_dataframe)
  /\ id_of empty_id_dataframe [""; "a@example.com"] = ""
  /\ id_of empty_id_dataframe [""; "b@example.com"] = ""
  /\ _remove_duplicates empty_id_dataframe __init__
     = (Return (mkFrame ["Student ID"; "Email"] [ [""; "a@example.com"] ]),
        mkTransformer [] [DUPLICATE_REMOVED ""])
  /\ ~ In [""; "b@example.com"] [ [""; "a@example.com"] ].
Proof.
  repeat (split; [reflexivity |]).
  split; [right; left; reflexivity |].
  repeat (split; [reflexivity |]).
  intros [H | []]; discriminate.
Qed.

Lemma filter_eqb_absent x (l : list string) :
  ~ In x l -> filter (fun s => (s =? x)%string) l = [].
Proof.
  induction l as [| a l IH]; simpl; auto; intro H.
  destruct (a =? x)%string eqn:E.
  - apply String.eqb_eq in E; tauto.
  - apply IH; tauto.
Qed.

Lemma NoDup_count_le_1 x (l : list string) :
  NoDup l -> (List.length (filter (fun s => (s =? x)%string) l) <= 1)%nat.
Proof.
  induction 1 as [| a l Ha N IH]; simpl; auto.
  destruct (a =? x)%string eqn:E; auto.
  apply String.eqb_eq in E; subst; rewrite filter_eqb_absent by assumption.
  simpl; lia.
Qed.

Lemma filter_map_length {A} (f : A -> string) x (l : list A) :
  List.length (filter (fun a => (f a =? x)%string) l)
  = List.length (filter (fun s => (s =? x)%string) (map f l)).
Proof.
  induction l as [| a l IH]; simpl; auto.
  destruct (f a =? x)%string; simpl; auto.
Qed.

(** What the code does with empty identifiers. *)
Definition empty_ids_deduplicated (df : DataFrame string)
  (self : DataTransformer) : Prop :=
  let n := List.length (rows df) in
  let id i := id_of df (nth i (rows df) []) in
  exists mask out self',
    List.length mask = n
    /\ _remove_duplicates df self = (Return out, self')
    /\ rows out = select (map negb mask) (rows df)
    (* the first row with an empty identifier stays *)
    /\ (forall i, (i < n)%nat -> id i = "" ->
          (forall j, (j < i)%nat -> id j <> "") -> nth i mask false = false)
    (* every later one goes, and is logged *)
    /\ (forall i j, (i < j < n)%nat -> id i = "" -> id j = "" ->
          nth j mask false = true)
    /\ transformation_log self'
       = transformation_log self
         ++ map (fun row => DUPLICATE_REMOVED (id_of df row))
              (select mask (rows df))
    (* so at most one survives *)
    /\ (List.length (filter (fun row => (id_of df row =? "")%string) (rows out))
        <= 1)%nat.

(** C2, amended.  The empty string is an identifier like any other: the
    first row whose ['Student ID'] is empty is kept, every later row whose
    ['Student ID'] is empty is dropped and logged as a duplicate, and at
    most one row with an empty identifier is left. *)
Theorem C2_empty_identifier_deduplicated :
  forall (df : DataFrame string) (self : DataTransformer),
    wf_frame df -> has_column "Student ID" df = true ->
    empty_ids_deduplicated df self.
Proof.
  intros df self W Hc.
  destruct (remove_duplicates_mask df self W Hc)
    as (mask & L & Hm & E & N & _).
  unfold empty_ids_deduplicated.
  eexists mask, _, _; split; [exact L |].
  split; [exact E |]. simpl.
  split; [reflexivity |].
  split.
  { intros i Hi Ei Hj; destruct (nth i mask false) eqn:B; auto.
    apply Hm in B as (j & Hlt & Ej); auto.
    exfalso; apply (Hj j Hlt); congruence. }
  split.
  { intros i j Hij Ei Ej; apply Hm; [lia |].
    exists i; split; [lia | congruence]. }
  split; [reflexivity |].
  rewrite filter_map_length; now apply NoDup_count_le_1.
Qed.

Lemma C2_empty_identifier_deduplicated_witness :
  wf_frame empty_id_dataframe
  /\ has_column "Student ID" empty_id_dataframe = true
  /\ empty_ids_deduplicated empty_id_dataframe __init__.
Proof.
  split; [reflexivity |]. split; [reflexivity |].
  apply (C2_empty_identifier_deduplicated empty_id_dataframe __init__);
    reflexivity.
Defined.

(** ** C3: the year validator *)

Lemma float_error s e : float s = inl e -> e = ValueError.
Proof.
  unfold float; destruct (drop_underscores _ _); [| congruence].
  destruct (read_sign _) as [sign r].
  destruct (read_decimal sign r) as [[x [| c t]] |];
    [congruence | congruence |].
  destruct (read_inf_nan sign r) as [[x [| c t]] |]; congruence.
Qed.

Lemma is_missing_false s : s <> "" -> s <> "nan" -> is_missing s = false.
Proof.
  intros H1 H2; unfold is_missing; apply orb_false_iff; split;
    apply String.eqb_neq; assumption.
Qed.

Lemma is_missing_true s : s = "" \/ s = "nan" -> is_missing s = true.
Proof. intros [-> | ->]; reflexivity. Qed.

(** What [_clean_year] does on every string: the table of the specification,
    and the one case the table leaves out. *)
Lemma clean_year_cases (year : string) (self : DataTransformer) :
  _clean_year year self
  = if is_missing year then (Return PNone, self)
    else
      match float year with
      | inl _ => (Return PNone, self)
      | inr x =>
          match int x with
          | inl OverflowError => (Raise OverflowError, self)
          | inl _ => (Return PNone, self)
          | inr year_int =>
              if (1 <=? year_int) && (year_int <=? 4)
              then (Return (PInt year_int), self)
              else
                (Return (PInt (Z.max 1 (Z.min 4 year_int))),
                 mkTransformer
                   (validation_errors self
                    ++ [mkError "year_level" year (Year_out_of_range year_int)])
                   (transformation_log self))
          end
      end.
Proof.
  unfold _clean_year; destruct (is_missing year); [reflexivity |].
  unfold try_except, bind, lift.
  destruct (float year) as [e | x] eqn:F.
  - apply float_error in F; subst; reflexivity.
  - unfold ret at 1; cbv beta iota.
    destruct x as [s | s | | s m e]; simpl; try reflexivity.
    destruct ((1 <=? _) && _); reflexivity.
Qed.

(** A value [_clean_year] returns is [None] or an integer from 1 to 4. *)
Lemma clean_year_range year self v self' :
  _clean_year year self = (Return v, self') ->
  v = PNone \/ exists z, v = PInt z /\ 1 <= z <= 4.
Proof.
  rewrite clean_year_cases; destruct (is_missing year);
    [intro H; inversion H; auto |].
  destruct (float year) as [e | x]; [intro H; inversion H; auto |].
  destruct (int x) as [[] | z]; try (intro H; inversion H; now auto).
  destruct ((1 <=? z) && (z <=? 4)) eqn:R; intro H; inversion H; subst;
    right; eexists; split; try reflexivity; lia.
Qed.

(** C3.  On the string ["inf"] the validator neither returns [None] nor a
    clamped value: [float] reads an infinity, [int] raises [OverflowError],
    and the handler of [_clean_year] only catches [ValueError] and
    [TypeError].  The exception leaves [_clean_year], and [transform] with
    it, whatever the other cells hold. *)
Theorem C3_clean_year_inf_raises :
  forall self : DataTransformer,
    float "inf" = inr (S754_infinity false)
    /\ int (S754_infinity false) = inl OverflowError
    /\ is_ValueError_or_TypeError OverflowError = false
    /\ _clean_year "inf" self = (Raise OverflowError, self)
    /\ _clean_year "1e999" self = (Raise OverflowError, self)
    /\ fst (transform false (mkFrame ["Student ID"; "Year"] [ ["1"; "inf"] ]) self)
       = Raise OverflowError.
Proof.
  intro self; repeat (split; [reflexivity |]).
  destruct (transform_appends false
              (mkFrame ["Student ID"; "Year"] [ ["1"; "inf"] ]))
    as (r & es & ls & Hs & Ht).
  rewrite Ht; specialize (Hs __init__); vm_compute in Hs.
  inversion Hs; subst; reflexivity.
Qed.

(** ** C4: the GPA validator *)

(** [0.0 <= x <= 4.0] *)
Definition gpa_in_range (x : spec_float) : bool := leb f0 x && leb x f4.

Lemma clean_gpa_cases (gpa : string) (self : DataTransformer) :
  _clean_gpa gpa self
  = if is_missing gpa || (gpa =? "##")%string then (Return PNone, self)
    else
      match float gpa with
      | inl _ => (Return PNone, self)
      | inr x =>
          if gpa_in_range x then (Return (PFloat (round x 2)), self)
          else
            (Return PNone,
             mkTransformer
               (validation_errors self
                ++ [mkError "gpa" gpa (GPA_out_of_range x)])
               (transformation_log self))
      end.
Proof.
  unfold _clean_gpa; destruct (is_missing gpa || _); [reflexivity |].
  unfold try_except, bind, lift, gpa_in_range.
  destruct (float gpa) as [e | x] eqn:F.
  - apply float_error in F; subst; reflexivity.
  - unfold ret at 1; cbv beta iota.
    destruct (leb f0 x && leb x f4); reflexivity.
Qed.

Lemma app_one_neq {A} (l : list A) (a : A) : l ++ [a] <> l.
Proof.
  intro H; apply (f_equal (@List.length A)) in H.
  rewrite length_app in H; simpl in H; lia.
Qed.

Definition gpa_placeholder (gpa : string) : Prop :=
  gpa = "" \/ gpa = "nan" \/ gpa = "##".

Lemma gpa_placeholder_dec gpa :
  (gpa_placeholder gpa /\ is_missing gpa || (gpa =? "##")%string = true)
  \/ (~ gpa_placeholder gpa /\ is_missing gpa || (gpa =? "##")%string = false).
Proof.
  unfold gpa_placeholder, is_missing.
  destruct (gpa =? "")%string eqn:E1; [apply String.eqb_eq in E1; auto |].
  destruct (gpa =? "nan")%string eqn:E2; [apply String.eqb_eq in E2; auto |].
  destruct (gpa =? "##")%string eqn:E3; [apply String.eqb_eq in E3; auto |].
  apply String.eqb_neq in E1, E2, E3; right; split; [tauto | reflexivity].
Qed.

(** [q] is the integer nearest to [n / d] ([0 < d]): at most one half away
    from it, and even when it is exactly one half away. *)
Definition nearest_even (n d q : Z) : Prop :=
  Z.abs (2 * n - 2 * q * d) <= d
  /\ (Z.abs (2 * n - 2 * q * d) = d -> Z.even q = true).

(** [q] hundredths is the number [m * 2^e] rounded to two decimals: [q] is
    the integer nearest to [100 * m * 2^e], written as a quotient of two
    integers. *)
Definition rounds_to_hundredths (m : positive) (e q : Z) : Prop :=
  nearest_even (100 * Zpos m * 2 ^ Z.max e 0) (2 ^ Z.max (- e) 0) q.

Lemma div_nearest_even_spec n d :
  0 < d -> nearest_even n d (div_nearest_even n d).
Proof.
  intro Hd; unfold nearest_even, div_nearest_even.
  pose proof (Z.div_mod n d ltac:(lia)) as E.
  pose proof (Z.mod_pos_bound n d Hd) as B.
  set (q := n / d) in *; set (r := n mod d) in *.
  assert (E1 : 2 * n - 2 * q * d = 2 * r) by lia.
  assert (E2 : 2 * n - 2 * (q + 1) * d = 2 * r - 2 * d) by lia.
  destruct (2 * r ?= d) eqn:C.
  - apply Z.compare_eq in C.
    destruct (Z.even q) eqn:Ev.
    + rewrite E1; split; [lia | auto].
    + rewrite E2; split; [lia |].
      intros _; rewrite Z.even_add, Ev; reflexivity.
  - rewrite Z.compare_lt_iff in C; rewrite E1; split; lia.
  - rewrite Z.compare_gt_iff in C; rewrite E2; split; lia.
Qed.

Lemma nearest_even_unique n d q1 q2 :
  0 < d -> nearest_even n d q1 -> nearest_even n d q2 -> q1 = q2.
Proof.
  intros Hd [A1 T1] [A2 T2].
  assert (D : q1 = q2 \/ q1 = q2 + 1 \/ q2 = q1 + 1) by nia.
  destruct D as [D | [D | D]]; [exact D | |]; exfalso.
  - assert (Z.abs (2 * n - 2 * q1 * d) = d) by nia.
    assert (Z.abs (2 * n - 2 * q2 * d) = d) by nia.
    specialize (T1 ltac:(assumption)); specialize (T2 ltac:(assumption)).
    subst q1; rewrite Z.even_add, T2 in T1; discriminate.
  - assert (Z.abs (2 * n - 2 * q1 * d) = d) by nia.
    assert (Z.abs (2 * n - 2 * q2 * d) = d) by nia.
    specialize (T1 ltac:(assumption)); specialize (T2 ltac:(assumption)).
    subst q2; rewrite Z.even_add, T1 in T2; discriminate.
Qed.

(** [round(x, 2)] of a finite [x = m * 2^e]: the float nearest to [q]
    hundredths, for the one [q] that is [x] rounded to two decimals. *)
Lemma round_hundredths s m e :
  (exists q, rounds_to_hundredths m e q)
  /\ (forall q, rounds_to_hundredths m e q ->
        round (S754_finite s m e) 2 = of_decimal s q (-2)).
Proof.
  unfold rounds_to_hundredths, round.
  destruct (0 <=? e) eqn:He.
  - apply Z.leb_le in He.
    rewrite (Z.max_l e 0), (Z.max_r (- e) 0) by lia.
    change (2 ^ 0) with 1; change (10 ^ 2) with 100.
    assert (N : nearest_even (100 * Z.pos m * 2 ^ e) 1 (Z.pos m * 100 * 2 ^ e))
      by (unfold nearest_even; split; [lia | intro H; lia]).
    split; [eexists; exact N |].
    intros q Hq; f_equal.
    eapply nearest_even_unique; [| exact N | exact Hq]; lia.
  - apply Z.leb_gt in He.
    rewrite (Z.max_r e 0), (Z.max_l (- e) 0) by lia.
    change (2 ^ 0) with 1; change (10 ^ 2) with 100.
    assert (Hd : 0 < 2 ^ (- e)) by (apply Z.pow_pos_nonneg; lia).
    assert (N : nearest_even (100 * Z.pos m * 1) (2 ^ (- e))
                  (div_nearest_even (Z.pos m * 100) (2 ^ (- e)))).
    { replace (100 * Z.pos m * 1) with (Z.pos m * 100) by lia.
      now apply div_nearest_even_spec. }
    split; [eexists; exact N |].
    intros q Hq; f_equal.
    eapply nearest_even_unique; [exact Hd | exact N | exact Hq].
Qed.

(** A float in the range is a zero or a positive finite number. *)
Lemma gpa_in_range_cases x :
  gpa_in_range x = true ->
  (exists s, x = S754_zero s) \/ (exists m e, x = S754_finite false m e).
Proof.
  destruct x as [s | s | | [] m e]; try discriminate; eauto.
  destruct s; discriminate.
Qed.

(** C4.  [_clean_gpa] returns [None] and records nothing on the empty
    string, on ["nan"] and on ["##"]; on any other string it returns the
    float rounded to two decimals when [float] reads a number [x] with
    [0.0 <= x <= 4.0], [None] with one [ValidationError] when [float] reads a
    number outside that range, and [None] with no error when [float] raises.
    It never returns a value other than [None] or such a rounded float, and
    it records an error exactly when the string is read and out of range.
    The rounded float is a zero for a zero; for [x = m * 2^e] it is the float
    nearest to [q / 100], where [q] is the one integer nearest to
    [100 * m * 2^e], the even one when two are equally near. *)
Theorem C4_clean_gpa :
  forall (gpa : string) (self : DataTransformer),
    (gpa_placeholder gpa -> _clean_gpa gpa self = (Return PNone, self))
    /\ (~ gpa_placeholder gpa ->
        (forall x, float gpa = inr x -> gpa_in_range x = true ->
           _clean_gpa gpa self = (Return (PFloat (round x 2)), self))
        /\ (forall x, float gpa = inr x -> gpa_in_range x = false ->
              _clean_gpa gpa self
              = (Return PNone,
                 mkTransformer
                   (validation_errors self
                    ++ [mkError "gpa" gpa (GPA_out_of_range x)])
                   (transformation_log self)))
        /\ (forall e, float gpa = inl e ->
              _clean_gpa gpa self = (Return PNone, self)))
    /\ (validation_errors (snd (_clean_gpa gpa self)) <> validation_errors self
        <-> ~ gpa_placeholder gpa
            /\ exists x, float gpa = inr x /\ gpa_in_range x = false)
    /\ (exists v, fst (_clean_gpa gpa self) = Return v
          /\ (v = PNone
              \/ exists x, float gpa = inr x /\ gpa_in_range x = true
                   /\ v = PFloat (round x 2)))
    /\ (forall x, float gpa = inr x -> gpa_in_range x = true ->
          (exists s, x = S754_zero s /\ round x 2 = S754_zero s)
          \/ (exists m e,
                x = S754_finite false m e
                /\ (exists q, rounds_to_hundredths m e q)
                /\ (forall q, rounds_to_hundredths m e q ->
                      round x 2 = of_decimal false q (-2)
                      /\ (~ gpa_placeholder gpa ->
                          _clean_gpa gpa self
                          = (Return (PFloat (of_decimal false q (-2))), self))))).
Proof.
  intros gpa self; rewrite clean_gpa_cases.
  assert (N : exists v : pyval, Return (A := pyval) PNone = Return v
                /\ (v = PNone
                    \/ exists x, float gpa = inr x /\ gpa_in_range x = true
                         /\ v = PFloat (round x 2)))
    by (exists PNone; split; [reflexivity | now left]).
  assert (Rd : forall x, gpa_in_range x = true ->
            (exists s, x = S754_zero s /\ round x 2 = S754_zero s)
            \/ (exists m e,
                  x = S754_finite false m e
                  /\ (exists q, rounds_to_hundredths m e q)
                  /\ (forall q, rounds_to_hundredths m e q ->
                        round x 2 = of_decimal false q (-2)))).
  { intros x R; destruct (gpa_in_range_cases x R) as [[s ->] | (m & e & ->)].
    - left; exists s; split; reflexivity.
    - right; exists m, e; split; [reflexivity |].
      exact (round_hundredths false m e). }
  destruct (gpa_placeholder_dec gpa) as [[P ->] | [P ->]].
  - split; [reflexivity |]. split; [tauto |].
    split; [simpl; split; [congruence | tauto] |].
    split; [exact N |].
    intros x F R; destruct (Rd x R) as [Z0 | (m & e & -> & Ex & Hq)];
      [left; exact Z0 | right].
    exists m, e; split; [reflexivity |]; split; [exact Ex |].
    intros q Q; split; [exact (Hq q Q) | tauto].
  - split; [tauto |].
    destruct (float gpa) as [e | x].
    + split; [intros _; repeat split; congruence |].
      split; [simpl; split; [congruence |];
              intros (_ & x & H & _); discriminate |].
      split; [exact N |]; intros x H; discriminate.
    + destruct (gpa_in_range x) eqn:R.
      * split; [intros _; repeat split; congruence |].
        split; [simpl; split; [congruence |];
                intros (_ & y & H & Hy); congruence |].
        split; [eexists; split; [reflexivity | right; eauto] |].
        intros y F R'; injection F as <-.
        destruct (Rd x R) as [Z0 | (m & e & -> & Ex & Hq)];
          [left; exact Z0 | right].
        exists m, e; split; [reflexivity |]; split; [exact Ex |].
        intros q Q; split; [exact (Hq q Q) |].
        intros _; rewrite <- (Hq q Q); reflexivity.
      * split; [intros _; repeat split; congruence |].
        split; [simpl; split; [eauto |]; intros _; apply app_one_neq |].
        split; [exact N |].
        intros y F R'; injection F as <-; congruence.
Qed.

(** C4 on the string ["3.849"] of Scenario 4: the float read is in the
    range, 385 is the integer nearest to a hundred times it, and the value
    returned is the float nearest to 3.85, the one [float] reads from
    ["3.85"]; nothing is recorded. *)
Lemma C4_clean_gpa_witness :
  float "3.849" = inr (S754_finite false 8667177482874520 (-51))
  /\ gpa_in_range (S754_finite false 8667177482874520 (-51)) = true
  /\ rounds_to_hundredths 8667177482874520 (-51) 385
  /\ _clean_gpa "3.849" __init__
     = (Return (PFloat (S754_finite false 8669429282688205 (-51))), __init__)
  /\ float "3.85" = inr (S754_finite false 8669429282688205 (-51)).
Proof.
  assert (P : ~ gpa_placeholder "3.849")
    by (intros [H | [H | H]]; discriminate H).
  assert (Q : rounds_to_hundredths 8667177482874520 (-51) 385)
    by (split; [vm_compute; discriminate | intro H; vm_compute in H; discriminate H]).
  split; [reflexivity |]. split; [reflexivity |]. split; [exact Q |].
  split; [| reflexivity].
  destruct (C4_clean_gpa "3.849" __init__) as (_ & _ & _ & _ & R).
  destruct (R _ eq_refl eq_refl) as [(s & H & _) | (m & e & H & _ & Hq)];
    [discriminate H |].
  injection H as <- <-.
  exact (proj2 (Hq 385 Q) P).
Defined.

(** Scenario 4 of the specification, and the values at the bounds. *)
Example clean_gpa_scenarios :
  fst (_clean_gpa "3.849" __init__) = Return (PFloat (S754_finite false 8669429282688205 (-51)))
  /\ float "3.85" = inr (S754_finite false 8669429282688205 (-51))
  /\ _clean_gpa "4.5" __init__
     = (Return PNone, mkTransformer [gpa_error] [])
  /\ fst (_clean_gpa "4.0" __init__) = Return (PFloat f4)
  /\ fst (_clean_gpa "0" __init__) = Return (PFloat f0)
  /\ _clean_gpa "abc" __init__ = (Return PNone, __init__)
  /\ validation_errors (snd (_clean_gpa "NaN" __init__))
     = [mkError "gpa" "NaN" (GPA_out_of_range S754_nan)].
Proof. repeat split. Qed.

(** ** C6: the phone validator *)

(** C6, as stated, fails on the non-empty string ["nan"]: it has no digit,
    so the claim asks for the string itself, and [_clean_phone] returns
    [None]. *)
Lemma C6_clean_phone_nan_counterexample :
  "nan" <> ""
  /\ filter is_digit (chars "nan") = []
  /\ _clean_phone "nan" __init__ = (Return PNone, __init__)
  /\ PNone <> PStr "nan".
Proof. repeat split; discriminate. Qed.

(** What C6 says of one string. *)
Definition phone_formatted (phone : string) (self : DataTransformer) : Prop :=
  let digits := filter is_digit (chars phone) in
  let dash := "-"%char in
  (List.length digits = 10%nat ->
     exists a b c,
       digits = a ++ b ++ c
       /\ List.length a = 3%nat /\ List.length b = 3%nat /\ List.length c = 4%nat
       /\ _clean_phone phone self
          = (Return (PStr (of_chars (a ++ dash :: b ++ dash :: c))), self))
  /\ (List.length digits = 7%nat ->
        exists a b,
          digits = a ++ b /\ List.length a = 3%nat /\ List.length b = 4%nat
          /\ _clean_phone phone self
             = (Return (PStr (of_chars (a ++ dash :: b))), self))
  /\ (List.length digits <> 10%nat -> List.length digits <> 7%nat ->
        _clean_phone phone self = (Return (PStr phone), self)).

(** C6, amended.  For every string other than the empty string and the
    placeholder ["nan"], [_clean_phone] keeps the digits of the string: ten
    digits come back as AAA-BBB-CCCC, seven as AAA-BBBB, and with any other
    number of digits the string comes back as it was; nothing is recorded
    in any case.  (On the two excluded strings it returns [None].) *)
Theorem C6_clean_phone :
  forall (phone : string) (self : DataTransformer),
    phone <> "" -> phone <> "nan" -> phone_formatted phone self.
Proof.
  intros phone self H1 H2; unfold phone_formatted, _clean_phone.
  rewrite (is_missing_false phone H1 H2); unfold PyStr.len.
  set (digits := filter is_digit (chars phone)).
  split; [| split].
  - intro L; rewrite L; simpl.
    exists (firstn 3 digits), (firstn 3 (skipn 3 digits)), (skipn 6 digits).
    do 11 (destruct digits as [| ? digits]; try discriminate).
    repeat split.
  - intro L; rewrite L; simpl.
    exists (firstn 3 digits), (skipn 3 digits).
    do 8 (destruct digits as [| ? digits]; try discriminate).
    repeat split.
  - intros L10 L7.
    destruct (Z.of_nat (List.length digits) =? 10) eqn:E10;
      [apply Z.eqb_eq in E10; lia |].
    destruct (Z.of_nat (List.length digits) =? 7) eqn:E7;
      [apply Z.eqb_eq in E7; lia |].
    reflexivity.
Qed.

Lemma C6_clean_phone_witness :
  "(555) 010-1234" <> "" /\ "(555) 010-1234" <> "nan"
  /\ phone_formatted "(555) 010-1234" __init__.
Proof.
  split; [discriminate |]. split; [discriminate |].
  apply (C6_clean_phone "(555) 010-1234" __init__); discriminate.
Defined.

(** Scenario 5 of the specification. *)
Example clean_phone_scenarios :
  _clean_phone "(555) 010-1234" __init__ = (Return (PStr "555-010-1234"), __init__)
  /\ _clean_phone "12345" __init__ = (Return (PStr "12345"), __init__)
  /\ _clean_phone "0101234" __init__ = (Return (PStr "010-1234"), __init__)
  /\ _clean_phone "" __init__ = (Return PNone, __init__).
Proof. repeat split. Qed.

(** ** C5: the date validator *)

(** [YYYY-MM-DD]: four digits, a dash, two digits, a dash, two digits. *)
Definition canonical_chars (l : list ascii) : bool :=
  match l with
  | [y1; y2; y3; y4; s1; m1; m2; s2; d1; d2] =>
      is_digit y1 && is_digit y2 && is_digit y3 && is_digit y4
      && is_char "-" s1 && is_digit m1 && is_digit m2
      && is_char "-" s2 && is_digit d1 && is_digit d2
  | _ => false
  end.

Definition is_canonical_date (s : string) : bool := canonical_chars (chars s).

(** C5, as stated, fails on the non-empty string ["nan"]: none of the five
    formats parses it, and [_clean_date] returns [None] without recording a
    [ValidationError].  (Besides, where the C library does not pad [%Y], a
    year below 1000 is not printed on four digits.) *)
Lemma C5_clean_date_nan_counterexample :
  "nan" <> ""
  /\ map (strptime (strip "nan")) date_formats = [None; None; None; None; None]
  /\ _clean_date true "nan" __init__ = (Return PNone, __init__)
  /\ _clean_date false "nan" __init__ = (Return PNone, __init__)
  /\ validation_errors (snd (_clean_date true "nan" __init__)) = []
  /\ _clean_date false "0999-01-01" __init__
     = (Return (PStr "999-01-01"), __init__)
  /\ is_canonical_date "999-01-01" = false.
Proof. split; [discriminate | repeat split]. Qed.

Lemma try_formats_first pad date_str fmts :
  (exists k fmt parsed,
      nth_error fmts k = Some fmt
      /\ (forall j fmt', (j < k)%nat -> nth_error fmts j = Some fmt' ->
            strptime (strip date_str) fmt' = None)
      /\ strptime (strip date_str) fmt = Some parsed
      /\ try_formats pad date_str fmts = Some (strftime_Y_m_d pad parsed))
  \/ ((forall fmt, In fmt fmts -> strptime (strip date_str) fmt = None)
      /\ try_formats pad date_str fmts = None).
Proof.
  induction fmts as [| fmt r IH]; simpl.
  - right; split; [intros fmt [] | reflexivity].
  - destruct (strptime (strip date_str) fmt) as [parsed |] eqn:E.
    + left; exists 0%nat, fmt, parsed; repeat split; auto.
      intros j fmt' Hj; lia.
    + destruct IH as [(k & f & p & Hk & Hj & Hp & Ht) | [Hall Ht]].
      * left; exists (S k), f, p; repeat split; auto.
        intros [| j] fmt' Hlt Hn; simpl in Hn.
        -- inversion Hn; subst; exact E.
        -- apply (Hj j); [lia | exact Hn].
      * right; split; auto; intros f [<- | Hf]; auto.
Qed.

Lemma strptime_valid s fmt t : strptime s fmt = Some t -> valid_date t = true.
Proof.
  unfold strptime; destruct (re_match _ _ _) as [[t' [| c r]] |];
    try discriminate.
  destruct (valid_date t') eqn:V; intro H; inversion H; subst; exact V.
Qed.

Lemma is_digit_digit_char n : is_digit (digit_char n) = true.
Proof.
  unfold digit_char; pose proof (Z.mod_pos_bound n 10 ltac:(lia)) as B.
  assert (H : n mod 10 = 0 \/ n mod 10 = 1 \/ n mod 10 = 2 \/ n mod 10 = 3
              \/ n mod 10 = 4 \/ n mod 10 = 5 \/ n mod 10 = 6 \/ n mod 10 = 7
              \/ n mod 10 = 8 \/ n mod 10 = 9) by lia.
  repeat (destruct H as [-> | H]; [reflexivity |]); rewrite H; reflexivity.
Qed.

Lemma digit_char_nonzero n :
  1 <= n <= 9 -> is_code 48 (digit_char n) = false.
Proof.
  intro B; unfold digit_char.
  assert (H : n = 1 \/ n = 2 \/ n = 3 \/ n = 4 \/ n = 5 \/ n = 6 \/ n = 7
              \/ n = 8 \/ n = 9) by lia.
  repeat (destruct H as [-> | H]; [reflexivity |]); rewrite H; reflexivity.
Qed.

Lemma strftime_Y_four pad y :
  pad = true \/ 1000 <= y <= 9999 -> strftime_Y pad y = four_digits y.
Proof.
  unfold strftime_Y; destruct pad; [reflexivity |].
  intros [H | H]; [discriminate |].
  unfold four_digits; cbn [drop_zeros].
  rewrite digit_char_nonzero; [reflexivity |].
  assert (y / 1000 < 10) by (apply Z.div_lt_upper_bound; lia).
  assert (1 <= y / 1000) by (apply Z.div_le_lower_bound; lia).
  lia.
Qed.

(** A date [strptime] accepts is printed in canonical form, unless its
    year is below 1000 and the C library does not pad. *)
Lemma strftime_canonical pad t :
  valid_date t = true -> pad = true \/ 1000 <= year t ->
  is_canonical_date (strftime_Y_m_d pad t) = true.
Proof.
  intros V H; unfold is_canonical_date, strftime_Y_m_d, chars, of_chars.
  rewrite list_ascii_of_string_of_list_ascii.
  rewrite strftime_Y_four.
  - unfold four_digits, two_digits; cbn [app canonical_chars].
    rewrite !is_digit_digit_char; reflexivity.
  - destruct H as [H | H]; [now left | right].
    unfold valid_date in V; rewrite !andb_true_iff in V.
    destruct V as [[[[[_ V] _] _] _] _]; apply Z.leb_le in V; lia.
Qed.

(** What C5 says of one string. *)
Definition date_parsed (pad_year : bool) (date_str : string)
  (self : DataTransformer) : Prop :=
  let s := strip date_str in
  (exists k fmt parsed,
      (* the first format, in the order of the list, that parses *)
      nth_error date_formats k = Some fmt
      /\ (forall j fmt', (j < k)%nat -> nth_error date_formats j = Some fmt' ->
            strptime s fmt' = None)
      /\ strptime s fmt = Some parsed
      /\ _clean_date pad_year date_str self
         = (Return (PStr (strftime_Y_m_d pad_year parsed)), self)
      /\ (pad_year = true \/ 1000 <= year parsed ->
          is_canonical_date (strftime_Y_m_d pad_year parsed) = true))
  \/ ((forall fmt, In fmt date_formats -> strptime s fmt = None)
      /\ _clean_date pad_year date_str self
         = (Return PNone,
            mkTransformer
              (validation_errors self
               ++ [mkError "date_of_birth" date_str Unable_to_parse_date])
              (transformation_log self))).

(** C5, amended.  For every string other than the empty string and the
    placeholder ["nan"], [_clean_date] tries [%Y-%m-%d], [%m/%d/%Y],
    [%m-%d-%Y], [%d/%m/%Y], [%d-%m-%Y] in this order on the stripped string;
    the first format that parses gives the result, printed as year, month
    and day, which has the form YYYY-MM-DD whenever the year is 1000 or
    later (or the C library pads the year); when no format parses it
    returns [None] and records one [ValidationError].  ["05/15/2003"] gives
    ["2003-05-15"]. *)
Theorem C5_clean_date :
  forall (pad_year : bool) (date_str : string) (self : DataTransformer),
    date_str <> "" -> date_str <> "nan" ->
    date_parsed pad_year date_str self
    /\ _clean_date pad_year "05/15/2003" self
       = (Return (PStr "2003-05-15"), self).
Proof.
  intros pad date_str self H1 H2; split; [| now destruct pad].
  unfold date_parsed, _clean_date; rewrite (is_missing_false _ H1 H2).
  destruct (try_formats_first pad date_str date_formats)
    as [(k & fmt & parsed & Hk & Hj & Hp & Ht) | [Hall Ht]]; rewrite Ht.
  - left; exists k, fmt, parsed; repeat split; auto.
    intro H; apply strftime_canonical; auto.
    eapply strptime_valid; eauto.
  - right; split; auto.
Qed.

Lemma C5_clean_date_witness :
  "01/02/2003" <> "" /\ "01/02/2003" <> "nan"
  /\ date_parsed false "01/02/2003" __init__
  /\ _clean_date false "05/15/2003" __init__
     = (Return (PStr "2003-05-15"), __init__).
Proof.
  split; [discriminate |]. split; [discriminate |].
  apply (C5_clean_date false "01/02/2003" __init__); discriminate.
Defined.

(** The order decides an ambiguous date: month first. *)
Example clean_date_priority :
  _clean_date false "01/02/2003" __init__ = (Return (PStr "2003-01-02"), __init__)
  /\ _clean_date false "15/05/2003" __init__ = (Return (PStr "2003-05-15"), __init__)
  /\ _clean_date false "invalid" __init__
     = (Return PNone,
        mkTransformer [mkError "date_of_birth" "invalid" Unable_to_parse_date] []).
Proof. repeat split. Qed.

(** ** C7: renaming, trimming and projecting the columns *)

(** A raw frame whose first header is already a canonical field name. *)
Definition canonical_header_dataframe : DataFrame string :=
  mkFrame ["email"; "Notes"; "Phone"; "GPA"]
    [ [" bad "; " call back "; " 0101234 "; " 3.5 "] ].

Definition bad_email_error : ValidationError :=
  mkError "email" "bad" Invalid_email_format.

(** C7, as stated, fails: the header ["email"] is not in the lookup table,
    yet its column is not dropped; it is trimmed, validated as the e-mail
    column (an error is recorded) and is part of the output. *)
Lemma C7_header_absent_from_lookup_counterexample :
  wf_frame canonical_header_dataframe
  /\ In "email" (columns canonical_header_dataframe)
  /\ dict_get column_mapping "email" = None
  /\ _normalize_columns canonical_header_dataframe __init__
     = (Return (mkFrame ["email"; "Notes"; "phone"; "gpa"]
                  [ ["bad"; "call back"; "0101234"; "3.5"] ]),
        __init__)
  /\ transform false canonical_header_dataframe __init__
     = (Return (mkFrame ["email"; "phone"] [ [PNone; PStr "010-1234"] ],
                mkReport 1 1 0 [bad_email_error] []),
        mkTransformer [bad_email_error] []).
Proof.
  split; [reflexivity |]. split; [now left |]. repeat split.
Qed.

Lemma nodupb_head_absent (f : string -> string) a h r :
  negb (existsb (String.eqb (f a)) (map f r)) = true -> In h r -> f a <> f h.
Proof.
  intros N Hh E; apply negb_true_iff in N.
  assert (T : existsb (String.eqb (f a)) (map f r) = true)
    by (apply existsb_eqb_In; rewrite E; now apply in_map).
  congruence.
Qed.

(** Renaming keeps the position of a label when it keeps the labels apart. *)
Lemma index_of_map (f : string -> string) cols h :
  nodupb (map f cols) = true -> In h cols ->
  index_of (f h) (map f cols) = index_of h cols.
Proof.
  induction cols as [| a r IH]; simpl; [tauto |].
  intros N Hh; apply andb_true_iff in N as [Na Nr].
  destruct (a =? h)%string eqn:E.
  - apply String.eqb_eq in E; subst; now rewrite String.eqb_refl.
  - apply String.eqb_neq in E; destruct Hh as [Hh | Hh]; [contradiction |].
    pose proof (nodupb_head_absent f a h r Na Hh) as D.
    apply String.eqb_neq in D; rewrite D; f_equal; auto.
Qed.

Lemma canonical_name_projected h c :
  dict_get column_mapping h = Some c -> c = "gpa" \/ In c schema_columns.
Proof.
  unfold column_mapping; simpl.
  repeat
    match goal with
    | |- context [if ?b then _ else _] => destruct b
    end;
    intro H; inversion H; subst; simpl; auto 20.
Qed.

Lemma rename_absent h : dict_get column_mapping h = None -> rename h = h.
Proof. unfold rename; now intros ->. Qed.

Lemma rename_present h c : dict_get column_mapping h = Some c -> rename h = c.
Proof. unfold rename; now intros ->. Qed.

(** What the code does with the labels and cells of one frame. *)
Definition renamed_trimmed_projected (df : DataFrame string)
  (self : DataTransformer) : Prop :=
  exists nf : DataFrame string,
    (* the normalizer returns, and records nothing *)
    _normalize_columns df self = (Return nf, self)
    /\ List.length (rows nf) = List.length (rows df)
    (* every label of the lookup table goes to its canonical name, every
       other label stays as it is *)
    /\ (forall h c, In h (columns df) -> dict_get column_mapping h = Some c ->
          In c (columns nf))
    /\ (forall h, In h (columns df) -> dict_get column_mapping h = None ->
          In h (columns nf))
    (* and every cell is trimmed *)
    /\ (forall h i, In h (columns df) ->
          cell "" (columns nf) (rename h) (nth i (rows nf) [])
          = strip (cell "" (columns df) h (nth i (rows df) [])))
    (* the projection keeps the labels of its list, so of the labels that
       are not in the lookup table exactly the canonical names survive, and
       of the others all but ["gpa"] *)
    /\ forall pad_year out rep self',
         transform pad_year df self = (Return (out, rep), self') ->
         (forall h, In h (columns df) -> dict_get column_mapping h = None ->
            (In h (columns out) <-> In h schema_columns))
         /\ (forall h c, In h (columns df) ->
               dict_get column_mapping h = Some c ->
               (In c (columns out) <-> c <> "gpa")).

(** C7, amended.  On a well-formed frame whose labels stay distinct after
    renaming, [_normalize_columns] renames every header of the lookup table
    to its canonical field name, leaves every other header under its own
    name, and trims every cell, recording no error and no event.  The
    projection of [_map_to_schema] then keeps the labels of
    [schema_columns]: a header that is not in the lookup table is dropped
    unless it is itself one of these nine names, and the canonical column
    ["gpa"] is dropped. *)
Theorem C7_normalize_columns_and_project :
  forall (df : DataFrame string) (self : DataTransformer),
    wf_frame df -> nodupb (map rename (columns df)) = true ->
    renamed_trimmed_projected df self.
Proof.
  intros df self W N; unfold renamed_trimmed_projected.
  exists (mkFrame (map rename (columns df)) (map (map strip) (rows df))).
  split; [unfold _normalize_columns; now rewrite N |].
  split; [simpl; now rewrite length_map |].
  split.
  { intros h c Hh Hc; simpl; rewrite <- (rename_present h c Hc).
    now apply in_map. }
  split.
  { intros h Hh Hc; simpl; rewrite <- (rename_absent h Hc) at 1.
    now apply in_map. }
  split.
  { intros h i Hh; simpl; unfold cell.
    rewrite index_of_map by assumption.
    change (@nil string) with (map strip []) at 1; rewrite map_nth.
    change "" with (strip "") at 1; now rewrite map_nth. }
  intros pad out rep self' H.
  apply transform_columns in H; rewrite H.
  split.
  - intros h Hh Hc; rewrite filter_In, existsb_eqb_In.
    split; [tauto | intro S; split; auto].
    rewrite <- (rename_absent h Hc); now apply in_map.
  - intros h c Hh Hc; rewrite filter_In, existsb_eqb_In.
    rewrite <- (rename_present h c Hc) at 2.
    destruct (canonical_name_projected h c Hc) as [-> | S].
    + split; [| congruence]; intros [S _] _.
      simpl in S; repeat (destruct S as [S | S]; [discriminate |]); exact S.
    + split; [| intros _; split; auto; now apply in_map].
      intros _ ->; simpl in S.
      repeat (destruct S as [S | S]; [discriminate |]); exact S.
Qed.

Lemma C7_normalize_columns_and_project_witness :
  wf_frame canonical_header_dataframe
  /\ nodupb (map rename (columns canonical_header_dataframe)) = true
  /\ renamed_trimmed_projected canonical_header_dataframe __init__.
Proof.
  split; [reflexivity |]. split; [reflexivity |].
  apply (C7_normalize_columns_and_project canonical_header_dataframe __init__);
    reflexivity.
Defined.

(* ================================================================= *)
(** * Further properties of the pipeline *)

(** ** The extractor: rows padded to the header *)

Module Extract.

(** [row + [''] * (len(headers) - len(row))], cut to [len(headers)] cells. *)
Definition normalized_row (headers row : list string) : list string :=
  firstn (List.length headers)
    (row ++ repeat "" (List.length headers - List.length row)).

(** [DataExtractor.extract_from_google_sheets], from the [values] the Sheets
    API returned on: no value gives the empty frame, otherwise the first
    list is the header and every other list one row. *)
Definition extract_from_values (values : list (list string))
  : DataFrame string :=
  match values with
  | [] => mkFrame [] []
  | headers :: data => mkFrame headers (map (normalized_row headers) data)
  end.

End Extract.
Import Extract.

Lemma normalized_row_length headers row :
  List.length (normalized_row headers row) = List.length headers.
Proof.
  unfold normalized_row; rewrite length_firstn, length_app, repeat_length; lia.
Qed.

Lemma normalized_row_nth headers row k :
  (k < List.length headers)%nat ->
  nth k (normalized_row headers row) "" = nth k row "".
Proof.
  intro Hk; unfold normalized_row.
  rewrite nth_firstn; destruct (Nat.ltb_spec k (List.length headers)); [| lia].
  destruct (Nat.lt_ge_cases k (List.length row)) as [L | L].
  - now rewrite app_nth1.
  - rewrite app_nth2 by assumption.
    rewrite (nth_overflow row) by assumption.
    now rewrite nth_repeat.
Qed.

(** X1.  The frame the extractor builds from a header and any rows has one
    row per data row, every row exactly as long as the header, and cell [k]
    of a row is cell [k] of the sheet row, or [''] where the sheet row was
    too short; cells beyond the header are cut.  With distinct headers it
    is a well-formed frame. *)
Theorem extract_from_values_rectangular :
  forall (headers : list string) (data : list (list string)),
    let df := extract_from_values (headers :: data) in
    columns df = headers
    /\ List.length (rows df) = List.length data
    /\ Forall (fun r => List.length r = List.length headers) (rows df)
    /\ (forall i k, (k < List.length headers)%nat ->
          nth k (nth i (rows df) []) "" = nth k (nth i data []) "")
    /\ (nodupb headers = true -> wf_frame df).
Proof.
  intros headers data; simpl.
  split; [reflexivity |]. split; [now rewrite length_map |].
  assert (F : Forall (fun r => List.length r = List.length headers)
                (map (normalized_row headers) data)).
  { apply Forall_forall; intros r Hr; apply in_map_iff in Hr as (r0 & <- & _).
    apply normalized_row_length. }
  split; [exact F |]. split.
  - intros i k Hk.
    destruct (Nat.lt_ge_cases i (List.length data)) as [L | L].
    + rewrite (nth_indep _ [] (normalized_row headers []))
        by (now rewrite length_map).
      rewrite map_nth; now apply normalized_row_nth.
    + rewrite (nth_overflow (map (normalized_row headers) data))
        by (rewrite length_map; lia).
      now rewrite (nth_overflow data) by lia.
  - intro N; unfold wf_frame; simpl; rewrite N; simpl.
    apply forallb_forall; intros r Hr.
    rewrite Forall_forall in F; apply Nat.eqb_eq; auto.
Qed.

(** ** The validators of the text fields *)

Definition statuses : list string :=
  ["active"; "inactive"; "graduated"; "suspended"].

Lemma map_status_value (status : string) (self : DataTransformer) :
  exists v, _map_status status self = (Return (PStr v), self) /\ In v statuses.
Proof.
  unfold _map_status; destruct (is_missing status).
  - exists "active"; split; simpl; auto.
  - unfold STATUS_MAPPING; simpl.
    repeat
      match goal with
      | |- context [if ?b then _ else _] => destruct b
      end;
      eexists; (split; [reflexivity |]); simpl; auto 10.
Qed.

(** X2.  [_map_status] never returns [None] and never touches the instance:
    on every string it returns one of the four status names, and it maps
    each of its own results to itself. *)
Theorem map_status_closed :
  forall (status : string) (self : DataTransformer),
    exists v,
      _map_status status self = (Return (PStr v), self)
      /\ In v statuses
      /\ _map_status v self = (Return (PStr v), self).
Proof.
  intros status self.
  destruct (map_status_value status self) as (v & E & Hin).
  exists v; split; [exact E |]. split; [exact Hin |].
  simpl in Hin.
  repeat (destruct Hin as [<- | Hin]; [reflexivity |]); destruct Hin.
Qed.

Definition departments : list string :=
  ["Computer Science"; "Mathematics"; "Physics"; "Business Administration";
   "Electrical Engineering"].

Lemma department_mapping_values k v :
  dict_get DEPARTMENT_MAPPING k = Some v -> In v departments.
Proof.
  unfold DEPARTMENT_MAPPING; simpl.
  repeat
    match goal with
    | |- context [if ?b then _ else _] => destruct b
    end;
    intro H; inversion H; subst; simpl; auto 10.
Qed.

Lemma map_department_cases dept self :
  _map_department dept self
  = if is_missing dept then (Return PNone, self)
    else
      match dict_get DEPARTMENT_MAPPING (strip (lower dept)) with
      | Some mapped =>
          (Return (PStr mapped),
           if (mapped =? dept)%string then self
           else mkTransformer (validation_errors self)
                  (transformation_log self
                   ++ [DEPARTMENT_NORMALIZED dept mapped]))
      | None => (Return (PStr dept), self)
      end.
Proof.
  unfold _map_department; destruct (is_missing dept); [reflexivity |].
  destruct (dict_get _ _) as [mapped |]; [| reflexivity].
  unfold bind; destruct (mapped =? dept)%string; reflexivity.
Qed.

(** What [_map_department] did when it returned [v] for [dept], and what
    it does to [v]. *)
Definition department_settled (dept v : string) (self self' : DataTransformer)
  : Prop :=
  (* an event is logged exactly when the name changed *)
  (v = dept /\ self' = self
   \/ v <> dept /\ In v departments
      /\ self' = mkTransformer (validation_errors self)
                   (transformation_log self ++ [DEPARTMENT_NORMALIZED dept v]))
  (* a second pass changes nothing and logs nothing *)
  /\ _map_department v self' = (Return (PStr v), self').

(** X3.  [_map_department] is idempotent: a name it returned is returned
    unchanged by a second pass, which logs nothing.  The first pass logs one
    [DEPARTMENT_NORMALIZED] event exactly when the name it returns differs
    from the one it received, and never records a validation error. *)
Theorem map_department_idempotent :
  forall (dept v : string) (self self' : DataTransformer),
    _map_department dept self = (Return (PStr v), self') ->
    department_settled dept v self self'.
Proof.
  intros dept v self self'; rewrite map_department_cases.
  destruct (is_missing dept) eqn:Mi; [discriminate |].
  unfold department_settled.
  destruct (dict_get _ _) as [mapped |] eqn:D.
  - intro H; inversion H; subst v self'; clear H.
    pose proof (department_mapping_values _ _ D) as Hin.
    split.
    + destruct (mapped =? dept)%string eqn:E.
      * apply String.eqb_eq in E; auto.
      * apply String.eqb_neq in E; right; auto.
    + generalize (if (mapped =? dept)%string then self
                  else mkTransformer (validation_errors self)
                         (transformation_log self
                          ++ [DEPARTMENT_NORMALIZED dept mapped])).
      intro s; simpl in Hin.
      repeat (destruct Hin as [<- | Hin]; [reflexivity |]); destruct Hin.
  - intro H; inversion H; subst v self'; clear H.
    split; [now left |].
    now rewrite map_department_cases, Mi, D.
Qed.

Lemma map_department_idempotent_witness :
  _map_department " cs " __init__
  = (Return (PStr "Computer Science"),
     mkTransformer [] [DEPARTMENT_NORMALIZED " cs " "Computer Science"])
  /\ department_settled " cs " "Computer Science" __init__
       (mkTransformer [] [DEPARTMENT_NORMALIZED " cs " "Computer Science"]).
Proof.
  split; [reflexivity |].
  apply (map_department_idempotent " cs " "Computer Science" __init__);
    reflexivity.
Defined.

(** ** The phone validator applied twice *)

Lemma filter_digits_all (l : list ascii) :
  forallb is_digit l = true -> filter is_digit l = l.
Proof.
  induction l as [| c l IH]; simpl; auto.
  intro H; apply andb_true_iff in H as [-> H]; f_equal; auto.
Qed.

Lemma filter_digits_are_digits (l : list ascii) :
  forallb is_digit (filter is_digit l) = true.
Proof.
  apply forallb_forall; intros c Hc; now apply filter_In in Hc.
Qed.

Lemma chars_of_chars l : chars (of_chars l) = l.
Proof. apply list_ascii_of_string_of_list_ascii. Qed.

Lemma of_chars_chars s : of_chars (chars s) = s.
Proof. apply string_of_list_ascii_of_string. Qed.

Lemma is_missing_long a b c d r :
  is_missing (String a (String b (String c (String d r)))) = false.
Proof.
  unfold is_missing; simpl.
  destruct (Ascii.eqb a "n"), (Ascii.eqb b "a"), (Ascii.eqb c "n"); reflexivity.
Qed.

Ltac use_digits :=
  repeat match goal with
         | Hd : is_digit _ = true |- _ => rewrite Hd; clear Hd
         end.

(** X4.  [_clean_phone] is idempotent: a phone number it returned, formatted
    or left as it was, is returned unchanged when cleaned again.  A returned
    number that was formatted consists of digits and dashes only. *)
Theorem clean_phone_idempotent :
  forall (phone v : string) (self self' : DataTransformer),
    _clean_phone phone self = (Return (PStr v), self') ->
    self' = self
    /\ _clean_phone v self = (Return (PStr v), self)
    /\ (v = phone
        \/ forallb (fun c => is_digit c || is_char "-" c) (chars v) = true).
Proof.
  intros phone v self self'; unfold _clean_phone at 1.
  destruct (is_missing phone) eqn:Mi; [discriminate |].
  pose proof (filter_digits_are_digits (chars phone)) as D.
  unfold PyStr.len.
  destruct (Z.of_nat (List.length (filter is_digit (chars phone))) =? 10) eqn:E10.
  - apply Z.eqb_eq in E10.
    destruct (filter is_digit (chars phone)) as [| c1 l]; [discriminate |].
    do 10 (destruct l as [| ? l]; try (simpl in E10; lia)).
    simpl in D; repeat (apply andb_true_iff in D as [? D]).
    intro Heq; inversion Heq; subst v self'; clear Heq.
    split; [reflexivity |]. split.
    + unfold _clean_phone, PyStr.len; rewrite is_missing_long; simpl.
      use_digits; reflexivity.
    + right; simpl.
      use_digits; reflexivity.
  - destruct (Z.of_nat (List.length (filter is_digit (chars phone))) =? 7) eqn:E7.
    + apply Z.eqb_eq in E7.
      destruct (filter is_digit (chars phone)) as [| c1 l]; [discriminate |].
      do 7 (destruct l as [| ? l]; try (simpl in E7; lia)).
      simpl in D; repeat (apply andb_true_iff in D as [? D]).
      intro Heq; inversion Heq; subst v self'; clear Heq.
      split; [reflexivity |]. split.
      * unfold _clean_phone, PyStr.len; rewrite is_missing_long; simpl.
        use_digits; reflexivity.
      * right; simpl.
        use_digits; reflexivity.
    + intro Heq; inversion Heq; subst v self'; clear Heq.
      split; [reflexivity |]. split; [| now left].
      unfold _clean_phone, PyStr.len; now rewrite Mi, E10, E7.
Qed.

Lemma clean_phone_idempotent_witness :
  _clean_phone "(555) 010-1234" __init__ = (Return (PStr "555-010-1234"), __init__)
  /\ __init__ = __init__
  /\ _clean_phone "555-010-1234" __init__ = (Return (PStr "555-010-1234"), __init__)
  /\ ("555-010-1234" = "(555) 010-1234"
      \/ forallb (fun c => is_digit c || is_char "-" c) (chars "555-010-1234")
         = true).
Proof.
  split; [reflexivity |].
  apply (clean_phone_idempotent "(555) 010-1234" "555-010-1234" __init__ __init__).
  reflexivity.
Defined.

(** ** The year validator, when it returns and when it raises *)

(** The integer [_clean_year] reads from a string: [int(float(year))],
    when the string is not skipped and both calls return. *)
Definition year_read (year : string) : option Z :=
  if is_missing year then None
  else
    match float year with
    | inr x => match int x with inr n => Some n | inl _ => None end
    | inl _ => None
    end.

(** The instance after [_clean_year] recorded that it read [n] from [year]. *)
Definition year_recorded (year : string) (n : Z) (self : DataTransformer)
  : DataTransformer :=
  mkTransformer
    (validation_errors self
     ++ [mkError "year_level" year (Year_out_of_range n)])
    (transformation_log self).

(** X5.  When [int(float(year))] gives an integer [n], [_clean_year] returns
    [n] itself and records nothing if [n] is between 1 and 4; it returns 1
    for a smaller and 4 for a larger [n], and then records one error, which
    holds the string as it was given and [n].  When no integer is read, a
    value it returns is [None] and nothing is recorded.  So a value
    returned is [None] or an integer from 1 to 4, and an error is recorded
    exactly when the integer read lies outside 1..4. *)
Theorem clean_year_clamped :
  forall (year : string) (self : DataTransformer),
    (forall n, year_read year = Some n ->
       (1 <= n <= 4 -> _clean_year year self = (Return (PInt n), self))
       /\ (n < 1 ->
           _clean_year year self = (Return (PInt 1), year_recorded year n self))
       /\ (4 < n ->
           _clean_year year self = (Return (PInt 4), year_recorded year n self)))
    /\ (year_read year = None ->
        forall v self', _clean_year year self = (Return v, self') ->
          v = PNone /\ self' = self)
    /\ (forall v self', _clean_year year self = (Return v, self') ->
          (v = PNone \/ exists z, v = PInt z /\ 1 <= z <= 4)
          /\ (validation_errors self' <> validation_errors self
              <-> exists n, year_read year = Some n /\ (n < 1 \/ 4 < n))).
Proof.
  intros year self; rewrite clean_year_cases; unfold year_read, year_recorded.
  destruct (is_missing year).
  { split; [discriminate |].
    split; [intros _ v self' H; inversion H; auto |].
    intros v self' H; inversion H; subst; split; [auto |].
    split; [congruence | intros (n & D & _); discriminate]. }
  destruct (float year) as [e | x].
  { split; [discriminate |].
    split; [intros _ v self' H; inversion H; auto |].
    intros v self' H; inversion H; subst; split; [auto |].
    split; [congruence | intros (n & D & _); discriminate]. }
  destruct (int x) as [e | n].
  { split; [discriminate |].
    split; [intros _ v self' H; destruct e; inversion H; auto |].
    intros v self' H; destruct e; inversion H; subst; (split; [auto |]);
      (split; [congruence | intros (n & D & _); discriminate]). }
  split.
  { intros n' E; injection E as <-.
    split; [| split]; intro R.
    - replace ((1 <=? n) && (n <=? 4)) with true by lia; reflexivity.
    - replace ((1 <=? n) && (n <=? 4)) with false by lia.
      replace (Z.max 1 (Z.min 4 n)) with 1 by lia; reflexivity.
    - replace ((1 <=? n) && (n <=? 4)) with false by lia.
      replace (Z.max 1 (Z.min 4 n)) with 4 by lia; reflexivity. }
  split; [discriminate |].
  intros v self'.
  destruct ((1 <=? n) && (n <=? 4)) eqn:R; intro H; inversion H; subst.
  - split; [right; exists n; split; [reflexivity | lia] |].
    split; [congruence |].
    intros (n' & E & O); injection E as <-; lia.
  - split; [right; eexists; split; [reflexivity | lia] |].
    split; [intros _; exists n; split; [reflexivity | lia] |].
    intros _; simpl; apply app_one_neq.
Qed.

Lemma clean_year_clamped_witness :
  year_read "7.9" = Some 7
  /\ 4 < 7
  /\ _clean_year "7.9" __init__
     = (Return (PInt 4),
        mkTransformer [mkError "year_level" "7.9" (Year_out_of_range 7)] []).
Proof.
  split; [reflexivity |]. split; [lia |].
  destruct (clean_year_clamped "7.9" __init__) as (H & _).
  destruct (H 7 eq_refl) as (_ & _ & H4).
  exact (H4 ltac:(lia)).
Defined.

(** X6.  [_clean_year] raises exactly on the strings, other than the empty
    string and ["nan"], that [float] reads as an infinity; the exception is
    [OverflowError] and nothing has been recorded when it leaves. *)
Theorem clean_year_raises_iff :
  forall (year : string) (e : exn) (self self' : DataTransformer),
    _clean_year year self = (Raise e, self')
    <-> e = OverflowError /\ self' = self /\ is_missing year = false
        /\ exists s, float year = inr (S754_infinity s).
Proof.
  intros year e self self'; rewrite clean_year_cases; split.
  - destruct (is_missing year); [discriminate |].
    destruct (float year) as [e' | x]; [discriminate |].
    destruct x as [s | s | | s m ex]; simpl; try discriminate.
    + intro H; inversion H; subst; eauto 6.
    + destruct ((1 <=? _) && _); discriminate.
  - intros (-> & -> & -> & s & ->); reflexivity.
Qed.

(** ** The e-mail validator *)

Lemma lower_char_idempotent c : lower_char (lower_char c) = lower_char c.
Proof. destruct c as [[] [] [] [] [] [] [] []]; reflexivity. Qed.

Lemma is_space_lower_char c : is_space (lower_char c) = is_space c.
Proof. destruct c as [[] [] [] [] [] [] [] []]; reflexivity. Qed.

Lemma lstrip_map_lower l :
  lstrip (map lower_char l) = map lower_char (lstrip l).
Proof.
  induction l as [| c l IH]; simpl; auto.
  rewrite is_space_lower_char; destruct (is_space c); auto.
Qed.

Lemma rstrip_map_lower l :
  rstrip (map lower_char l) = map lower_char (rstrip l).
Proof.
  induction l as [| c l IH]; simpl; auto.
  rewrite IH, is_space_lower_char.
  destruct (rstrip l); simpl; [destruct (is_space c) |]; reflexivity.
Qed.

Lemma rstrip_idempotent l : rstrip (rstrip l) = rstrip l.
Proof.
  induction l as [| c l IH]; simpl; auto.
  destruct (rstrip l) as [| d r] eqn:E.
  - destruct (is_space c) eqn:S; simpl; [reflexivity | now rewrite S].
  - change (rstrip (c :: d :: r)) with
      (match rstrip (d :: r) with
       | [] => if is_space c then [] else [c]
       | r' => c :: r'
       end).
    now rewrite IH.
Qed.

Lemma lstrip_head l :
  lstrip l = [] \/ exists c r, lstrip l = c :: r /\ is_space c = false.
Proof.
  induction l as [| c l IH]; simpl; auto.
  destruct (is_space c) eqn:S; auto; right; eauto.
Qed.

Lemma lstrip_rstrip_lstrip l : lstrip (rstrip (lstrip l)) = rstrip (lstrip l).
Proof.
  destruct (lstrip_head l) as [-> | (c & r & -> & S)]; [reflexivity |].
  simpl; destruct (rstrip r); rewrite ?S; simpl; rewrite ?S; reflexivity.
Qed.

Lemma strip_idempotent s : strip (strip s) = strip s.
Proof.
  unfold strip; rewrite chars_of_chars.
  now rewrite lstrip_rstrip_lstrip, rstrip_idempotent.
Qed.

Lemma lower_idempotent s : lower (lower s) = lower s.
Proof.
  unfold lower; rewrite chars_of_chars, map_map; f_equal.
  apply map_ext; intro; apply lower_char_idempotent.
Qed.

Lemma lower_strip s : lower (strip s) = strip (lower s).
Proof.
  unfold lower, strip; rewrite !chars_of_chars.
  now rewrite lstrip_map_lower, rstrip_map_lower.
Qed.

(** The three character classes of the pattern. *)
Definition is_local (c : ascii) : bool :=
  is_word c || is_char "." c || is_char "-" c.

Lemma is_char_eq a c : is_char a c = true -> c = a.
Proof.
  unfold is_char, code; intro H; apply N.eqb_eq in H.
  rewrite <- (ascii_N_embedding c), <- (ascii_N_embedding a); now f_equal.
Qed.

Lemma plus_then_split p k l :
  plus_then p k l = true ->
  exists a b, l = a ++ b /\ a <> [] /\ forallb p a = true /\ k b = true.
Proof.
  induction l as [| c r IH]; simpl; [discriminate |].
  intro H; apply andb_true_iff in H as [Hc H].
  apply orb_true_iff in H as [H | H].
  - destruct (IH H) as (a & b & -> & _ & Ha & Hb).
    exists (c :: a), b; repeat split; auto; [discriminate |].
    simpl; now rewrite Hc.
  - exists [c], r; repeat split; auto; [discriminate |].
    simpl; now rewrite Hc.
Qed.

(** An address: a local part, ["@"], a domain, ["."] and a last label. *)
Definition email_shape (v : string) : Prop :=
  exists a b c,
    chars v = a ++ "@"%char :: b ++ "."%char :: c
    /\ a <> [] /\ b <> [] /\ c <> []
    /\ forallb is_local a = true /\ forallb is_local b = true
    /\ forallb is_word c = true.

Lemma email_pattern_shape v :
  re_fullmatch email_pattern (chars v) = true -> email_shape v.
Proof.
  unfold email_pattern; simpl; intro H.
  apply plus_then_split in H as (a & r1 & E1 & Na & Ha & H).
  destruct r1 as [| c1 r1]; [discriminate |].
  apply andb_true_iff in H as [C1 H]; apply is_char_eq in C1; subst c1.
  apply plus_then_split in H as (b & r2 & -> & Nb & Hb & H).
  destruct r2 as [| c2 r2]; [discriminate |].
  apply andb_true_iff in H as [C2 H]; apply is_char_eq in C2; subst c2.
  apply plus_then_split in H as (c & r3 & -> & Nc & Hc & H).
  destruct r3; [| discriminate].
  exists a, b, c; rewrite app_nil_r in E1; repeat split; auto.
Qed.

Lemma clean_email_accepted email v self self' :
  _clean_email email self = (Return (PStr v), self') ->
  self' = self /\ v = strip (lower email)
  /\ re_fullmatch email_pattern (chars v) = true.
Proof.
  unfold _clean_email; destruct (is_missing email); [discriminate |].
  destruct (re_fullmatch _ _) eqn:R; simpl; [| discriminate].
  intro H; inversion H; subst; auto.
Qed.

(** What [_clean_email] returned, and what it does to it. *)
Definition email_settled (email v : string) (self self' : DataTransformer)
  : Prop :=
  self' = self
  /\ v = strip (lower email)
  /\ lower v = v /\ strip v = v
  /\ email_shape v
  /\ _clean_email v self = (Return (PStr v), self).

(** X7.  An address [_clean_email] returns is the lower-cased, stripped
    input; it is made of a non-empty local part, one ["@"], a non-empty
    domain, a ["."] and a non-empty last label of word characters; lowering
    or stripping it again changes nothing, and [_clean_email] returns it
    unchanged, recording nothing either time. *)
Theorem clean_email_idempotent :
  forall (email v : string) (self self' : DataTransformer),
    _clean_email email self = (Return (PStr v), self') ->
    email_settled email v self self'.
Proof.
  intros email v self self' H.
  apply clean_email_accepted in H as (-> & -> & R).
  assert (L : lower (strip (lower email)) = strip (lower email))
    by (now rewrite lower_strip, lower_idempotent).
  assert (S : strip (strip (lower email)) = strip (lower email))
    by apply strip_idempotent.
  unfold email_settled; repeat split; auto.
  - now apply email_pattern_shape.
  - unfold _clean_email; rewrite L, S, R; simpl.
    destruct (is_missing (strip (lower email))) eqn:Mi; [| reflexivity].
    unfold is_missing in Mi; apply orb_true_iff in Mi as [E | E];
      apply String.eqb_eq in E; rewrite E in R; discriminate.
Qed.

Lemma clean_email_idempotent_witness :
  _clean_email "  TEST@EXAMPLE.COM  " __init__
  = (Return (PStr "test@example.com"), __init__)
  /\ email_settled "  TEST@EXAMPLE.COM  " "test@example.com" __init__ __init__.
Proof.
  split; [reflexivity |].
  apply (clean_email_idempotent "  TEST@EXAMPLE.COM  " "test@example.com"
           __init__ __init__).
  reflexivity.
Defined.

(** ** Printing a date and reading it back *)

Definition iso_format : list directive := [dY; lit "-"; dm; lit "-"; dd].

Lemma digit_val_digit_char n : digit_val (digit_char n) = n mod 10.
Proof.
  unfold digit_char; pose proof (Z.mod_pos_bound n 10 ltac:(lia)) as B.
  assert (H : n mod 10 = 0 \/ n mod 10 = 1 \/ n mod 10 = 2 \/ n mod 10 = 3
              \/ n mod 10 = 4 \/ n mod 10 = 5 \/ n mod 10 = 6 \/ n mod 10 = 7
              \/ n mod 10 = 8 \/ n mod 10 = 9) by lia.
  repeat (destruct H as [-> | H]; [reflexivity |]); rewrite H; reflexivity.
Qed.

Lemma is_space_digit_char n : is_space (digit_char n) = false.
Proof.
  unfold digit_char; pose proof (Z.mod_pos_bound n 10 ltac:(lia)) as B.
  assert (H : n mod 10 = 0 \/ n mod 10 = 1 \/ n mod 10 = 2 \/ n mod 10 = 3
              \/ n mod 10 = 4 \/ n mod 10 = 5 \/ n mod 10 = 6 \/ n mod 10 = 7
              \/ n mod 10 = 8 \/ n mod 10 = 9) by lia.
  repeat (destruct H as [-> | H]; [reflexivity |]); rewrite H; reflexivity.
Qed.

Lemma four_decimal_digits y :
  0 <= y <= 9999 ->
  10 * (10 * (10 * (10 * 0 + (y / 1000) mod 10) + (y / 100) mod 10)
        + (y / 10) mod 10) + y mod 10 = y.
Proof.
  intro B.
  assert (E1 : y / 10 = 10 * (y / 100) + (y / 10) mod 10).
  { rewrite (Z.div_mod (y / 10) 10) at 1 by lia.
    now rewrite Z.div_div by lia. }
  assert (E2 : y / 100 = 10 * (y / 1000) + (y / 100) mod 10).
  { rewrite (Z.div_mod (y / 100) 10) at 1 by lia.
    now rewrite Z.div_div by lia. }
  assert (E3 : (y / 1000) mod 10 = y / 1000).
  { apply Z.mod_small; split;
      [apply Z.div_pos; lia | apply Z.div_lt_upper_bound; lia]. }
  pose proof (Z.div_mod y 10 ltac:(lia)); lia.
Qed.

Lemma digits_val_four_digits y :
  0 <= y <= 9999 -> digits_val (four_digits y) = y.
Proof.
  intro B; unfold four_digits, digits_val; cbn [fold_left].
  rewrite !digit_val_digit_char; now apply four_decimal_digits.
Qed.

(** The month and the day, printed on two digits, are read back. *)
Lemma re_match_month_day acc m d :
  1 <= m <= 12 -> 1 <= d <= 31 ->
  re_match [dm; lit "-"; dd] (two_digits m ++ "-"%char :: two_digits d) acc
  = Some ({| year := year acc; month := m; day := d |}, []).
Proof.
  intros Bm Bd.
  assert (Hm : m = 1 \/ m = 2 \/ m = 3 \/ m = 4 \/ m = 5 \/ m = 6 \/ m = 7
               \/ m = 8 \/ m = 9 \/ m = 10 \/ m = 11 \/ m = 12) by lia.
  assert (Hd : d = 1 \/ d = 2 \/ d = 3 \/ d = 4 \/ d = 5 \/ d = 6 \/ d = 7
               \/ d = 8 \/ d = 9 \/ d = 10 \/ d = 11 \/ d = 12 \/ d = 13
               \/ d = 14 \/ d = 15 \/ d = 16 \/ d = 17 \/ d = 18 \/ d = 19
               \/ d = 20 \/ d = 21 \/ d = 22 \/ d = 23 \/ d = 24 \/ d = 25
               \/ d = 26 \/ d = 27 \/ d = 28 \/ d = 29 \/ d = 30 \/ d = 31)
    by lia.
  clear Bm Bd.
  repeat (destruct Hm as [-> | Hm]);
    try subst m;
    repeat (destruct Hd as [-> | Hd]; [reflexivity |]); subst d; reflexivity.
Qed.

Lemma valid_date_bounds t :
  valid_date t = true ->
  1 <= year t <= 9999 /\ 1 <= month t <= 12 /\ 1 <= day t <= 31.
Proof.
  unfold valid_date; rewrite !andb_true_iff, !Z.leb_le.
  intros [[[[[? ?] ?] ?] ?] D].
  assert (days_in_month (year t) (month t) <= 31).
  { unfold days_in_month.
    destruct (month t =? 2); [destruct (is_leap _); lia |].
    destruct (_ || _); lia. }
  lia.
Qed.

Lemma re_match_year f y rest acc :
  0 <= y <= 9999 ->
  re_match (dY :: lit "-" :: f) (four_digits y ++ "-"%char :: rest) acc
  = re_match f rest {| year := y; month := month acc; day := day acc |}.
Proof.
  intro B.
  assert (A : alts_Y (four_digits y ++ "-"%char :: rest)
              = [(y, "-"%char :: rest)]).
  { pose proof (digits_val_four_digits y B) as D.
    unfold four_digits in *; cbn [app alts_Y].
    now rewrite !is_digit_digit_char, D. }
  cbn [re_match]; rewrite A; cbn [first_some re_match].
  change (code "-" =? code "-")%N with true; cbv iota.
  now destruct (re_match f rest _).
Qed.

Lemma re_match_iso t acc :
  valid_date t = true ->
  re_match iso_format
    (four_digits (year t) ++ "-"%char :: two_digits (month t)
     ++ "-"%char :: two_digits (day t)) acc
  = Some (t, []).
Proof.
  intro V; destruct (valid_date_bounds t V) as (By & Bm & Bd).
  unfold iso_format; rewrite re_match_year by lia.
  rewrite re_match_month_day by assumption.
  now destruct t.
Qed.

Lemma strip_no_space l :
  forallb (fun c => negb (is_space c)) l = true -> rstrip (lstrip l) = l.
Proof.
  intro H.
  assert (L : lstrip l = l).
  { destruct l as [| c r]; simpl in *; auto.
    apply andb_true_iff in H as [H _]; apply negb_true_iff in H.
    now rewrite H. }
  rewrite L; clear L; induction l as [| c r IH]; simpl in *; auto.
  apply andb_true_iff in H as [Hc Hr]; apply negb_true_iff in Hc.
  rewrite (IH Hr); destruct r; [now rewrite Hc | reflexivity].
Qed.

Lemma strip_canonical pad t :
  pad = true \/ 1000 <= year t <= 9999 ->
  chars (strip (strftime_Y_m_d pad t))
  = four_digits (year t) ++ "-"%char :: two_digits (month t)
    ++ "-"%char :: two_digits (day t).
Proof.
  intro H; unfold strip, strftime_Y_m_d; rewrite !chars_of_chars.
  rewrite strftime_Y_four by assumption.
  apply strip_no_space; unfold four_digits, two_digits; simpl.
  now rewrite !is_space_digit_char.
Qed.

(** X8.  Reading back what was printed: a date [strptime] accepted, printed
    by [strftime('%Y-%m-%d')] on four year digits, is parsed by the first
    format to the same date, so [_clean_date] returns a canonical date
    unchanged and records nothing. *)
Theorem clean_date_round_trip :
  forall (pad_year : bool) (t : date) (self : DataTransformer),
    valid_date t = true ->
    pad_year = true \/ 1000 <= year t ->
    strptime (strip (strftime_Y_m_d pad_year t)) iso_format = Some t
    /\ _clean_date pad_year (strftime_Y_m_d pad_year t) self
       = (Return (PStr (strftime_Y_m_d pad_year t)), self).
Proof.
  intros pad t self V H.
  destruct (valid_date_bounds t V) as (By & _).
  assert (H' : pad = true \/ 1000 <= year t <= 9999) by (destruct H; [auto | right; lia]).
  assert (P : strptime (strip (strftime_Y_m_d pad t)) iso_format = Some t).
  { unfold strptime; rewrite (strip_canonical pad t H').
    now rewrite re_match_iso, V. }
  split; [exact P |].
  unfold _clean_date.
  assert (Mi : is_missing (strftime_Y_m_d pad t) = false).
  { unfold strftime_Y_m_d; rewrite strftime_Y_four by assumption.
    unfold four_digits; simpl; apply is_missing_long. }
  rewrite Mi; unfold date_formats; cbn [try_formats].
  fold iso_format; now rewrite P.
Qed.

Lemma clean_date_round_trip_witness :
  valid_date {| year := 2004; month := 2; day := 29 |} = true
  /\ (false = true \/ 1000 <= 2004)
  /\ strptime (strip "2004-02-29") iso_format
     = Some {| year := 2004; month := 2; day := 29 |}
  /\ _clean_date false "2004-02-29" __init__
     = (Return (PStr "2004-02-29"), __init__).
Proof.
  split; [reflexivity |]. split; [right; lia |].
  apply (clean_date_round_trip false {| year := 2004; month := 2; day := 29 |}
           __init__); [reflexivity | right; simpl; lia].
Defined.

(** ** What each column of the cleaned frame holds *)

(** The value a validator returns (or the exception it raises) on a string;
    by [uniform] it is the same on every instance. *)
Definition value_of (f : string -> M pyval) (s : string) : outcome pyval :=
  fst (f s __init__).

Lemma uniform_fst {A} (c : M A) self1 self2 :
  uniform c -> fst (c self1) = fst (c self2).
Proof. intros (r & es & ls & H); now rewrite !H. Qed.

Lemma value_of_eq f s self r self' :
  uniform (f s) -> f s self = (r, self') -> value_of f s = r.
Proof.
  intros U H; unfold value_of.
  rewrite (uniform_fst (f s) __init__ self U), H; reflexivity.
Qed.

Lemma mapM_values f l :
  (forall s, uniform (f s)) ->
  forall self vs self',
    mapM f l self = (Return vs, self') ->
    List.length vs = List.length l
    /\ forall i, (i < List.length l)%nat ->
         value_of f (nth i l "") = Return (nth i vs PNone).
Proof.
  intro U; induction l as [| x l IH]; simpl; intros self vs self' H.
  - inversion H; split; [reflexivity | simpl; lia].
  - apply bind_Return_inv in H as (y & s1 & Hx & H).
    apply bind_Return_inv in H as (ys & s2 & Hl & H).
    inversion H; subst vs self'; clear H.
    destruct (IH _ _ _ Hl) as [L V]; split; [simpl; now rewrite L |].
    intros [| i] Hi; simpl.
    + eapply value_of_eq; eauto.
    + apply V; lia.
Qed.

Lemma mapM_raises f l :
  (forall s, uniform (f s)) ->
  forall self e self',
    mapM f l self = (Raise e, self') ->
    exists x, In x l /\ value_of f x = Raise e.
Proof.
  intro U; induction l as [| x l IH]; simpl; intros self e self' H.
  - discriminate.
  - unfold bind in H; destruct (f x self) as [[y | e'] s1] eqn:Hx.
    + destruct (mapM f l s1) as [[ys | e'] s2] eqn:Hl; [discriminate |].
      inversion H; subst e' self'; clear H.
      destruct (IH _ _ _ Hl) as (x' & Hin & Hv); eauto.
    + inversion H; subst e' self'; clear H.
      exists x; split; [now left | eapply value_of_eq; eauto].
Qed.

Lemma mapM_returns f l :
  (forall s, uniform (f s)) ->
  (forall x, In x l -> exists v, value_of f x = Return v) ->
  forall self, exists vs self', mapM f l self = (Return vs, self').
Proof.
  intros U; induction l as [| x l IH]; simpl; intros T self.
  - unfold ret; eauto.
  - destruct (T x (or_introl eq_refl)) as (v & Hv).
    unfold bind; destruct (f x self) as [[y | e] s1] eqn:Hx.
    + destruct (IH (fun x' Hx' => T x' (or_intror Hx')) s1) as (vs & s2 & ->).
      unfold ret; eauto.
    + rewrite (value_of_eq f x self _ _ (U x) Hx) in Hv; discriminate.
Qed.

(** The values of a validator down a column, cell after cell; the
    exception of the first cell on which it raises. *)
Fixpoint values_of (f : string -> M pyval) (l : list string)
  : outcome (list pyval) :=
  match l with
  | [] => Return []
  | x :: r =>
      match value_of f x with
      | Raise e => Raise e
      | Return v =>
          match values_of f r with
          | Raise e => Raise e
          | Return vs => Return (v :: vs)
          end
      end
  end.

Lemma mapM_values_of f l :
  (forall s, uniform (f s)) ->
  forall self vs self',
    mapM f l self = (Return vs, self') -> values_of f l = Return vs.
Proof.
  intro U; induction l as [| x l IH]; simpl; intros self vs self' H.
  - inversion H; reflexivity.
  - apply bind_Return_inv in H as (y & s1 & Hx & H).
    apply bind_Return_inv in H as (ys & s2 & Hl & H).
    inversion H; subst vs self'; clear H.
    rewrite (value_of_eq f x self _ _ (U x) Hx), (IH _ _ _ Hl); reflexivity.
Qed.

Lemma values_of_nth f l vs :
  values_of f l = Return vs ->
  List.length vs = List.length l
  /\ forall i, (i < List.length l)%nat ->
       value_of f (nth i l "") = Return (nth i vs PNone).
Proof.
  revert vs; induction l as [| x l IH]; simpl; intros vs H.
  - inversion H; split; [reflexivity | simpl; lia].
  - destruct (value_of f x) as [v | e] eqn:Hx; [| discriminate].
    destruct (values_of f l) as [ys | e]; [| discriminate].
    inversion H; subst vs; clear H.
    destruct (IH ys eq_refl) as [L V]; split; [simpl; now rewrite L |].
    intros [| i] Hi; simpl; [exact Hx | apply V; lia].
Qed.

Lemma values_of_forallb f (p : pyval -> bool) l vs :
  (forall s v, value_of f s = Return v -> p v = true) ->
  values_of f l = Return vs -> forallb p vs = true.
Proof.
  intro P; revert vs; induction l as [| x l IH]; simpl; intros vs H.
  - inversion H; reflexivity.
  - destruct (value_of f x) as [v | e] eqn:Hx; [| discriminate].
    destruct (values_of f l) as [ys | e]; [| discriminate].
    inversion H; subst vs; simpl.
    now rewrite (P x v Hx), (IH ys eq_refl).
Qed.

(** *** The dtype of a cleaned column *)

(** A value that is [None] or a string. *)
Definition is_text (v : pyval) : bool := is_none v || is_str v.

(** A column of strings and [None] keeps its values. *)
Lemma maybe_convert_objects_text vs :
  forallb is_text vs = true -> maybe_convert_objects vs = vs.
Proof.
  intro T; unfold maybe_convert_objects.
  destruct (existsb is_str vs); [reflexivity |].
  assert (F : existsb is_float vs = false /\ existsb is_int vs = false).
  { induction vs as [| v vs IH]; [now split |].
    simpl in T; apply andb_true_iff in T as [Tv T].
    destruct (IH T) as [F I]; simpl; rewrite F, I.
    destruct v; try discriminate; now split. }
  destruct F as [-> ->]; now rewrite andb_false_r.
Qed.

(** The values are kept, or every one of them is stored as a float. *)
Lemma maybe_convert_objects_cases vs :
  maybe_convert_objects vs = vs
  \/ maybe_convert_objects vs = map to_float64 vs.
Proof.
  unfold maybe_convert_objects.
  destruct (existsb is_str vs); [now left |].
  destruct (existsb is_float vs); [now right |].
  destruct (existsb is_none vs && existsb is_int vs); [now right | now left].
Qed.

(** *** The columns, stage by stage *)

Lemma index_of_lt c cols :
  In c cols -> (index_of c cols < List.length cols)%nat.
Proof.
  induction cols as [| a r IH]; simpl; [tauto |].
  destruct (a =? c)%string eqn:E; [lia |].
  intros [H | H]; [subst; rewrite String.eqb_refl in E; discriminate |].
  specialize (IH H); lia.
Qed.

Lemma index_of_inj c c' cols :
  In c cols -> In c' cols -> index_of c cols = index_of c' cols -> c = c'.
Proof.
  induction cols as [| a r IH]; simpl; [tauto |].
  intros Hc Hc'.
  destruct (a =? c)%string eqn:E; destruct (a =? c')%string eqn:E'.
  - apply String.eqb_eq in E, E'; congruence.
  - discriminate.
  - discriminate.
  - apply String.eqb_neq in E, E'; intro H.
    destruct Hc as [Hc | Hc]; [contradiction |].
    destruct Hc' as [Hc' | Hc']; [contradiction |].
    apply IH; auto.
Qed.

Lemma nth_set_nth {V} (d v : V) i j (r : list V) :
  nth j (set_nth i v r) d
  = if Nat.eqb j i && Nat.ltb i (List.length r) then v else nth j r d.
Proof.
  revert i j; induction r as [| x r IH]; intros i j.
  - simpl; destruct i; rewrite andb_false_r; reflexivity.
  - destruct i as [| i], j as [| j]; simpl; auto.
Qed.

Lemma nth_map_combine {A B C} (f : A * B -> C) (l1 : list A) (l2 : list B)
  i a b c :
  (i < List.length l1)%nat -> List.length l2 = List.length l1 ->
  nth i (map f (combine l1 l2)) c = f (nth i l1 a, nth i l2 b).
Proof.
  revert l2 i; induction l1 as [| x l1 IH]; intros [| y l2] i; simpl;
    try lia; try discriminate.
  destruct i as [| i]; intros Hi L; [reflexivity |].
  apply IH; lia.
Qed.

(** The rows of a frame have the length of its header. *)
Definition rectangular {V} (df : DataFrame V) : Prop :=
  forall i, (i < List.length (rows df))%nat ->
    List.length (nth i (rows df) []) = List.length (columns df).

(** A cell of a column is the cell of the row. *)
Lemma nth_column {V} (d : V) (df : DataFrame V) c i :
  nth i (column d df c) d = cell d (columns df) c (nth i (rows df) []).
Proof.
  unfold column.
  rewrite <- (map_nth (cell d (columns df) c) (rows df) [] i).
  f_equal; unfold cell; now destruct (index_of c (columns df)).
Qed.

(** [df[c0] = vs] replaces the column [c0] and leaves the others. *)
Lemma column_set_column (d : DataFrame pyval) c0 c vs :
  rectangular d -> In c0 (columns d) -> In c (columns d) ->
  List.length vs = List.length (rows d) ->
  column PNone (set_column d c0 vs) c
  = if (c =? c0)%string then vs else column PNone d c.
Proof.
  intros Rd H0 Hc L.
  assert (Len : List.length (rows (set_column d c0 vs)) = List.length (rows d))
    by (unfold set_column; simpl; rewrite length_map, length_combine; lia).
  apply (nth_ext _ _ PNone PNone).
  - unfold column at 1; rewrite length_map, Len.
    destruct (c =? c0)%string; [now rewrite L |].
    unfold column; now rewrite length_map.
  - intros i Hi; unfold column at 1 in Hi; rewrite length_map, Len in Hi.
    rewrite nth_column.
    change (columns (set_column d c0 vs)) with (columns d).
    assert (Row : nth i (rows (set_column d c0 vs)) []
                  = set_nth (index_of c0 (columns d)) (nth i vs PNone)
                      (nth i (rows d) [])).
    { unfold set_column; simpl.
      now rewrite (nth_map_combine _ _ _ i [] PNone) by lia. }
    rewrite Row; unfold cell; rewrite nth_set_nth.
    assert (Lt : (index_of c0 (columns d) <? List.length (nth i (rows d) []))%nat
                 = true)
      by (apply Nat.ltb_lt; rewrite Rd by lia; now apply index_of_lt).
    rewrite Lt, andb_true_r.
    destruct (c =? c0)%string eqn:E.
    + apply String.eqb_eq in E; subst c; now rewrite Nat.eqb_refl.
    + destruct (Nat.eqb_spec (index_of c (columns d)) (index_of c0 (columns d)))
        as [I | I].
      * apply index_of_inj in I; auto; subst.
        rewrite String.eqb_refl in E; discriminate.
      * rewrite nth_column; reflexivity.
Qed.

Lemma rectangular_set_column (d : DataFrame pyval) c0 vs :
  rectangular d -> List.length vs = List.length (rows d) ->
  rectangular (set_column d c0 vs).
Proof.
  intros Rd L i Hi.
  unfold set_column in *; simpl in *.
  rewrite length_map, length_combine in Hi.
  rewrite (nth_map_combine _ _ _ i [] PNone) by lia.
  rewrite set_nth_length; apply Rd; lia.
Qed.

(** The columns of [d] after some columns of [src] were cleaned: a column in
    [done] holds what [clean] gives on the whole column, any other the raw
    strings. *)
Definition columns_cleaned
  (clean : string -> list string -> outcome (list pyval))
  (done : list string) (src : DataFrame string) (d : DataFrame pyval) : Prop :=
  same_shape src d /\ rectangular d
  /\ forall c, In c (columns src) ->
       if existsb (String.eqb c) done
       then clean c (column "" src c) = Return (column PNone d c)
       else column PNone d c = map PStr (column "" src c).

(** The column [Series.apply] builds from the values of [f]. *)
Definition applied (f : string -> M pyval) (raws : list string)
  : outcome (list pyval) :=
  match values_of f raws with
  | Return vs => Return (maybe_convert_objects vs)
  | Raise e => Raise e
  end.

Lemma apply_column_columns clean done src c0 f d self d' self' :
  (forall s, uniform (f s)) ->
  (forall raws, clean c0 raws = applied f raws) ->
  columns_cleaned clean done src d ->
  apply_column src c0 f d self = (Return d', self') ->
  columns_cleaned clean (c0 :: done) src d'.
Proof.
  intros U Hclean (Sh & Rd & Hc) H; unfold apply_column in H.
  destruct Sh as [Cd Ld].
  destruct (has_column c0 src) eqn:Hh.
  - apply bind_Return_inv in H as (vs & s1 & Hm & H).
    inversion H; subst d' self'; clear H.
    pose proof (mapM_length _ _ _ _ _ Hm) as Lv.
    unfold column in Lv; rewrite length_map in Lv.
    apply mapM_values_of in Hm; auto.
    assert (Hin0 : In c0 (columns src)) by (apply existsb_eqb_In; exact Hh).
    assert (Lm : List.length (maybe_convert_objects vs) = List.length (rows d))
      by (rewrite maybe_convert_objects_length; lia).
    split; [split; simpl; auto; rewrite length_map, length_combine; lia |].
    split; [now apply rectangular_set_column |].
    intros c Hin; rewrite column_set_column; auto; try (rewrite Cd; assumption).
    specialize (Hc c Hin); simpl existsb.
    destruct (c =? c0)%string eqn:E; [| exact Hc].
    apply String.eqb_eq in E; subst c; simpl.
    rewrite Hclean; unfold applied; now rewrite Hm.
  - inversion H; subst d' self'; clear H.
    split; [split; auto |]. split; [exact Rd |].
    intros c Hin; specialize (Hc c Hin).
    simpl existsb; destruct (c =? c0)%string eqn:E; [| exact Hc].
    apply String.eqb_eq in E; subst c.
    apply existsb_eqb_In in Hin; unfold has_column in Hh; congruence.
Qed.

(** The validator of each canonical field, in the order
    [_validate_and_clean] applies them. *)
Definition validators (pad_year : bool) : list (string * (string -> M pyval)) :=
  [("email", _clean_email); ("department", _map_department);
   ("status", _map_status); ("year_level", _clean_year);
   ("phone", _clean_phone); ("date_of_birth", _clean_date pad_year);
   ("gpa", _clean_gpa)].

(** What a cell under the label [c] gives: the value of the validator of
    [c] when there is one, the string itself otherwise. *)
Definition cleaned_cell (pad_year : bool) (c raw : string) : outcome pyval :=
  match dict_get (validators pad_year) c with
  | Some f => value_of f raw
  | None => Return (PStr raw)
  end.

(** What a column under the label [c] becomes: the values of the validator
    of [c] down the column, in the dtype [Series.apply] gives them; the
    strings themselves when [c] has no validator. *)
Definition cleaned_column (pad_year : bool) (c : string) (raws : list string)
  : outcome (list pyval) :=
  match dict_get (validators pad_year) c with
  | Some f => applied f raws
  | None => Return (map PStr raws)
  end.

Lemma wf_frame_rectangular {V} (df : DataFrame V) :
  wf_frame df -> rectangular df.
Proof.
  intros W i Hi; apply wf_frame_rows; auto; now apply nth_In.
Qed.

Lemma wf_frame_nodup {V} (df : DataFrame V) :
  wf_frame df -> nodupb (columns df) = true.
Proof. unfold wf_frame; intro H; now apply andb_true_iff in H as [H _]. Qed.

Lemma rectangular_wf_frame {V} (df : DataFrame V) :
  nodupb (columns df) = true -> rectangular df -> wf_frame df.
Proof.
  intros N R; unfold wf_frame; rewrite N; simpl.
  apply forallb_forall; intros r Hr.
  apply (In_nth _ _ []) in Hr as (i & Hi & <-).
  apply Nat.eqb_eq; now apply R.
Qed.

Lemma columns_cleaned_start clean (df : DataFrame string) :
  rectangular df ->
  columns_cleaned clean [] df (mkFrame (columns df) (map (map PStr) (rows df))).
Proof.
  intro R; split; [split; simpl; [reflexivity | now rewrite length_map] |].
  assert (Row : forall i, nth i (map (map PStr) (rows df)) []
                          = map PStr (nth i (rows df) []))
    by (intro i; change (@nil pyval) with (map PStr []); apply map_nth).
  split.
  - intros i Hi; simpl in *; rewrite length_map in Hi.
    rewrite Row, length_map; now apply R.
  - intros c Hin; simpl.
    apply (nth_ext _ _ PNone (PStr "")).
    + unfold column; simpl; now rewrite !length_map.
    + intros i Hi; unfold column at 1 in Hi; simpl in Hi.
      rewrite !length_map in Hi.
      rewrite nth_column; simpl; rewrite Row.
      rewrite (map_nth PStr), nth_column; unfold cell.
      rewrite (nth_indep _ PNone (PStr "")); [apply map_nth |].
      rewrite length_map, R by assumption; now apply index_of_lt.
Qed.

Definition validated_labels : list string :=
  ["gpa"; "date_of_birth"; "phone"; "year_level"; "status"; "department";
   "email"].

Lemma cleaned_column_other pad c :
  existsb (String.eqb c) validated_labels = false ->
  forall raws, cleaned_column pad c raws = Return (map PStr raws).
Proof.
  intros H raws; unfold cleaned_column, validators.
  unfold validated_labels in H; cbn [existsb] in H; cbn [dict_get].
  repeat (apply orb_false_iff in H as [E H];
          rewrite String.eqb_sym in E; try rewrite E; clear E).
  reflexivity.
Qed.

Lemma validate_and_clean_cleaned pad df self d self' :
  wf_frame df ->
  _validate_and_clean pad df self = (Return d, self') ->
  columns_cleaned (cleaned_column pad) validated_labels df d.
Proof.
  intros W H.
  pose proof (wf_frame_rectangular df W) as R.
  pose proof (columns_cleaned_start (cleaned_column pad) df R) as S0.
  unfold _validate_and_clean in H.
  revert S0 H; generalize (mkFrame (columns df) (map (map PStr) (rows df))).
  intros d0 S0 H.
  repeat
    match type of H with
    | bind _ _ _ = _ =>
        let a := fresh "d" in let s := fresh "s" in let Ha := fresh "Ha" in
        apply bind_Return_inv in H as (a & s & Ha & H);
        eapply (apply_column_columns (cleaned_column pad)) in Ha;
        [| first [ apply uniform_clean_email | apply uniform_map_department
                 | apply uniform_map_status | apply uniform_clean_year
                 | apply uniform_clean_phone | apply uniform_clean_date
                 | apply uniform_clean_gpa ]
         | reflexivity | eassumption ]
    end.
  eapply (apply_column_columns (cleaned_column pad)) in H;
    [| apply uniform_clean_gpa | reflexivity | eassumption ].
  exact H.
Qed.

Lemma columns_cleaned_column pad df d c :
  columns_cleaned (cleaned_column pad) validated_labels df d ->
  In c (columns df) ->
  cleaned_column pad c (column "" df c) = Return (column PNone d c).
Proof.
  intros (_ & _ & Hc) Hin; specialize (Hc c Hin).
  destruct (existsb _ _) eqn:E; [exact Hc |].
  rewrite Hc; now apply cleaned_column_other.
Qed.

(** *** From the column to its cells *)

(** A validator that returns [None] or a string. *)
Definition text_valued (f : string -> M pyval) : Prop :=
  forall s v, value_of f s = Return v -> is_text v = true.

Ltac text_value :=
  let H := fresh in simpl; intro H; inversion H; reflexivity.

Lemma text_valued_clean_email : text_valued _clean_email.
Proof.
  intros s v; unfold value_of, _clean_email.
  destruct (is_missing s); [text_value |].
  destruct (negb _); text_value.
Qed.

Lemma text_valued_map_department : text_valued _map_department.
Proof.
  intros s v; unfold value_of; rewrite map_department_cases.
  destruct (is_missing s); [text_value |]; destruct (dict_get _ _); text_value.
Qed.

Lemma text_valued_map_status : text_valued _map_status.
Proof.
  intros s v; unfold value_of.
  destruct (map_status_value s __init__) as (w & -> & _); text_value.
Qed.

Lemma text_valued_clean_phone : text_valued _clean_phone.
Proof.
  intros s v; unfold value_of, _clean_phone.
  destruct (is_missing s); [text_value |].
  destruct (_ =? 10); [text_value |]; destruct (_ =? 7); text_value.
Qed.

Lemma text_valued_clean_date pad : text_valued (_clean_date pad).
Proof.
  intros s v; unfold value_of, _clean_date.
  destruct (is_missing s); [text_value |].
  destruct (try_formats _ _ _); text_value.
Qed.

(** The cell of row [i] of a column [Series.apply] built: the value of the
    validator on the raw cell, or that value stored as a float. *)
Lemma applied_cell f raws col i :
  applied f raws = Return col -> (i < List.length raws)%nat ->
  exists v, value_of f (nth i raws "") = Return v
    /\ (nth i col PNone = v \/ nth i col PNone = to_float64 v).
Proof.
  unfold applied; intros H Hi.
  destruct (values_of f raws) as [vs | e] eqn:V; [| discriminate].
  inversion H; subst col; clear H.
  apply values_of_nth in V as [L V].
  exists (nth i vs PNone); split; [now apply V |].
  destruct (maybe_convert_objects_cases vs) as [-> | ->]; [now left | right].
  rewrite (nth_indep _ PNone (to_float64 PNone)) by (rewrite length_map; lia).
  apply map_nth.
Qed.

Lemma applied_text_cell f raws col i :
  text_valued f ->
  applied f raws = Return col -> (i < List.length raws)%nat ->
  value_of f (nth i raws "") = Return (nth i col PNone).
Proof.
  unfold applied; intros T H Hi.
  destruct (values_of f raws) as [vs | e] eqn:V; [| discriminate].
  inversion H; subst col; clear H.
  rewrite maybe_convert_objects_text
    by (eapply values_of_forallb; [exact T | exact V]).
  apply values_of_nth in V as [L V]; now apply V.
Qed.

(** The labels whose validator returns numbers. *)
Definition numeric (c : string) : Prop := c = "year_level" \/ c = "gpa".

Lemma cleaned_column_cell pad c raws col i :
  cleaned_column pad c raws = Return col -> (i < List.length raws)%nat ->
  exists v, cleaned_cell pad c (nth i raws "") = Return v
    /\ (nth i col PNone = v
        \/ numeric c /\ nth i col PNone = to_float64 v).
Proof.
  unfold cleaned_column, cleaned_cell, validators, numeric; cbn [dict_get].
  intros H Hi.
  destruct ("email" =? c)%string;
    [eexists; split;
     [eapply applied_text_cell; eauto using text_valued_clean_email
     | now left] |].
  destruct ("department" =? c)%string;
    [eexists; split;
     [eapply applied_text_cell; eauto using text_valued_map_department
     | now left] |].
  destruct ("status" =? c)%string;
    [eexists; split;
     [eapply applied_text_cell; eauto using text_valued_map_status
     | now left] |].
  destruct ("year_level" =? c)%string eqn:Ey;
    [apply String.eqb_eq in Ey;
     destruct (applied_cell _ _ _ i H Hi) as (v & Hv & [E | E]);
     exists v; (split; [exact Hv | auto]) |].
  destruct ("phone" =? c)%string;
    [eexists; split;
     [eapply applied_text_cell; eauto using text_valued_clean_phone
     | now left] |].
  destruct ("date_of_birth" =? c)%string;
    [eexists; split;
     [eapply applied_text_cell; eauto using text_valued_clean_date
     | now left] |].
  destruct ("gpa" =? c)%string eqn:Eg;
    [apply String.eqb_eq in Eg;
     destruct (applied_cell _ _ _ i H Hi) as (v & Hv & [E | E]);
     exists v; (split; [exact Hv | auto]) |].
  inversion H; subst col; exists (PStr (nth i raws "")).
  split; [reflexivity | left].
  rewrite (nth_indep _ PNone (PStr "")) by (now rewrite length_map).
  apply map_nth.
Qed.

(** X9.  The frame [_validate_and_clean] returns has the labels and the
    number of rows of the frame it was given, and every row has one cell
    per label.  Each column holds the values its validator gives down the
    column, in the dtype [Series.apply] gives them; a column without a
    validator holds the strings themselves.  So a cell is the value the
    validator of its label gives on the cell it replaces, outside
    [year_level] and [gpa]; a cell of these two is that value, or the float
    that stores it when the column became [float64]: [nan] for [None], and
    the float of the same value for an integer.  Nothing depends on what
    the instance had recorded. *)
Theorem validate_and_clean_cells :
  forall (pad_year : bool) (df : DataFrame string)
         (self : DataTransformer) (d : DataFrame pyval) (self' : DataTransformer),
    wf_frame df ->
    _validate_and_clean pad_year df self = (Return d, self') ->
    columns d = columns df
    /\ List.length (rows d) = List.length (rows df)
    /\ wf_frame d
    /\ (forall c, In c (columns df) ->
          cleaned_column pad_year c (column "" df c)
          = Return (column PNone d c))
    /\ (forall i c, (i < List.length (rows df))%nat -> In c (columns df) ->
          let raw := cell "" (columns df) c (nth i (rows df) []) in
          let out := cell PNone (columns d) c (nth i (rows d) []) in
          exists v, cleaned_cell pad_year c raw = Return v
            /\ (out = v \/ numeric c /\ out = to_float64 v)).
Proof.
  intros pad df self d self' W H.
  pose proof (validate_and_clean_cleaned pad df self d self' W H) as Hc.
  pose proof Hc as ([C L] & Rd & _).
  split; [exact C |]. split; [exact L |].
  split; [apply rectangular_wf_frame; [rewrite C; now apply wf_frame_nodup | exact Rd] |].
  split; [intros c Hin; now apply columns_cleaned_column |].
  intros i c Hi Hin; cbv zeta.
  pose proof (columns_cleaned_column pad df d c Hc Hin) as E.
  apply (cleaned_column_cell _ _ _ _ i) in E;
    [| unfold column; now rewrite length_map].
  rewrite !nth_column in E; exact E.
Qed.

Definition mixed_frame : DataFrame string :=
  mkFrame ["email"; "year_level"; "note"]
    [ [" A@B.CO"; "3"; " kept "]; ["x"; ""; ""]; ["c@d.ef"; "9"; "z"] ].

(** The year column holds an integer, a [None] and a clamped integer, so it
    is stored as [3.0], [nan] and [4.0]. *)
Definition mixed_cleaned : DataFrame pyval :=
  mkFrame ["email"; "year_level"; "note"]
    [ [PStr "a@b.co"; PFloat (S754_finite false 6755399441055744 (-51));
       PStr " kept "];
      [PNone; PFloat S754_nan; PStr ""];
      [PStr "c@d.ef"; PFloat f4; PStr "z"] ].

Definition mixed_errors : list ValidationError :=
  [mkError "email" "x" Invalid_email_format;
   mkError "year_level" "9" (Year_out_of_range 9)].

Lemma validate_and_clean_cells_witness :
  wf_frame mixed_frame
  /\ _validate_and_clean false mixed_frame __init__
     = (Return mixed_cleaned, mkTransformer mixed_errors [])
  /\ of_int 3 = S754_finite false 6755399441055744 (-51)
  /\ of_int 4 = f4
  /\ columns mixed_cleaned = columns mixed_frame
  /\ List.length (rows mixed_cleaned) = List.length (rows mixed_frame)
  /\ wf_frame mixed_cleaned
  /\ (forall c, In c (columns mixed_frame) ->
        cleaned_column false c (column "" mixed_frame c)
        = Return (column PNone mixed_cleaned c))
  /\ (forall i c, (i < List.length (rows mixed_frame))%nat ->
        In c (columns mixed_frame) ->
        let raw := cell "" (columns mixed_frame) c (nth i (rows mixed_frame) []) in
        let out := cell PNone (columns mixed_cleaned) c
                     (nth i (rows mixed_cleaned) []) in
        exists v, cleaned_cell false c raw = Return v
          /\ (out = v \/ numeric c /\ out = to_float64 v)).
Proof.
  split; [reflexivity |]. split; [reflexivity |].
  split; [reflexivity |]. split; [reflexivity |].
  apply (validate_and_clean_cells false mixed_frame __init__ mixed_cleaned
           (mkTransformer mixed_errors [])); reflexivity.
Defined.

(** ** The projection, and the pipeline cell by cell *)

Lemma nth_index_of c (l : list string) d :
  In c l -> nth (index_of c l) l d = c.
Proof.
  induction l as [| a r IH]; simpl; [tauto |].
  destruct (a =? c)%string eqn:E; [now apply String.eqb_eq in E |].
  intros [H | H]; [subst; rewrite String.eqb_refl in E; discriminate | auto].
Qed.


Lemma map_to_schema_columns_iff (d : DataFrame pyval) c :
  In c (columns (_map_to_schema d))
  <-> In c schema_columns /\ In c (columns d).
Proof.
  unfold _map_to_schema, project; cbn [columns].
  rewrite filter_In; unfold has_column; now rewrite existsb_eqb_In.
Qed.

Lemma map_to_schema_cell (d : DataFrame pyval) i c :
  In c (columns (_map_to_schema d)) ->
  cell PNone (columns (_map_to_schema d)) c (nth i (rows (_map_to_schema d)) [])
  = cell PNone (columns d) c (nth i (rows d) []).
Proof.
  unfold _map_to_schema, project.
  set (avail := filter (fun col => has_column col d) schema_columns).
  simpl columns; simpl rows; intro Hc.
  destruct (Nat.lt_ge_cases i (List.length (rows d))) as [L | L].
  - rewrite (nth_indep _ []
               ((fun r => map (fun c => cell PNone (columns d) c r) avail) []))
      by (now rewrite length_map).
    rewrite (map_nth (fun r => map (fun c => cell PNone (columns d) c r) avail)).
    unfold cell at 1.
    rewrite (nth_indep _ PNone
               ((fun c0 => cell PNone (columns d) c0 (nth i (rows d) [])) c))
      by (rewrite length_map; now apply index_of_lt).
    rewrite (map_nth (fun c0 => cell PNone (columns d) c0 (nth i (rows d) []))).
    now rewrite nth_index_of.
  - rewrite !(nth_overflow _ []); try assumption;
      [| rewrite length_map; assumption].
    unfold cell; now destruct (index_of c avail), (index_of c (columns d)).
Qed.


(** The frame that enters [_validate_and_clean]: the surviving rows, with
    renamed labels and stripped cells. *)
Definition normalized (df : DataFrame string) : DataFrame string :=
  mkFrame (map rename (columns df)) (map (map strip) (rows (deduped df))).

Lemma deduped_columns df : columns (deduped df) = columns df.
Proof. unfold deduped; now destruct (has_column _ df). Qed.

Lemma deduped_rows_In df row : In row (rows (deduped df)) -> In row (rows df).
Proof.
  unfold deduped; destruct (has_column _ df); auto.
  simpl; unfold kept_rows; apply select_In.
Qed.

Lemma stages_Return pad df self d self' :
  stages pad df self = (Return d, self') ->
  nodupb (map rename (columns df)) = true
  /\ exists s, _validate_and_clean pad (normalized df) s = (Return d, self').
Proof.
  unfold stages; intro H.
  apply bind_Return_inv in H as (d1 & s1 & H1 & H).
  apply bind_Return_inv in H as (d2 & s2 & H2 & H).
  destruct (remove_duplicates_result df self) as (s & E).
  rewrite E in H1; inversion H1; subst d1 s1; clear H1.
  destruct (normalize_columns_cases (deduped df) s) as [[E2 N] | [E2 _]];
    rewrite E2 in H2; [| discriminate].
  inversion H2; subst d2 s2; clear H2.
  rewrite deduped_columns in *; split; [exact N |].
  exists s; exact H.
Qed.

Lemma wf_normalized df :
  wf_frame df -> nodupb (map rename (columns df)) = true ->
  wf_frame (normalized df).
Proof.
  intros W N; unfold wf_frame, normalized; simpl; rewrite N; simpl.
  apply forallb_forall; intros r Hr; apply in_map_iff in Hr as (r0 & <- & Hr).
  rewrite !length_map; apply Nat.eqb_eq.
  apply wf_frame_rows; auto; now apply deduped_rows_In.
Qed.

Lemma normalized_cell df h i :
  nodupb (map rename (columns df)) = true -> In h (columns df) ->
  cell "" (columns (normalized df)) (rename h) (nth i (rows (normalized df)) [])
  = strip (cell "" (columns df) h (nth i (rows (deduped df)) [])).
Proof.
  intros N Hh; unfold normalized, cell; simpl.
  rewrite index_of_map by assumption.
  change (@nil string) with (map strip []) at 1; rewrite map_nth.
  change "" with (strip "") at 1; now rewrite map_nth.
Qed.

Lemma map_to_schema_column (d : DataFrame pyval) c :
  In c (columns (_map_to_schema d)) ->
  column PNone (_map_to_schema d) c = column PNone d c.
Proof.
  intro Hc; apply (nth_ext _ _ PNone PNone).
  - unfold column, _map_to_schema, project; simpl; now rewrite !length_map.
  - intros i _; rewrite !nth_column; now apply map_to_schema_cell.
Qed.

Lemma normalized_column df h :
  nodupb (map rename (columns df)) = true -> In h (columns df) ->
  column "" (normalized df) (rename h)
  = map strip (column "" (deduped df) h).
Proof.
  intros N Hh; apply (nth_ext _ _ "" (strip "")).
  - unfold column, normalized; simpl; now rewrite !length_map.
  - intros i _; rewrite nth_column, normalized_cell by assumption.
    rewrite (map_nth strip), nth_column, deduped_columns; reflexivity.
Qed.

Lemma transform_column_source pad df self out rep self' h :
  wf_frame df ->
  transform pad df self = (Return (out, rep), self') ->
  In h (columns df) -> In (rename h) schema_columns ->
  cleaned_column pad (rename h) (map strip (column "" (deduped df) h))
  = Return (column PNone out (rename h)).
Proof.
  intros W H Hh Hsc.
  apply transform_Return in H as (d & es & ls & Hs & _ & -> & _).
  pose proof (Hs self) as Hd; apply stages_Return in Hd as (N & s & Hv).
  apply validate_and_clean_cleaned in Hv; [| now apply wf_normalized].
  pose proof Hv as ([C L] & _).
  assert (Hr : In (rename h) (columns (normalized df)))
    by (simpl; now apply in_map).
  rewrite map_to_schema_column
    by (apply map_to_schema_columns_iff; split; [assumption | now rewrite C]).
  rewrite <- normalized_column by assumption.
  now apply columns_cleaned_column.
Qed.

Lemma transform_cell_source pad df self out rep self' i h :
  wf_frame df ->
  transform pad df self = (Return (out, rep), self') ->
  (i < List.length (rows out))%nat -> In h (columns df) ->
  In (rename h) schema_columns ->
  exists v,
    cleaned_cell pad (rename h)
      (strip (cell "" (columns df) h (nth i (rows (deduped df)) [])))
    = Return v
    /\ (cell PNone (columns out) (rename h) (nth i (rows out) []) = v
        \/ rename h = "year_level"
           /\ cell PNone (columns out) (rename h) (nth i (rows out) [])
              = to_float64 v).
Proof.
  intros W H Hi Hh Hsc.
  pose proof (transform_column_source pad df self out rep self' h W H Hh Hsc)
    as E.
  assert (L : List.length (rows out) = List.length (rows (deduped df))).
  { apply transform_Return in H as (d & es & ls & Hs & _ & -> & _).
    pose proof (stages_shape _ _ _ _ _ (Hs self)) as (_ & L & _).
    unfold _map_to_schema, project; simpl; now rewrite length_map. }
  apply (cleaned_column_cell _ _ _ _ i) in E;
    [| unfold column; rewrite !length_map; lia].
  pose proof (map_nth strip (column "" (deduped df) h) "" i) as Raw.
  change (strip "") with "" in Raw.
  rewrite Raw, !nth_column, deduped_columns in E.
  destruct E as (v & Ev & [E | [[Y | G] E]]); exists v; (split; [exact Ev |]);
    auto.
  rewrite G in Hsc; simpl in Hsc; exfalso.
  repeat (destruct Hsc as [Hsc | Hsc]; [discriminate Hsc |]); exact Hsc.
Qed.

(** X11.  The pipeline, column by column and cell by cell.  When
    [transform] returns on a well-formed frame, its rows are the rows that
    survive the duplicate removal, in order.  Under each label of the
    output, the column is what the validator of that label gives down the
    stripped raw column, in the dtype [Series.apply] gives it (the stripped
    raw strings themselves for the labels without a validator).  So a cell
    is the value of the validator on the stripped raw cell; under
    [year_level] alone it can be that value stored as a float, [nan] for
    [None]. *)
Theorem transform_cells :
  forall (pad_year : bool) (df : DataFrame string) (self : DataTransformer)
         (out : DataFrame pyval) (rep : TransformReport) (self' : DataTransformer),
    wf_frame df ->
    transform pad_year df self = (Return (out, rep), self') ->
    List.length (rows out) = List.length (rows (deduped df))
    /\ (forall h, In h (columns df) -> In (rename h) schema_columns ->
          cleaned_column pad_year (rename h)
            (map strip (column "" (deduped df) h))
          = Return (column PNone out (rename h)))
    /\ (forall i h,
          (i < List.length (rows out))%nat -> In h (columns df) ->
          In (rename h) schema_columns ->
          let raw := strip (cell "" (columns df) h (nth i (rows (deduped df)) [])) in
          let c := cell PNone (columns out) (rename h) (nth i (rows out) []) in
          exists v, cleaned_cell pad_year (rename h) raw = Return v
            /\ (c = v \/ rename h = "year_level" /\ c = to_float64 v)).
Proof.
  intros pad df self out rep self' W H; split; [| split].
  - pose proof H as H'.
    apply transform_Return in H' as (d & es & ls & Hs & _ & -> & _).
    pose proof (stages_shape _ _ _ _ _ (Hs self)) as (_ & L & _).
    unfold _map_to_schema, project; simpl; now rewrite length_map.
  - intros h Hh Hsc; eapply transform_column_source; eauto.
  - intros i h Hi Hh Hsc; cbv zeta; eapply transform_cell_source; eauto.
Qed.

(** A sheet with a duplicate row, and a year column that holds an integer,
    an empty cell and an integer to clamp. *)
Definition mixed_sheet : DataFrame string :=
  mkFrame ["Student ID"; "Email"; "Year"; "GPA"]
    [ ["1"; " A@B.CO"; "3"; "3.849"];
      ["2"; "x"; ""; ""];
      ["1"; "d@e.fg"; "2"; "1"];
      ["3"; "c@d.ef"; "9"; "4.5"] ].

(** The year column is stored as [3.0], [nan] and [4.0]. *)
Definition mixed_out : DataFrame pyval :=
  mkFrame ["student_id"; "email"; "year_level"]
    [ [PStr "1"; PStr "a@b.co";
       PFloat (S754_finite false 6755399441055744 (-51))];
      [PStr "2"; PNone; PFloat S754_nan];
      [PStr "3"; PStr "c@d.ef"; PFloat f4] ].

Definition mixed_final : DataTransformer :=
  mkTransformer
    [mkError "email" "x" Invalid_email_format;
     mkError "year_level" "9" (Year_out_of_range 9);
     gpa_error]
    [DUPLICATE_REMOVED "1"].

Definition mixed_report : TransformReport :=
  mkReport 4 3 1 (validation_errors mixed_final)
    (transformation_log mixed_final).

Lemma transform_cells_witness :
  wf_frame mixed_sheet
  /\ transform false mixed_sheet __init__
     = (Return (mixed_out, mixed_report), mixed_final)
  /\ of_int 3 = S754_finite false 6755399441055744 (-51)
  /\ of_int 4 = f4
  /\ List.length (rows mixed_out) = List.length (rows (deduped mixed_sheet))
  /\ (forall h, In h (columns mixed_sheet) -> In (rename h) schema_columns ->
        cleaned_column false (rename h)
          (map strip (column "" (deduped mixed_sheet) h))
        = Return (column PNone mixed_out (rename h)))
  /\ (forall i h,
        (i < List.length (rows mixed_out))%nat -> In h (columns mixed_sheet) ->
        In (rename h) schema_columns ->
        let raw := strip (cell "" (columns mixed_sheet) h
                            (nth i (rows (deduped mixed_sheet)) [])) in
        let c := cell PNone (columns mixed_out) (rename h)
                   (nth i (rows mixed_out) []) in
        exists v, cleaned_cell false (rename h) raw = Return v
          /\ (c = v \/ rename h = "year_level" /\ c = to_float64 v)).
Proof.
  split; [reflexivity |]. split; [reflexivity |].
  split; [reflexivity |]. split; [reflexivity |].
  apply (transform_cells false mixed_sheet __init__ mixed_out mixed_report
           mixed_final); reflexivity.
Defined.

(** ** When [transform] returns and what it can raise *)

(** A year cell [float] reads as an infinity. *)
Definition is_infinite_year (s : string) : bool :=
  negb (is_missing s)
  && match float s with
     | inr (S754_infinity _) => true
     | _ => false
     end.

(** Some surviving row has such a cell in its year column. *)
Definition year_overflows (df : DataFrame string) : bool :=
  has_column "year_level" (normalized df)
  && existsb is_infinite_year (column "" (normalized df) "year_level").

Ltac returns := simpl; eexists; reflexivity.

Lemma value_clean_year s :
  (is_infinite_year s = true -> value_of _clean_year s = Raise OverflowError)
  /\ (is_infinite_year s = false -> exists v, value_of _clean_year s = Return v).
Proof.
  unfold value_of, is_infinite_year; rewrite clean_year_cases.
  destruct (is_missing s); simpl; [split; [discriminate | intros _; returns] |].
  destruct (float s) as [e | x]; [split; [discriminate | intros _; returns] |].
  destruct x as [sg | sg | | sg m ex]; simpl;
    try (split; [discriminate | intros _; returns]).
  - split; [reflexivity | discriminate].
  - destruct ((1 <=? _) && _); split; try discriminate; intros _; returns.
Qed.

Definition never_raises (f : string -> M pyval) : Prop :=
  forall s, exists v, value_of f s = Return v.

Lemma never_raises_clean_email : never_raises _clean_email.
Proof.
  intro s; unfold value_of, _clean_email.
  destruct (is_missing s); [returns |].
  destruct (negb _); returns.
Qed.

Lemma never_raises_map_department : never_raises _map_department.
Proof.
  intro s; unfold value_of; rewrite map_department_cases.
  destruct (is_missing s); [returns |]; destruct (dict_get _ _); returns.
Qed.

Lemma never_raises_map_status : never_raises _map_status.
Proof.
  intro s; unfold value_of.
  destruct (map_status_value s __init__) as (v & -> & _); returns.
Qed.

Lemma never_raises_clean_phone : never_raises _clean_phone.
Proof.
  intro s; unfold value_of, _clean_phone.
  destruct (is_missing s); [returns |].
  destruct (_ =? 10); [returns |]; destruct (_ =? 7); returns.
Qed.

Lemma never_raises_clean_date pad : never_raises (_clean_date pad).
Proof.
  intro s; unfold value_of, _clean_date.
  destruct (is_missing s); [returns |].
  destruct (try_formats _ _ _); returns.
Qed.

Lemma never_raises_clean_gpa : never_raises _clean_gpa.
Proof.
  intro s; unfold value_of; rewrite clean_gpa_cases.
  destruct (_ || _); [returns |].
  destruct (float s); [returns |]; destruct (gpa_in_range _); returns.
Qed.

Lemma apply_column_returns src c f (d : DataFrame pyval) self :
  (forall s, uniform (f s)) -> never_raises f ->
  exists d' self', apply_column src c f d self = (Return d', self').
Proof.
  intros U T; unfold apply_column; destruct (has_column c src);
    [| unfold ret; eauto].
  destruct (mapM_returns f (column "" src c) U (fun x _ => T x) self)
    as (vs & s1 & E).
  unfold bind; rewrite E; unfold ret; eauto.
Qed.

Lemma apply_column_year src (d : DataFrame pyval) self :
  if has_column "year_level" src
     && existsb is_infinite_year (column "" src "year_level")
  then exists self',
         apply_column src "year_level" _clean_year d self
         = (Raise OverflowError, self')
  else exists d' self',
         apply_column src "year_level" _clean_year d self = (Return d', self').
Proof.
  unfold apply_column; destruct (has_column "year_level" src); simpl;
    [| unfold ret; eauto].
  destruct (existsb _ _) eqn:E.
  - unfold bind.
    destruct (mapM _clean_year (column "" src "year_level") self)
      as [[vs | e] s1] eqn:Hm.
    + apply mapM_values in Hm as [L V]; [| apply uniform_clean_year].
      apply existsb_exists in E as (x & Hx & Hi).
      apply (In_nth _ _ "") in Hx as (i & Hlt & <-).
      apply (proj1 (value_clean_year _)) in Hi.
      rewrite (V i Hlt) in Hi; discriminate.
    + apply mapM_raises in Hm as (x & Hx & Hv); [| apply uniform_clean_year].
      destruct (is_infinite_year x) eqn:I.
      * apply (proj1 (value_clean_year x)) in I.
        rewrite I in Hv; inversion Hv; eauto.
      * apply (proj2 (value_clean_year x)) in I as (v & I).
        rewrite I in Hv; discriminate.
  - destruct (mapM_returns _clean_year (column "" src "year_level")
                uniform_clean_year) with (self := self) as (vs & s1 & Hm).
    + intros x Hx; apply (proj2 (value_clean_year x)).
      destruct (is_infinite_year x) eqn:I; auto.
      assert (existsb is_infinite_year (column "" src "year_level") = true)
        by (apply existsb_exists; eauto).
      congruence.
    + unfold bind; rewrite Hm; unfold ret; eauto.
Qed.

Lemma validate_and_clean_outcome pad src self :
  if has_column "year_level" src
     && existsb is_infinite_year (column "" src "year_level")
  then exists self',
         _validate_and_clean pad src self = (Raise OverflowError, self')
  else exists d self', _validate_and_clean pad src self = (Return d, self').
Proof.
  unfold _validate_and_clean.
  generalize (mkFrame (columns src) (map (map PStr) (rows src))); intro d0.
  destruct (apply_column_returns src "email" _clean_email d0 self
              uniform_clean_email never_raises_clean_email) as (d1 & s1 & E1).
  destruct (apply_column_returns src "department" _map_department d1 s1
              uniform_map_department never_raises_map_department)
    as (d2 & s2 & E2).
  destruct (apply_column_returns src "status" _map_status d2 s2
              uniform_map_status never_raises_map_status) as (d3 & s3 & E3).
  pose proof (apply_column_year src d3 s3) as E4.
  unfold bind; rewrite E1, E2, E3.
  destruct (has_column "year_level" src && existsb _ _).
  - destruct E4 as (s4 & ->); eauto.
  - destruct E4 as (d4 & s4 & ->).
    destruct (apply_column_returns src "phone" _clean_phone d4 s4
                uniform_clean_phone never_raises_clean_phone) as (d5 & s5 & E5).
    destruct (apply_column_returns src "date_of_birth" (_clean_date pad) d5 s5
                (uniform_clean_date pad) (never_raises_clean_date pad))
      as (d6 & s6 & E6).
    destruct (apply_column_returns src "gpa" _clean_gpa d6 s6
                uniform_clean_gpa never_raises_clean_gpa) as (d7 & s7 & E7).
    rewrite E5, E6, E7; eauto.
Qed.

(** X12.  [transform] returns exactly when the labels stay distinct after
    renaming and no surviving row has a year cell that [float] reads as an
    infinity.  Otherwise it raises: [AttributeError] when two labels
    collide, [OverflowError] for such a year cell; it raises nothing else,
    whatever the cells hold. *)
Theorem transform_outcome :
  forall (pad_year : bool) (df : DataFrame string) (self : DataTransformer),
    match fst (transform pad_year df self) with
    | Return _ =>
        nodupb (map rename (columns df)) = true /\ year_overflows df = false
    | Raise e =>
        e = AttributeError /\ nodupb (map rename (columns df)) = false
        \/ e = OverflowError /\ nodupb (map rename (columns df)) = true
           /\ year_overflows df = true
    end.
Proof.
  intros pad df self; rewrite transform_stages; unfold stages.
  destruct (remove_duplicates_result df self) as (s & E).
  unfold bind; rewrite E.
  destruct (normalize_columns_cases (deduped df) s) as [[E2 N] | [E2 N]];
    rewrite deduped_columns in *; rewrite E2; [| simpl; auto].
  pose proof (validate_and_clean_outcome pad (normalized df) s) as V.
  fold (year_overflows df) in V; unfold normalized in V.
  destruct (year_overflows df).
  - destruct V as (s' & ->); simpl; auto.
  - destruct V as (d & s' & ->); simpl; auto.
Qed.

(** ** What a run records *)

(** Computations whose new errors all satisfy [P] and whose new events all
    satisfy [Q]. *)
Definition records {A} (P : ValidationError -> Prop)
  (Q : TransformationEvent -> Prop) (c : M A) : Prop :=
  exists r es ls, appends c r es ls /\ Forall P es /\ Forall Q ls.

Section Records.

Variable P : ValidationError -> Prop.
Variable Q : TransformationEvent -> Prop.

Lemma records_ret {A} (a : A) : records P Q (ret a).
Proof. exists (Return a), [], []; split; [apply appends_ret | auto]. Qed.

Lemma records_append_error e : P e -> records P Q (append_error e).
Proof.
  intro H; exists (Return tt), [e], []; split; [| auto].
  intro self; unfold append_error, extend; now rewrite app_nil_r.
Qed.

Lemma records_append_log e : Q e -> records P Q (append_log e).
Proof.
  intro H; exists (Return tt), [], [e]; split; [| auto].
  intro self; unfold append_log, extend; now rewrite app_nil_r.
Qed.

Lemma records_bind {A B} (c : M A) (k : A -> M B) :
  records P Q c -> (forall a, records P Q (k a)) -> records P Q (bind c k).
Proof.
  intros (r & es & ls & Hc & He & Hl) Hk; destruct r as [a | e].
  - destruct (Hk a) as (r' & es' & ls' & Hk' & He' & Hl').
    exists r', (es ++ es'), (ls ++ ls'); split;
      [eapply appends_bind_return; eauto | split; apply Forall_app; auto].
  - exists (Raise e), es, ls; split; [now apply appends_bind_raise | auto].
Qed.

Lemma records_try_except {A} (c : M A) caught (h : M A) :
  records P Q c -> records P Q h -> records P Q (try_except c caught h).
Proof.
  intros (r & es & ls & Hc & He & Hl) (r' & es' & ls' & Hh & He' & Hl').
  destruct r as [a | e].
  - exists (Return a), es, ls; split; [| auto].
    intro self; unfold try_except; now rewrite Hc.
  - destruct (caught e) eqn:E.
    + exists r', (es ++ es'), (ls ++ ls'); split;
        [| split; apply Forall_app; auto].
      intro self; unfold try_except; now rewrite Hc, E, Hh, extend_extend.
    + exists (Raise e), es, ls; split; [| auto].
      intro self; unfold try_except; now rewrite Hc, E.
Qed.

Lemma records_mapM {A B} (f : A -> M B) (l : list A) :
  (forall a, records P Q (f a)) -> records P Q (mapM f l).
Proof.
  intro Hf; induction l as [| x l IH]; simpl.
  - apply records_ret.
  - apply records_bind; [apply Hf | intro y].
    apply records_bind; [apply IH | intro ys; apply records_ret].
Qed.

End Records.

(** The fields a validation error can name. *)
Definition validated_field (e : ValidationError) : Prop :=
  In (field e) ["email"; "year_level"; "date_of_birth"; "gpa"].

(** A department event: the canonical name, which differs from the raw one. *)
Definition department_event (ev : TransformationEvent) : Prop :=
  match ev with
  | DEPARTMENT_NORMALIZED original normalized' =>
      In normalized' departments /\ normalized' <> original
  | DUPLICATE_REMOVED _ => False
  end.

Definition duplicate_event (ev : TransformationEvent) : Prop :=
  match ev with
  | DUPLICATE_REMOVED _ => True
  | DEPARTMENT_NORMALIZED _ _ => False
  end.


Lemma recs_lift {A} (r : exn + A) : records validated_field department_event (lift r).
Proof.
  destruct r as [e | a]; [| apply records_ret].
  exists (Raise e), [], []; split; [| auto].
  intro self; unfold lift, raise; now rewrite extend_nil.
Qed.

Lemma recs_clean_email s : records validated_field department_event (_clean_email s).
Proof.
  unfold _clean_email; destruct (is_missing s); [apply records_ret |].
  destruct (negb _); [| apply records_ret].
  apply records_bind; [| intro; apply records_ret].
  apply records_append_error; unfold validated_field; simpl; auto.
Qed.

Lemma recs_map_department s : records validated_field department_event (_map_department s).
Proof.
  unfold _map_department; destruct (is_missing s); [apply records_ret |].
  destruct (dict_get _ _) as [mapped |] eqn:D; [| apply records_ret].
  apply records_bind; [| intro; apply records_ret].
  destruct (negb _) eqn:E; [| apply records_ret].
  apply records_append_log; simpl; split.
  - eapply department_mapping_values; eauto.
  - apply negb_true_iff, String.eqb_neq in E; exact E.
Qed.

Lemma recs_map_status s : records validated_field department_event (_map_status s).
Proof.
  unfold _map_status; destruct (is_missing s); [apply records_ret |].
  destruct (dict_get _ _); apply records_ret.
Qed.

Lemma recs_clean_year s : records validated_field department_event (_clean_year s).
Proof.
  unfold _clean_year; destruct (is_missing s); [apply records_ret |].
  apply records_try_except; [| apply records_ret].
  apply records_bind; [apply recs_lift | intro x].
  apply records_bind; [apply recs_lift | intro n].
  destruct (_ && _); [apply records_ret |].
  apply records_bind; [| intro; apply records_ret].
  apply records_append_error; unfold validated_field; simpl; auto.
Qed.

Lemma recs_clean_phone s : records validated_field department_event (_clean_phone s).
Proof.
  unfold _clean_phone; destruct (is_missing s); [apply records_ret |].
  destruct (_ =? 10); [apply records_ret |].
  destruct (_ =? 7); apply records_ret.
Qed.

Lemma recs_clean_date pad s : records validated_field department_event (_clean_date pad s).
Proof.
  unfold _clean_date; destruct (is_missing s); [apply records_ret |].
  destruct (try_formats _ _ _); [apply records_ret |].
  apply records_bind; [| intro; apply records_ret].
  apply records_append_error; unfold validated_field; simpl; auto.
Qed.

Lemma recs_clean_gpa s : records validated_field department_event (_clean_gpa s).
Proof.
  unfold _clean_gpa; destruct (_ || _); [apply records_ret |].
  apply records_try_except; [| apply records_ret].
  apply records_bind; [apply recs_lift | intro x].
  destruct (_ && _); [apply records_ret |].
  apply records_bind; [| intro; apply records_ret].
  apply records_append_error; unfold validated_field; simpl; auto 10.
Qed.

Lemma recs_apply_column src c f d :
  (forall s, records validated_field department_event (f s)) -> records validated_field department_event (apply_column src c f d).
Proof.
  intro Hf; unfold apply_column; destruct (has_column c src);
    [| apply records_ret].
  apply records_bind; [now apply records_mapM | intro; apply records_ret].
Qed.

Lemma recs_validate_and_clean pad df : records validated_field department_event (_validate_and_clean pad df).
Proof.
  unfold _validate_and_clean.
  repeat (apply records_bind; [| intro]);
    apply recs_apply_column; intro;
    auto using recs_clean_email, recs_map_department, recs_map_status,
      recs_clean_year, recs_clean_phone, recs_clean_date, recs_clean_gpa.
Qed.

(** The events of the duplicate removal. *)
Definition duplicate_events (df : DataFrame string) : list TransformationEvent :=
  if has_column "Student ID" df
  then map (fun row =>
              DUPLICATE_REMOVED (cell "N/A" (columns df) "Student ID" row))
         (dropped_rows df)
  else [].

Lemma remove_duplicates_appends df :
  appends (_remove_duplicates df) (Return (deduped df)) [] (duplicate_events df).
Proof.
  intro self; unfold deduped, duplicate_events.
  destruct (has_column "Student ID" df) eqn:H.
  - now rewrite remove_duplicates_eq.
  - rewrite remove_duplicates_absent by assumption; now rewrite extend_nil.
Qed.

Lemma appends_inj {A} (c : M A) r es ls r' es' ls' :
  appends c r es ls -> appends c r' es' ls' -> r = r' /\ es = es' /\ ls = ls'.
Proof.
  intros H H'; specialize (H __init__); rewrite (H' __init__) in H.
  unfold extend in H; simpl in H; inversion H; auto.
Qed.

(** What the report of a run holds beyond what the instance held. *)
Definition report_entries (df : DataFrame string) (self : DataTransformer)
  (rep : TransformReport) : Prop :=
  exists errs depts,
    report_validation_errors rep = validation_errors self ++ errs
    /\ report_transformations rep
       = transformation_log self ++ duplicate_events df ++ depts
    /\ Forall validated_field errs
    /\ Forall duplicate_event (duplicate_events df)
    /\ Forall department_event depts
    /\ Z.of_nat (List.length (duplicate_events df)) = duplicates_removed rep
    /\ 0 <= duplicates_removed rep
    /\ final_count rep <= original_count rep.

(** X13.  When [transform] returns, its report holds, after what the
    instance held before: validation errors for the fields email,
    year_level, date_of_birth and gpa only (never for status, phone or
    department); then one [DUPLICATE_REMOVED] event per dropped row, all
    before the [DEPARTMENT_NORMALIZED] events, each of which names one of
    the five canonical departments and a different raw name.
    [duplicates_removed] is the number of [DUPLICATE_REMOVED] events, it is
    not negative, and [final_count] does not exceed [original_count]. *)
Theorem transform_report_entries :
  forall (pad_year : bool) (df : DataFrame string) (self : DataTransformer)
         (out : DataFrame pyval) (rep : TransformReport) (self' : DataTransformer),
    transform pad_year df self = (Return (out, rep), self') ->
    report_entries df self rep.
Proof.
  intros pad df self out rep self' H.
  apply transform_Return in H as (d & es & ls & Hs & -> & -> & ->).
  pose proof (Hs self) as Hd.
  pose proof (stages_shape _ _ _ _ _ Hd) as (_ & L & N).
  assert (Hn : appends (_normalize_columns (deduped df))
                 (Return (normalized df)) [] []).
  { intro s; rewrite extend_nil.
    unfold _normalize_columns, normalized.
    now rewrite deduped_columns, N. }
  destruct (recs_validate_and_clean pad (normalized df))
    as (r & es3 & ls3 & Hv & He & Hl).
  assert (Hr : r = Return d /\ es = es3 /\ ls = duplicate_events df ++ ls3).
  { destruct r as [d' | e].
    - pose proof (appends_bind_return _
                    (fun d1 => d2 <- _normalize_columns d1 ;;
                               _validate_and_clean pad d2)
                    _ _ _ _ _ _ (remove_duplicates_appends df)
                    (appends_bind_return _ (_validate_and_clean pad)
                       _ _ _ _ _ _ Hn Hv)) as Hall.
      destruct (appends_inj _ _ _ _ _ _ _ Hs Hall) as (E1 & E2 & E3).
      inversion E1; subst; auto.
    - pose proof (appends_bind_return _
                    (fun d1 => d2 <- _normalize_columns d1 ;;
                               _validate_and_clean pad d2)
                    _ _ _ _ _ _ (remove_duplicates_appends df)
                    (appends_bind_return _ (_validate_and_clean pad)
                       _ _ _ _ _ _ Hn Hv)) as Hall.
      destruct (appends_inj _ _ _ _ _ _ _ Hs Hall) as (E1 & _); discriminate. }
  destruct Hr as (_ & -> & ->).
  exists es3, ls3; simpl.
  rewrite map_to_schema_len; unfold len; rewrite L.
  assert (Hdup : Forall duplicate_event (duplicate_events df)).
  { unfold duplicate_events; destruct (has_column _ df); [| constructor].
    apply Forall_forall; intros ev Hev; apply in_map_iff in Hev as (r0 & <- & _).
    exact I. }
  assert (Hcount : (List.length (duplicate_events df)
                    + List.length (rows (deduped df))
                    = List.length (rows df))%nat).
  { unfold duplicate_events, deduped; destruct (has_column _ df); simpl.
    - rewrite length_map; pose proof (kept_dropped_count df); lia.
    - reflexivity. }
  repeat split; auto; lia.
Qed.

Lemma transform_report_entries_witness :
  transform false sample_dataframe __init__
  = (Return (sample_out, sample_report1), mkTransformer sample_errors sample_log)
  /\ report_entries sample_dataframe __init__ sample_report1.
Proof.
  split; [reflexivity |].
  apply (transform_report_entries false sample_dataframe __init__ sample_out
           sample_report1 (mkTransformer sample_errors sample_log)).
  reflexivity.
Defined.

(** ** Frames without the identifier column, and untrimmed identifiers *)

(** X14.  Without a ['Student ID'] column the duplicate removal does
    nothing: [_remove_duplicates] returns the frame it was given and logs
    nothing, and a report of [transform] has [final_count] equal to
    [original_count], the number of rows of the input, and
    [duplicates_removed] zero. *)
Theorem transform_without_identifier :
  forall (pad_year : bool) (df : DataFrame string) (self : DataTransformer)
         (out : DataFrame pyval) (rep : TransformReport) (self' : DataTransformer),
    has_column "Student ID" df = false ->
    transform pad_year df self = (Return (out, rep), self') ->
    _remove_duplicates df self = (Return df, self)
    /\ List.length (rows out) = List.length (rows df)
    /\ original_count rep = len df
    /\ final_count rep = len df
    /\ duplicates_removed rep = 0.
Proof.
  intros pad df self out rep self' Hc H.
  split; [now apply remove_duplicates_absent |].
  apply transform_Return in H as (d & es & ls & Hs & -> & -> & ->); simpl.
  pose proof (stages_shape _ _ _ _ _ (Hs self)) as (_ & L & _).
  unfold deduped in L; rewrite Hc in L.
  rewrite map_to_schema_len; unfold _map_to_schema, project, len; simpl.
  rewrite length_map, L; repeat split; lia.
Qed.

Definition no_identifier_dataframe : DataFrame string :=
  mkFrame ["Email"; "Year"]
    [ ["a@example.com"; "1"]; ["a@example.com"; "1"] ].

Definition no_identifier_out : DataFrame pyval :=
  mkFrame ["email"; "year_level"]
    [ [PStr "a@example.com"; PInt 1]; [PStr "a@example.com"; PInt 1] ].

Lemma transform_without_identifier_witness :
  has_column "Student ID" no_identifier_dataframe = false
  /\ transform false no_identifier_dataframe __init__
     = (Return (no_identifier_out, mkReport 2 2 0 [] []), __init__)
  /\ _remove_duplicates no_identifier_dataframe __init__
     = (Return no_identifier_dataframe, __init__)
  /\ List.length (rows no_identifier_out)
     = List.length (rows no_identifier_dataframe)
  /\ original_count (mkReport 2 2 0 [] []) = len no_identifier_dataframe
  /\ final_count (mkReport 2 2 0 [] []) = len no_identifier_dataframe
  /\ duplicates_removed (mkReport 2 2 0 [] []) = 0.
Proof.
  split; [reflexivity |]. split; [reflexivity |].
  apply (transform_without_identifier false no_identifier_dataframe __init__
           no_identifier_out (mkReport 2 2 0 [] []) __init__);
    reflexivity.
Defined.

(** X15.  The duplicate check compares the identifiers as the sheet holds
    them, before they are stripped: two rows whose identifiers differ only
    by surrounding blanks both survive, nothing is logged, and the output
    holds the same [student_id] twice. *)
Theorem untrimmed_identifiers_both_survive :
  forall (pad_year : bool) (a b : string) (self : DataTransformer),
    a <> b -> strip a = strip b ->
    transform pad_year (mkFrame ["Student ID"] [ [a]; [b] ]) self
    = (Return (mkFrame ["student_id"] [ [PStr (strip a)]; [PStr (strip a)] ],
               mkReport 2 2 0 (validation_errors self) (transformation_log self)),
       self).
Proof.
  intros pad a b self Hab Hs.
  assert (E : (b =? a)%string = false) by (apply String.eqb_neq; congruence).
  unfold transform, bind, _remove_duplicates, column, cell; simpl.
  rewrite E; simpl.
  unfold _normalize_columns; simpl.
  rewrite <- Hs; destruct self; reflexivity.
Qed.

Lemma untrimmed_identifiers_both_survive_witness :
  "2" <> " 2" /\ strip "2" = strip " 2"
  /\ transform false (mkFrame ["Student ID"] [ ["2"]; [" 2"] ]) __init__
     = (Return (mkFrame ["student_id"] [ [PStr (strip "2")]; [PStr (strip "2")] ],
                mkReport 2 2 0 (validation_errors __init__)
                  (transformation_log __init__)),
        __init__).
Proof.
  split; [discriminate |]. split; [reflexivity |].
  apply (untrimmed_identifiers_both_survive false "2" " 2" __init__);
    [discriminate | reflexivity].
Defined.

(** ** What the cells of the output can hold *)

Lemma value_of_run f s v :
  value_of f s = Return v -> exists self', f s __init__ = (Return v, self').
Proof.
  unfold value_of; destruct (f s __init__) as [r s'] eqn:E; simpl.
  intros ->; eauto.
Qed.

Lemma clean_date_value pad s v :
  value_of (_clean_date pad) s = Return v ->
  v = PNone
  \/ exists t, valid_date t = true /\ v = PStr (strftime_Y_m_d pad t).
Proof.
  unfold value_of, _clean_date; destruct (is_missing s);
    [simpl; intro H; inversion H; auto |].
  destruct (try_formats_first pad s date_formats)
    as [(k & fmt & t & _ & _ & Hp & ->) | [_ ->]]; simpl;
    intro H; inversion H; auto.
  right; exists t; split; [eapply strptime_valid; eauto | reflexivity].
Qed.

(** What the cells of one row of the output hold, by field.  A year is an
    integer in a column of dtype [int64], a float in one of dtype
    [float64], where [nan] stands for [None], and [None] itself in a
    column of [None] only. *)
Definition row_in_range (pad_year : bool) (cols : list string)
  (row : list pyval) : Prop :=
  let at_ c := cell PNone cols c row in
  (In "year_level" cols ->
     at_ "year_level" = PNone
     \/ at_ "year_level" = PFloat S754_nan
     \/ exists z, 1 <= z <= 4
          /\ (at_ "year_level" = PInt z \/ at_ "year_level" = PFloat (of_int z)))
  /\ (In "status" cols ->
        exists v, at_ "status" = PStr v /\ In v statuses)
  /\ (In "email" cols ->
        at_ "email" = PNone
        \/ exists v, at_ "email" = PStr v /\ email_shape v)
  /\ (In "date_of_birth" cols ->
        at_ "date_of_birth" = PNone
        \/ exists t, valid_date t = true
             /\ at_ "date_of_birth" = PStr (strftime_Y_m_d pad_year t)
             /\ (pad_year = true \/ 1000 <= year t ->
                 is_canonical_date (strftime_Y_m_d pad_year t) = true)).

Lemma output_column_source pad df self out rep self' c :
  transform pad df self = (Return (out, rep), self') ->
  In c (columns out) ->
  In c schema_columns /\ exists h, In h (columns df) /\ rename h = c.
Proof.
  intros H Hc; apply transform_columns in H; rewrite H in Hc.
  apply filter_In in Hc as [S E]; split; [exact S |].
  apply existsb_eqb_In, in_map_iff in E as (h & E & Hh); eauto.
Qed.

(** X16.  The ranges of the output.  In every row of the frame [transform]
    returns on a well-formed frame, the year is an integer from 1 to 4, as
    an integer or as the float of the same value, or it is [None] or [nan];
    the status is one of the four status names, the e-mail is [None] or an
    address of the accepted shape, and the date of birth is [None] or a real
    calendar date printed as year, month and day (of the form YYYY-MM-DD
    from the year 1000 on). *)
Theorem transform_rows_in_range :
  forall (pad_year : bool) (df : DataFrame string) (self : DataTransformer)
         (out : DataFrame pyval) (rep : TransformReport) (self' : DataTransformer),
    wf_frame df ->
    transform pad_year df self = (Return (out, rep), self') ->
    forall i, (i < List.length (rows out))%nat ->
      row_in_range pad_year (columns out) (nth i (rows out) []).
Proof.
  intros pad df self out rep self' W H i Hi.
  pose proof (fun i h => transform_cell_source pad df self out rep self' i h W H)
    as Hc.
  assert (Cell : forall c, In c (columns out) ->
            exists raw v,
              cleaned_cell pad c raw = Return v
              /\ (cell PNone (columns out) c (nth i (rows out) []) = v
                  \/ c = "year_level"
                     /\ cell PNone (columns out) c (nth i (rows out) [])
                        = to_float64 v)).
  { intros c Hin.
    destruct (output_column_source _ _ _ _ _ _ c H Hin) as (S & h & Hh & <-).
    eexists; apply Hc; auto. }
  unfold row_in_range; cbv zeta; repeat split; intro Hin;
    destruct (Cell _ Hin) as (raw & v & E & [-> | [Y ->]]);
    try discriminate Y;
    unfold cleaned_cell, validators in E; cbn [dict_get] in E;
    simpl String.eqb in E; cbv iota in E.
  - apply value_of_run in E as (s & E).
    apply clean_year_range in E as [-> | (z & -> & R)]; [now left |].
    right; right; exists z; auto.
  - apply value_of_run in E as (s & E).
    apply clean_year_range in E as [-> | (z & -> & R)];
      [right; now left |].
    right; right; exists z; auto.
  - unfold value_of in E.
    destruct (map_status_value raw __init__) as (w & Ev & Hv).
    rewrite Ev in E; simpl in E; inversion E; eauto.
  - apply value_of_run in E as (s & E).
    destruct v as [| w | z | x]; auto.
    + right; exists w; split; auto.
      apply clean_email_accepted in E as (_ & _ & R).
      now apply email_pattern_shape.
    + unfold _clean_email in E; destruct (is_missing raw); [discriminate |].
      destruct (negb _); discriminate.
    + unfold _clean_email in E; destruct (is_missing raw); [discriminate |].
      destruct (negb _); discriminate.
  - apply clean_date_value in E as [E | (t & V & E)]; auto.
    right; exists t; repeat split; auto.
    intro Hy; now apply strftime_canonical.
Qed.

Lemma transform_rows_in_range_witness :
  wf_frame mixed_sheet
  /\ transform false mixed_sheet __init__
     = (Return (mixed_out, mixed_report), mixed_final)
  /\ forall i, (i < List.length (rows mixed_out))%nat ->
       row_in_range false (columns mixed_out) (nth i (rows mixed_out) []).
Proof.
  split; [reflexivity |]. split; [reflexivity |].
  apply (transform_rows_in_range false mixed_sheet __init__ mixed_out
           mixed_report mixed_final);
    reflexivity.
Defined.
